(** * Courier service: booking cost, payment, login, registration and
      feedback listing

    A shallow embedding of the parts of the parcel application that the
    specification talks about, followed by the properties proved of them.

    - [Js]: the JavaScript Number operations the officer booking form uses,
      on IEEE-754 binary64 values (Rocq's primitive floats), so that the
      arithmetic of [calculateCost] is the arithmetic the browser performs.
    - [OfficerBookingComponent]: [calculateCost] of
      officer-booking.component.ts.
    - [CostCalculator]: the backend calculator, which BookingController calls
      and whose own source file is not available; it follows the
      specification.
    - [Backend]: an exception-and-store monad, the repositories as lists of
      rows, BookingService, PaymentController, AuthService and
      FeedbackService. *)

From Stdlib Require Import ZArith List String Ascii Bool Lia QArith Qround Uint63.
From Stdlib Require Import Floats.PrimFloat Floats.SpecFloat Floats.FloatOps.
Import ListNotations.

#[local] Set Warnings "-inexact-float".
#[local] Open Scope string_scope.
#[local] Open Scope Z_scope.

(** ** JavaScript numbers *)

Module Js.

Definition number : Set := float.

(** The Number with the integer value [z] (exact for |z| < 2^53). *)
Definition of_Z (z : Z) : number :=
  if z <? 0 then PrimFloat.opp (PrimFloat.of_uint63 (Uint63.of_Z (- z)))
  else PrimFloat.of_uint63 (Uint63.of_Z z).

(** [floor (x + 1/2)] computed exactly on the value [v * 2^e] of a finite
    binary64 number, [v] being the signed mantissa: [v * 2^e] itself when
    [0 <= e], and [(2 * v + 2^k) / 2^(k + 1)] rounded down when [e = - k < 0].
    [None] for NaN and the infinities. *)
Definition round_half_up (x : number) : option Z :=
  match Prim2SF x with
  | S754_zero _ => Some 0
  | S754_finite s m e =>
      let v := if s then Z.neg m else Z.pos m in
      if 0 <=? e then Some (Z.shiftl v e)
      else Some (Z.shiftr (2 * v + Z.shiftl 1 (- e)) (1 - e))
  | S754_infinity _ | S754_nan => None
  end.

Definition is_negative (x : number) : bool :=
  match Prim2SF x with
  | S754_zero s | S754_infinity s | S754_finite s _ _ => s
  | S754_nan => false
  end.

(** [Math.round]: the integral Number closest to [x], ties towards
    +infinity; NaN, the infinities and the zeros are returned unchanged, and
    a negative [x] that rounds to zero gives -0. *)
Definition Math_round (x : number) : number :=
  match round_half_up x with
  | None => x
  | Some 0 => if is_negative x then PrimFloat.neg_zero else PrimFloat.zero
  | Some z => of_Z z
  end.

(** [a || b] on an optional numeric form value: [null] and [0] are falsy. *)
Definition or_num (a : option Z) (b : Z) : Z :=
  match a with
  | None => b
  | Some 0 => b
  | Some z => z
  end.

(** [a || b] on strings: only the empty string is falsy. *)
Definition or_str (a b : string) : string :=
  match a with
  | EmptyString => b
  | _ => a
  end.

End Js.

(** ** officer-booking.component.ts *)

Module OfficerBookingComponent.

Import Js.

(** The three controls of [bookingForm] that [calculateCost] reads.  The
    weight control is bound to an [<input type="number">]: its value is
    [null] while the field is empty and a number otherwise; the booking
    stores whole grams, so the number is modelled as an integer. *)
Record BookingForm : Set := {
  weight : option Z;
  deliveryType : string;
  packingPreference : string
}.

(** The cost fields of the component that [calculateCost] assigns. *)
Record Component : Set := {
  calculatedCost : number;
  weightCharge : number;
  deliveryCharge : number;
  packingCharge : number;
  subtotal : number;
  taxAmount : number;
  parcelWeightInGram : number
}.

(** Field initialisers of the class. [baseRate] and [adminFee] are never
    assigned by any method, so they are constants here. *)
Definition baseRate : number := 50%float.
Definition adminFee : number := 50%float.

Definition initial : Component := {|
  calculatedCost := 0%float;
  weightCharge := 0%float;
  deliveryCharge := 0%float;
  packingCharge := 0%float;
  subtotal := 0%float;
  taxAmount := 0%float;
  parcelWeightInGram := 0%float
|}.

(** [Validators.required], [Validators.min(100)], [Validators.max(50000)]:
    each returns whether it reports an error.  [min] and [max] report
    nothing on an empty control. *)
Definition required_error (v : option Z) : bool :=
  match v with None => true | Some _ => false end.

Definition min_error (bound : Z) (v : option Z) : bool :=
  match v with None => false | Some z => z <? bound end.

Definition max_error (bound : Z) (v : option Z) : bool :=
  match v with None => false | Some z => bound <? z end.

(** [bookingForm.get('weight')?.valid] *)
Definition weight_valid (form : BookingForm) : bool :=
  negb (required_error (weight form)
        || min_error 100 (weight form)
        || max_error 50000 (weight form)).

(** The [switch (deliveryType)] block. *)
Definition deliveryChargeFor (deliveryType : string) : number :=
  if String.eqb deliveryType "STANDARD" then 30%float
  else if String.eqb deliveryType "EXPRESS" then 80%float
  else if String.eqb deliveryType "SAME_DAY" then 150%float
  else 30%float.

(** The [switch (packingType)] block. *)
Definition packingChargeFor (packingType : string) : number :=
  if String.eqb packingType "BASIC" then 10%float
  else if String.eqb packingType "PREMIUM" then 20%float
  else 10%float.

Definition calculateCost (form : BookingForm) (this : Component) : Component :=
  let weight := or_num (weight form) 0 in
  let deliveryType := or_str (deliveryType form) "STANDARD" in
  let packingType := or_str (packingPreference form) "BASIC" in
  let parcelWeightInGram := of_Z (or_num (Some weight) 0) in
  if negb (weight_valid form) then
    {| calculatedCost := 0%float;
       weightCharge := 0%float;
       deliveryCharge := 0%float;
       packingCharge := 0%float;
       subtotal := 0%float;
       taxAmount := 0%float;
       parcelWeightInGram := parcelWeightInGram |}
  else
    let weightCharge := (parcelWeightInGram * 0.02)%float in
    let deliveryCharge := deliveryChargeFor deliveryType in
    let packingCharge := packingChargeFor packingType in
    let subtotal :=
      (baseRate + weightCharge + deliveryCharge + packingCharge + adminFee)%float in
    let taxAmount := (subtotal * 0.05)%float in
    {| calculatedCost := Math_round (subtotal + taxAmount)%float;
       weightCharge := weightCharge;
       deliveryCharge := deliveryCharge;
       packingCharge := packingCharge;
       subtotal := subtotal;
       taxAmount := taxAmount;
       parcelWeightInGram := parcelWeightInGram |}.

Definition getDeliveryTypeName (form : BookingForm) : string :=
  let deliveryType := deliveryType form in
  if String.eqb deliveryType "STANDARD" then "Standard Delivery"
  else if String.eqb deliveryType "EXPRESS" then "Express Delivery"
  else if String.eqb deliveryType "SAME_DAY" then "Same Day Delivery"
  else "Standard Delivery".

Definition getPackingTypeName (form : BookingForm) : string :=
  let packingType := packingPreference form in
  if String.eqb packingType "BASIC" then "Basic Packing"
  else if String.eqb packingType "PREMIUM" then "Premium Packing"
  else "Basic Packing".

End OfficerBookingComponent.

(** ** CostCalculator (com.courier.util) *)

Module CostCalculator.

Inductive DeliveryType : Set := STANDARD | EXPRESS | SAME_DAY.
Inductive PackingPreference : Set := BASIC | PREMIUM.

#[local] Open Scope Q_scope.

Definition baseRate : Q := 50.
Definition adminFee : Q := 50.
Definition taxRate : Q := 5 # 100.

Definition weightCharge (weight : Z) : Q := inject_Z weight * (2 # 100).

(** An absent ([null]) enum value stands for "unrecognized". *)
Definition deliveryCharge (d : option DeliveryType) : Q :=
  match d with
  | Some STANDARD => 30
  | Some EXPRESS => 80
  | Some SAME_DAY => 150
  | None => 30
  end.

Definition packingCharge (p : option PackingPreference) : Q :=
  match p with
  | Some BASIC => 10
  | Some PREMIUM => 20
  | None => 10
  end.

(** Round to the nearest whole unit, halves upwards. *)
Definition round (q : Q) : Z := Qfloor (q + (1 # 2)).

(** Modelled from the spec: [CostCalculator.calculateServiceCost], which
    BookingController calls with [isOfficerBooking = false] for customer
    bookings and [true] for officer bookings, is not among the sources.
    The spec's section 4.1 gives the formula
    [total = round((baseRate + weightCharge + deliveryCharge + packingCharge
    + adminFee) * (1 + taxRate))] with baseRate 50, weightCharge
    weight * 0.02, delivery 30/80/150, packing 10/20, adminFee 50 applied
    when the officer flag is set, taxRate 0.05, intermediate values at full
    precision and rounding (half up) at the final step only. *)
Definition calculateServiceCost
    (parcelWeightInGram : Z) (deliveryType : option DeliveryType)
    (packingPreference : option PackingPreference)
    (isOfficerBooking : bool) : Z :=
  round ((baseRate + weightCharge parcelWeightInGram
          + deliveryCharge deliveryType + packingCharge packingPreference
          + (if isOfficerBooking then adminFee else 0))
         * (1 + taxRate)).

End CostCalculator.

(** ** Strings as Java and the database see them *)

Module Text.

#[local] Open Scope nat_scope.

Definition lower_ascii (c : ascii) : ascii :=
  let n := nat_of_ascii c in
  if (65 <=? n) && (n <=? 90) then ascii_of_nat (n + 32) else c.

(** SQL [LOWER] on ASCII text: the letters A to Z are folded, every other
    character is kept.  What a database does to letters outside ASCII
    depends on its character set and is outside this model. *)
Fixpoint LOWER (s : string) : string :=
  match s with
  | EmptyString => EmptyString
  | String c s' => String (lower_ascii c) (LOWER s')
  end.

(** SQL [text LIKE pattern]: [%] matches any run of characters, [_] any
    single character, every other character itself.  The queries give no
    ESCAPE clause, and no escape character is modelled: a database that then
    takes the backslash as escape character (MySQL, PostgreSQL, H2) differs
    from this on patterns that hold a backslash. *)
Fixpoint like (pattern : string) : string -> bool :=
  match pattern with
  | EmptyString =>
      fun text => match text with EmptyString => true | String _ _ => false end
  | String c pattern' =>
      if Ascii.eqb c "%" then
        fix any (text : string) : bool :=
          like pattern' text
          || match text with
             | EmptyString => false
             | String _ text' => any text'
             end
      else if Ascii.eqb c "_" then
        fun text =>
          match text with
          | EmptyString => false
          | String _ text' => like pattern' text'
          end
      else
        fun text =>
          match text with
          | EmptyString => false
          | String d text' => Ascii.eqb c d && like pattern' text'
          end
  end.

(** [LOWER(column) LIKE LOWER(CONCAT('%', :param, '%'))] *)
Definition containsIgnoreCase (column param : string) : bool :=
  like (LOWER ("%" ++ param ++ "%")) (LOWER column).

Definition is_space (c : ascii) : bool := nat_of_ascii c <=? 32.

Fixpoint trim_left (s : string) : string :=
  match s with
  | EmptyString => EmptyString
  | String c s' => if is_space c then trim_left s' else s
  end.

Fixpoint trim_right (s : string) : string :=
  match s with
  | EmptyString => EmptyString
  | String c s' =>
      match trim_right s' with
      | EmptyString => if is_space c then EmptyString else String c EmptyString
      | rest => String c rest
      end
  end.

(** [String.trim]: drops leading and trailing characters up to U+0020. *)
Definition trim (s : string) : string := trim_right (trim_left s).

Definition isEmpty (s : string) : bool :=
  match s with EmptyString => true | String _ _ => false end.

Fixpoint startsWith (prefix s : string) : bool :=
  match prefix, s with
  | EmptyString, _ => true
  | String _ _, EmptyString => false
  | String a prefix', String b s' => Ascii.eqb a b && startsWith prefix' s'
  end.

(** [s.contains(part)] *)
Fixpoint contains (part s : string) : bool :=
  startsWith part s
  || match s with
     | EmptyString => false
     | String _ s' => contains part s'
     end.

(** [s.replace(target, replacement)] for a non-empty [target]: every
    occurrence, found from left to right and not overlapping, is replaced.
    [skip] counts the characters of a matched occurrence still to drop. *)
Fixpoint replace_from (skip : nat) (target replacement s : string) : string :=
  match s with
  | EmptyString => EmptyString
  | String c s' =>
      match skip with
      | S skip' => replace_from skip' target replacement s'
      | O =>
          if startsWith target s
          then replacement
               ++ replace_from (String.length target - 1) target replacement s'
          else String c (replace_from O target replacement s')
      end
  end.

Definition replace (target replacement s : string) : string :=
  replace_from O target replacement s.

End Text.

(** ** The backend: entities, store and exceptions *)

Module Backend.

Inductive UserRole : Set := CUSTOMER | OFFICER.

Inductive ParcelStatus : Set :=
  NEW | BOOKED | IN_TRANSIT | DELIVERED | CANCELLED.

Definition UserRole_eqb (a b : UserRole) : bool :=
  match a, b with
  | CUSTOMER, CUSTOMER | OFFICER, OFFICER => true
  | _, _ => false
  end.

Definition UserRole_toString (r : UserRole) : string :=
  match r with CUSTOMER => "CUSTOMER" | OFFICER => "OFFICER" end.

Module Customer.
Record t : Set := {
  id : option Z;
  customerName : string;
  email : string;
  password : string;
  countryCode : string;
  mobileNumber : string;
  address : string;
  role : UserRole;
  uniqueId : string;
  getUpdatesVia : string
}.
End Customer.

Module Booking.
Record t : Set := {
  id : option Z;
  bookingId : string;
  customer : option Z;
  receiverName : string;
  parcelWeightInGram : Z;
  parcelServiceCost : Z;
  parcelStatus : ParcelStatus
}.

Definition setParcelStatus (b : t) (s : ParcelStatus) : t :=
  {| id := id b; bookingId := bookingId b; customer := customer b;
     receiverName := receiverName b;
     parcelWeightInGram := parcelWeightInGram b;
     parcelServiceCost := parcelServiceCost b;
     parcelStatus := s |}.
End Booking.

Module Payment.
(** Modelled from the spec: the Payment entity is not among the sources;
    section 3 lists its attributes: linked booking (at most one payment
    per booking), payment id, transaction id, amount, timestamp and
    masked card reference. *)
Record t : Set := {
  paymentId : string;
  transactionId : string;
  booking : string;
  amount : Z;
  paymentTime : string;
  maskedCard : string
}.
End Payment.

Module Feedback.
Record t : Set := {
  id : option Z;
  customer : Customer.t;
  booking : Booking.t;
  feedbackDescription : string;
  rating : Z
}.
End Feedback.

(** The relational store: one list of rows per table, in insertion order. *)
Record Database : Set := {
  customers : list Customer.t;
  bookings : list Booking.t;
  payments : list Payment.t;
  feedbacks : list Feedback.t
}.

Definition with_customers (db : Database) (l : list Customer.t) : Database :=
  {| customers := l; bookings := bookings db;
     payments := payments db; feedbacks := feedbacks db |}.

Definition with_bookings (db : Database) (l : list Booking.t) : Database :=
  {| customers := customers db; bookings := l;
     payments := payments db; feedbacks := feedbacks db |}.

Definition with_payments (db : Database) (l : list Payment.t) : Database :=
  {| customers := customers db; bookings := bookings db;
     payments := l; feedbacks := feedbacks db |}.

Definition with_feedbacks (db : Database) (l : list Feedback.t) : Database :=
  {| customers := customers db; bookings := bookings db;
     payments := payments db; feedbacks := l |}.

Definition ParcelStatus_eqb (a b : ParcelStatus) : bool :=
  match a, b with
  | NEW, NEW | BOOKED, BOOKED | IN_TRANSIT, IN_TRANSIT
  | DELIVERED, DELIVERED | CANCELLED, CANCELLED => true
  | _, _ => false
  end.

(** *** Computations that read and write the store and may throw *)

Inductive Outcome (A : Type) : Type :=
| Return (a : A)
| Throw (message : string).
Arguments Return {A} a.
Arguments Throw {A} message.

Definition M (A : Type) : Type := Database -> Outcome A * Database.

Definition ret {A} (a : A) : M A := fun db => (Return a, db).

Definition throw {A} (message : string) : M A := fun db => (Throw message, db).

Definition bind {A B} (m : M A) (k : A -> M B) : M B :=
  fun db =>
    match m db with
    | (Return a, db') => k a db'
    | (Throw e, db') => (Throw e, db')
    end.

(** [try { m } catch (Exception e) { handler e }]: what [m] wrote before
    it threw stays written (no method here is transactional). *)
Definition try_catch {A} (m : M A) (handler : string -> M A) : M A :=
  fun db =>
    match m db with
    | (Return a, db') => (Return a, db')
    | (Throw e, db') => handler e db'
    end.

Definition get : M Database := fun db => (Return db, db).
Definition put (db : Database) : M unit := fun _ => (Return tt, db).

Declare Scope backend_scope.
Delimit Scope backend_scope with backend.
Notation "x <- m ;; k" := (bind m (fun x => k))
  (at level 100, m at next level, right associativity) : backend_scope.
#[local] Open Scope backend_scope.

(** A derived query declared to return [Optional<T>]: empty when no row
    matches, the row when exactly one does, and an exception when several
    do. *)
Definition uniqueResult {A} (rows : list A) : M (option A) :=
  match rows with
  | [] => ret None
  | [row] => ret (Some row)
  | _ :: _ :: _ => throw "query did not return a unique result"
  end.

Definition max_id (ids : list (option Z)) : Z :=
  fold_right (fun i acc => match i with Some z => Z.max z acc | None => acc end)
             0 ids.

Definition option_Z_eqb (a b : option Z) : bool :=
  match a, b with
  | Some x, Some y => x =? y
  | None, None => true
  | _, _ => false
  end.

(** *** Collaborators outside the repository

    The clock, the random source, the password hasher and the token
    issuer, as the values and functions the services obtain from them.
    [generateToken] is [JwtUtil.generateToken(email, userId, role)]: it
    returns the token or throws; it builds the signing key from the
    configured secret with [Keys.hmacShaKeyFor], which throws for a secret
    shorter than 256 bits, and it calls [userId.toString()]. *)
Record Env : Type := {
  currentTimeMillis : string;
  random : string;
  encode : string -> string;
  matches : string -> string -> bool;
  generateToken : string -> option Z -> UserRole -> Outcome string
}.

(** A call of a collaborator that returns or throws and does not touch the
    store. *)
Definition call {A} (o : Outcome A) : M A := fun db => (o, db).

(** *** Paging (Spring Data) *)

Record Pageable : Set := { pageNumber : nat; pageSize : nat }.

Record Page (A : Type) : Type := {
  content : list A;
  totalElements : nat;
  number : nat;
  size : nat
}.
Arguments content {A} p.
Arguments totalElements {A} p.
Arguments number {A} p.
Arguments size {A} p.

Definition hasContent {A} (p : Page A) : bool :=
  match content p with [] => false | _ :: _ => true end.

Definition PageRequest_of (page size : nat) : Pageable :=
  {| pageNumber := page; pageSize := size |}.

(** The page of [rows] that [pageable] selects, with the total count. *)
Definition page_of {A} (rows : list A) (pageable : Pageable) : Page A :=
  {| content := firstn (pageSize pageable)
                  (skipn (pageNumber pageable * pageSize pageable) rows);
     totalElements := List.length rows;
     number := pageNumber pageable;
     size := pageSize pageable |}.

(** *** Repositories *)

Module BookingRepository.

(** The operations of the interface that the services below call. *)
Record t : Type := {
  findByBookingId : string -> M (option Booking.t);
  save : Booking.t -> M Booking.t
}.

Definition setId (b : Booking.t) (i : Z) : Booking.t :=
  {| Booking.id := Some i; Booking.bookingId := Booking.bookingId b;
     Booking.customer := Booking.customer b;
     Booking.receiverName := Booking.receiverName b;
     Booking.parcelWeightInGram := Booking.parcelWeightInGram b;
     Booking.parcelServiceCost := Booking.parcelServiceCost b;
     Booking.parcelStatus := Booking.parcelStatus b |}.

Definition jpa_findByBookingId (bookingId : string) : M (option Booking.t) :=
  db <- get;;
  uniqueResult
    (filter (fun b => String.eqb (Booking.bookingId b) bookingId) (bookings db)).

(** [save]: a row without id is inserted under a fresh id; a row whose id
    is in the table replaces that row; otherwise the row is inserted. *)
Definition jpa_save (b : Booking.t) : M Booking.t :=
  db <- get;;
  match Booking.id b with
  | None =>
      let b' := setId b (max_id (map Booking.id (bookings db)) + 1) in
      _ <- put (with_bookings db (bookings db ++ [b'])%list);;
      ret b'
  | Some i =>
      if existsb (fun r => option_Z_eqb (Booking.id r) (Some i)) (bookings db)
      then
        _ <- put (with_bookings db
                    (map (fun r => if option_Z_eqb (Booking.id r) (Some i)
                                   then b else r) (bookings db)));;
        ret b
      else
        _ <- put (with_bookings db (bookings db ++ [b])%list);;
        ret b
  end.

Definition jpa : t :=
  {| findByBookingId := jpa_findByBookingId; save := jpa_save |}.

End BookingRepository.

Module CustomerRepository.

Definition setId (c : Customer.t) (i : Z) : Customer.t :=
  {| Customer.id := Some i; Customer.customerName := Customer.customerName c;
     Customer.email := Customer.email c; Customer.password := Customer.password c;
     Customer.countryCode := Customer.countryCode c;
     Customer.mobileNumber := Customer.mobileNumber c;
     Customer.address := Customer.address c; Customer.role := Customer.role c;
     Customer.uniqueId := Customer.uniqueId c;
     Customer.getUpdatesVia := Customer.getUpdatesVia c |}.

Definition findByEmail (email : string) : M (option Customer.t) :=
  db <- get;;
  uniqueResult
    (filter (fun c => String.eqb (Customer.email c) email) (customers db)).

Definition findByUniqueId (uniqueId : string) : M (option Customer.t) :=
  db <- get;;
  uniqueResult
    (filter (fun c => String.eqb (Customer.uniqueId c) uniqueId) (customers db)).

Definition save (c : Customer.t) : M Customer.t :=
  db <- get;;
  match Customer.id c with
  | None =>
      let c' := setId c (max_id (map Customer.id (customers db)) + 1) in
      _ <- put (with_customers db (customers db ++ [c'])%list);;
      ret c'
  | Some i =>
      if existsb (fun r => option_Z_eqb (Customer.id r) (Some i)) (customers db)
      then
        _ <- put (with_customers db
                    (map (fun r => if option_Z_eqb (Customer.id r) (Some i)
                                   then c else r) (customers db)));;
        ret c
      else
        _ <- put (with_customers db (customers db ++ [c])%list);;
        ret c
  end.

(** [findById]: the row with the primary key, if any. *)
Definition findById (id : Z) : M (option Customer.t) :=
  db <- get;;
  ret (find (fun c => option_Z_eqb (Customer.id c) (Some id)) (customers db)).

End CustomerRepository.

Module FeedbackRepository.

Definition findAll (pageable : Pageable) : M (Page Feedback.t) :=
  db <- get;;
  ret (page_of (feedbacks db) pageable).

Definition findByCustomerNameContainingIgnoreCase
    (customerName : string) (pageable : Pageable) : M (Page Feedback.t) :=
  db <- get;;
  ret (page_of
         (filter (fun f => Text.containsIgnoreCase
                             (Customer.customerName (Feedback.customer f))
                             customerName)
                 (feedbacks db))
         pageable).

Definition findByBookingIdContainingIgnoreCase
    (bookingId : string) (pageable : Pageable) : M (Page Feedback.t) :=
  db <- get;;
  ret (page_of
         (filter (fun f => Text.containsIgnoreCase
                             (Booking.bookingId (Feedback.booking f))
                             bookingId)
                 (feedbacks db))
         pageable).

Definition findByFeedbackDescriptionContainingIgnoreCase
    (description : string) (pageable : Pageable) : M (Page Feedback.t) :=
  db <- get;;
  ret (page_of
         (filter (fun f => Text.containsIgnoreCase
                             (Feedback.feedbackDescription f) description)
                 (feedbacks db))
         pageable).

Definition setId (f : Feedback.t) (i : Z) : Feedback.t :=
  {| Feedback.id := Some i; Feedback.customer := Feedback.customer f;
     Feedback.booking := Feedback.booking f;
     Feedback.feedbackDescription := Feedback.feedbackDescription f;
     Feedback.rating := Feedback.rating f |}.

(** [findByBookingId(Long)]: the feedback rows of the booking with that
    primary key. *)
Definition findByBookingId (bookingId : option Z) : M (list Feedback.t) :=
  db <- get;;
  ret (filter (fun f => option_Z_eqb (Booking.id (Feedback.booking f)) bookingId)
              (feedbacks db)).

Definition save (f : Feedback.t) : M Feedback.t :=
  db <- get;;
  match Feedback.id f with
  | None =>
      let f' := setId f (max_id (map Feedback.id (feedbacks db)) + 1) in
      _ <- put (with_feedbacks db (feedbacks db ++ [f'])%list);;
      ret f'
  | Some i =>
      if existsb (fun r => option_Z_eqb (Feedback.id r) (Some i)) (feedbacks db)
      then
        _ <- put (with_feedbacks db
                    (map (fun r => if option_Z_eqb (Feedback.id r) (Some i)
                                   then f else r) (feedbacks db)));;
        ret f
      else
        _ <- put (with_feedbacks db (feedbacks db ++ [f])%list);;
        ret f
  end.

Definition count : M nat :=
  db <- get;;
  ret (List.length (feedbacks db)).

(** [SELECT COUNT(f) FROM Feedback f WHERE f.rating = :rating] *)
Definition countByRating (rating : Z) : M nat :=
  db <- get;;
  ret (List.length (filter (fun f => Feedback.rating f =? rating) (feedbacks db))).

End FeedbackRepository.

(** *** BookingService *)

Module BookingService.

Section WithRepository.
Variable bookingRepository : BookingRepository.t.

Definition createBooking (booking : Booking.t) : M Booking.t :=
  BookingRepository.save bookingRepository booking.

(** [null] is [None]. *)
Definition getBookingById (bookingId : string) : M (option Booking.t) :=
  try_catch
    (BookingRepository.findByBookingId bookingRepository bookingId)
    (fun _ => ret None).

Definition updateBooking (booking : Booking.t) : M (option Booking.t) :=
  try_catch
    (saved <- BookingRepository.save bookingRepository booking;;
     ret (Some saved))
    (fun _ => ret None).
End WithRepository.

End BookingService.

(** *** PaymentService and PaymentController *)

Module PaymentRequest.
Record t : Set := {
  bookingId : string;
  cardNumber : string;
  cardholderName : string;
  expiryDate : string;
  cvv : string
}.
End PaymentRequest.

Module PaymentService.

(** The one operation PaymentController.processPayment calls. *)
Record t : Type := {
  processPayment : Booking.t -> PaymentRequest.t -> M Payment.t
}.

Definition checkPaymentExists (bookingId : string) (db : Database) : bool :=
  existsb (fun p => String.eqb (Payment.booking p) bookingId) (payments db).

Fixpoint last4 (s : string) : string :=
  match s with
  | EmptyString => EmptyString
  | String c s' => if (String.length s' <? 4)%nat then s else last4 s'
  end.

(** Modelled from the spec: the record a payment leaves, with the attributes
    section 3 lists; the identifiers and the time come from the clock. *)
Definition newPayment (env : Env) (booking : Booking.t)
    (request : PaymentRequest.t) : Payment.t :=
  {| Payment.paymentId := "PAY" ++ currentTimeMillis env;
     Payment.transactionId := "TXN" ++ currentTimeMillis env;
     Payment.booking := Booking.bookingId booking;
     Payment.amount := Booking.parcelServiceCost booking;
     Payment.paymentTime := currentTimeMillis env;
     Payment.maskedCard :=
       "**** **** **** " ++ last4 (PaymentRequest.cardNumber request) |}.

(** Modelled from the spec: the states that section 4.2 calls terminal. *)
Definition terminal (s : ParcelStatus) : bool :=
  match s with
  | DELIVERED | CANCELLED => true
  | NEW | BOOKED | IN_TRANSIT => false
  end.

(** Modelled from the spec: PaymentService is not among the sources.
    The spec's sections 3, 6 and 7: a payment is created at most once per
    booking; creating a payment for a booking that already has one is
    rejected (a state-conflict error with a message naming the conflict, and
    no partial mutation).  Section 4.2: payment triggers the transition to
    BOOKED, there is no transition out of DELIVERED or CANCELLED, and a
    transition requested from an invalid source state is rejected with a
    descriptive error, the persisted state left unchanged.  Otherwise a
    Payment record is persisted.  Card details are not validated. *)
Definition modelled_processPayment (env : Env)
    (booking : Booking.t) (request : PaymentRequest.t) : M Payment.t :=
  db <- get;;
  if checkPaymentExists (Booking.bookingId booking) db
  then throw "Payment already exists for this booking"
  else if terminal (Booking.parcelStatus booking)
  then throw "Payment is not allowed for a delivered or cancelled booking"
  else
    let payment := newPayment env booking request in
    _ <- put (with_payments db (payments db ++ [payment])%list);;
    ret payment.

Definition modelled (env : Env) : t :=
  {| processPayment := modelled_processPayment env |}.

End PaymentService.

Record ResponseEntity (A : Type) : Type := { status : Z; body : A }.
Arguments status {A} r.
Arguments body {A} r.

Definition ok {A} (b : A) : ResponseEntity A := {| status := 200; body := b |}.
Definition badRequest {A} (b : A) : ResponseEntity A :=
  {| status := 400; body := b |}.

Module PaymentResponse.
Record t : Set := {
  success : bool;
  message : string;
  payment : option Payment.t
}.
End PaymentResponse.

Module PaymentController.

Section WithServices.
Variable bookingRepository : BookingRepository.t.
Variable paymentService : PaymentService.t.

Definition processPayment (request : PaymentRequest.t)
    : M (ResponseEntity PaymentResponse.t) :=
  try_catch
    (booking <- BookingService.getBookingById bookingRepository
                  (PaymentRequest.bookingId request);;
     match booking with
     | None =>
         ret (badRequest
                {| PaymentResponse.success := false;
                   PaymentResponse.message := "Booking not found";
                   PaymentResponse.payment := None |})
     | Some booking =>
         payment <- PaymentService.processPayment paymentService
                      booking request;;
         let booking := Booking.setParcelStatus booking BOOKED in
         _ <- BookingService.updateBooking bookingRepository booking;;
         ret (ok
                {| PaymentResponse.success := true;
                   PaymentResponse.message := "Payment processed successfully";
                   PaymentResponse.payment := Some payment |})
     end)
    (fun e =>
       ret (badRequest
              {| PaymentResponse.success := false;
                 PaymentResponse.message := "Payment failed: " ++ e;
                 PaymentResponse.payment := None |})).
End WithServices.

End PaymentController.

(** *** AuthService *)

Module AuthResponse.
Record t : Set := {
  success : bool;
  message : string;
  token : option string;
  id : option Z;
  customerName : option string;
  email : option string;
  countryCode : option string;
  mobileNumber : option string;
  address : option string;
  role : option string;
  uniqueId : option string;
  getUpdatesVia : option string
}.

(** [new AuthResponse(false, message, null, ..., null)] *)
Definition failure (message : string) : t :=
  {| success := false; message := message; token := None; id := None;
     customerName := None; email := None; countryCode := None;
     mobileNumber := None; address := None; role := None;
     uniqueId := None; getUpdatesVia := None |}.

Definition of_customer (message token : string) (c : Customer.t) : t :=
  {| success := true; message := message; token := Some token;
     id := Customer.id c;
     customerName := Some (Customer.customerName c);
     email := Some (Customer.email c);
     countryCode := Some (Customer.countryCode c);
     mobileNumber := Some (Customer.mobileNumber c);
     address := Some (Customer.address c);
     role := Some (UserRole_toString (Customer.role c));
     uniqueId := Some (Customer.uniqueId c);
     getUpdatesVia := Some (Customer.getUpdatesVia c) |}.
End AuthResponse.

Module RegisterRequest.
Record t : Set := {
  customerName : string;
  email : string;
  countryCode : string;
  mobileNumber : string;
  address : string;
  password : string;
  role : string;
  preferences : string
}.
End RegisterRequest.

Module LoginRequest.
(** The [email] property carries the unique id typed at login. *)
Record t : Set := { email : string; password : string }.
End LoginRequest.

Module PasswordChangeRequest.
(** [newPassword] and [confirmPassword] may be absent from the request body;
    the current password is taken as present (what the hasher does with null
    is outside the repository). *)
Record t : Set := {
  currentPassword : string;
  newPassword : option string;
  confirmPassword : option string
}.
End PasswordChangeRequest.

Module PasswordChangeResponse.
Record t : Set := { success : bool; message : string }.
End PasswordChangeResponse.

Module AuthService.

(** [UserRole.valueOf] *)
Definition UserRole_valueOf (name : string) : M UserRole :=
  if String.eqb name "CUSTOMER" then ret CUSTOMER
  else if String.eqb name "OFFICER" then ret OFFICER
  else throw ("No enum constant com.courier.model.UserRole." ++ name).

(** [s.substring(n)] *)
Fixpoint substring (n : nat) (s : string) : M string :=
  match n, s with
  | O, _ => ret s
  | S n', String _ s' => substring n' s'
  | S _, EmptyString => throw "String index out of range"
  end.

Section WithEnv.
Variable env : Env.

Definition register (request : RegisterRequest.t) : M AuthResponse.t :=
  try_catch
    (existing <- CustomerRepository.findByEmail (RegisterRequest.email request);;
     match existing with
     | Some _ => ret (AuthResponse.failure "Email already registered")
     | None =>
         let hashedPassword := encode env (RegisterRequest.password request) in
         role <- UserRole_valueOf (RegisterRequest.role request);;
         role' <- UserRole_valueOf (RegisterRequest.role request);;
         let prefix := if UserRole_eqb role' CUSTOMER then "CUST" else "OFF" in
         timestamp <- substring 8 (currentTimeMillis env);;
         let randomSuffix := random env in
         let customer :=
           {| Customer.id := None;
              Customer.customerName := RegisterRequest.customerName request;
              Customer.email := RegisterRequest.email request;
              Customer.password := hashedPassword;
              Customer.countryCode := RegisterRequest.countryCode request;
              Customer.mobileNumber := RegisterRequest.mobileNumber request;
              Customer.address := RegisterRequest.address request;
              Customer.role := role;
              Customer.uniqueId := prefix ++ timestamp ++ randomSuffix;
              Customer.getUpdatesVia := RegisterRequest.preferences request |} in
         savedCustomer <- CustomerRepository.save customer;;
         token <- call (generateToken env (Customer.email savedCustomer)
                          (Customer.id savedCustomer)
                          (Customer.role savedCustomer));;
         ret (AuthResponse.of_customer
                ("Registration successful for: "
                 ++ Customer.customerName savedCustomer)
                token savedCustomer)
     end)
    (fun e => ret (AuthResponse.failure ("Registration failed: " ++ e))).

Definition login (request : LoginRequest.t) : M AuthResponse.t :=
  customerOpt <- CustomerRepository.findByUniqueId (LoginRequest.email request);;
  match customerOpt with
  | None => ret (AuthResponse.failure "Invalid Customer ID or password")
  | Some customer =>
      if negb (UserRole_eqb (Customer.role customer) CUSTOMER) then
        ret (AuthResponse.failure
               "Access denied. Customer login required. Please use officer login for officer accounts.")
      else if negb (matches env (LoginRequest.password request)
                      (Customer.password customer)) then
        ret (AuthResponse.failure "Invalid Customer ID or password")
      else
        token <- call (generateToken env (Customer.email customer)
                         (Customer.id customer) (Customer.role customer));;
        ret (AuthResponse.of_customer "Login successful" token customer)
  end.

Definition officerLogin (request : LoginRequest.t) : M AuthResponse.t :=
  customerOpt <- CustomerRepository.findByUniqueId (LoginRequest.email request);;
  match customerOpt with
  | None => ret (AuthResponse.failure "Invalid Officer ID or password")
  | Some customer =>
      if negb (UserRole_eqb (Customer.role customer) OFFICER) then
        ret (AuthResponse.failure "Access denied. Officer privileges required")
      else if negb (matches env (LoginRequest.password request)
                      (Customer.password customer)) then
        ret (AuthResponse.failure "Invalid Officer ID or password")
      else
        token <- call (generateToken env (Customer.email customer)
                         (Customer.id customer) (Customer.role customer));;
        ret (AuthResponse.of_customer "Login successful" token customer)
  end.
Definition getCustomerById (id : Z) : M (option Customer.t) :=
  CustomerRepository.findById id.

Definition getCustomerByEmail (email : string) : M (option Customer.t) :=
  CustomerRepository.findByEmail email.

Definition setPassword (c : Customer.t) (password : string) : Customer.t :=
  {| Customer.id := Customer.id c; Customer.customerName := Customer.customerName c;
     Customer.email := Customer.email c; Customer.password := password;
     Customer.countryCode := Customer.countryCode c;
     Customer.mobileNumber := Customer.mobileNumber c;
     Customer.address := Customer.address c; Customer.role := Customer.role c;
     Customer.uniqueId := Customer.uniqueId c;
     Customer.getUpdatesVia := Customer.getUpdatesVia c |}.

(** [nullPointerMessage] is the message of the NullPointerException that
    [request.getNewPassword().equals(...)] raises on an absent new password;
    its text depends on the Java runtime. *)
Definition changePassword (nullPointerMessage : string)
    (userId : Z) (request : PasswordChangeRequest.t)
    : M PasswordChangeResponse.t :=
  try_catch
    (found <- CustomerRepository.findById userId;;
     customer <- match found with
                 | Some c => ret c
                 | None => throw "Customer not found"
                 end;;
     let passwordMatches :=
       matches env (PasswordChangeRequest.currentPassword request)
         (Customer.password customer) in
     if negb passwordMatches then
       ret {| PasswordChangeResponse.success := false;
              PasswordChangeResponse.message := "Current password is incorrect" |}
     else
       newPassword <- match PasswordChangeRequest.newPassword request with
                      | Some p => ret p
                      | None => throw nullPointerMessage
                      end;;
       if negb (match PasswordChangeRequest.confirmPassword request with
                | Some p => String.eqb newPassword p
                | None => false
                end) then
         ret {| PasswordChangeResponse.success := false;
                PasswordChangeResponse.message :=
                  "New password and confirm password do not match" |}
       else
         let hashedPassword := encode env newPassword in
         _ <- CustomerRepository.save (setPassword customer hashedPassword);;
         ret {| PasswordChangeResponse.success := true;
                PasswordChangeResponse.message := "Password updated successfully" |})
    (fun e =>
       ret {| PasswordChangeResponse.success := false;
              PasswordChangeResponse.message := "Failed to update password: " ++ e |}).

End WithEnv.

End AuthService.

Module FeedbackRequest.
Record t : Set := { bookingId : string; description : string; rating : Z }.
End FeedbackRequest.

Module FeedbackStatistics.
(** The keys that [getFeedbackStatistics] puts into its map. *)
Record t : Set := {
  totalFeedbacks : nat;
  averageRating : Js.number;
  fiveStarFeedbacks : nat;
  fourStarFeedbacks : nat;
  threeStarFeedbacks : nat;
  twoStarFeedbacks : nat;
  oneStarFeedbacks : nat
}.
End FeedbackStatistics.

(** *** FeedbackService *)

Module FeedbackService.

(** [filter] is [None] when the request carries no filter parameter. *)
Definition getOfficerFeedbackPaginated
    (pageable : Pageable) (filter : option string) : M (Page Feedback.t) :=
  try_catch
    (match filter with
     | Some filter' =>
         if negb (Text.isEmpty (Text.trim filter')) then
           let trimmedFilter := Text.trim filter' in
           customerResults <-
             FeedbackRepository.findByCustomerNameContainingIgnoreCase
               trimmedFilter pageable;;
           if hasContent customerResults then ret customerResults
           else
             bookingResults <-
               FeedbackRepository.findByBookingIdContainingIgnoreCase
                 trimmedFilter pageable;;
             if hasContent bookingResults then ret bookingResults
             else
               descriptionResults <-
                 FeedbackRepository.findByFeedbackDescriptionContainingIgnoreCase
                   trimmedFilter pageable;;
               if hasContent descriptionResults then ret descriptionResults
               else
                 FeedbackRepository.findAll
                   (PageRequest_of 0 (pageSize pageable))
         else FeedbackRepository.findAll pageable
     | None => FeedbackRepository.findAll pageable
     end)
    (fun _ => throw "Failed to retrieve feedback data").

(** The creation and update times that the source also stamps on the new
    row are not columns of [Feedback.t]. *)
Definition addFeedback (customer : Customer.t) (booking : Booking.t)
    (request : FeedbackRequest.t) : M Feedback.t :=
  existingFeedback <- FeedbackRepository.findByBookingId (Booking.id booking);;
  match existingFeedback with
  | _ :: _ => throw "Feedback already exists for this booking"
  | [] =>
      FeedbackRepository.save
        {| Feedback.id := None;
           Feedback.customer := customer;
           Feedback.booking := booking;
           Feedback.feedbackDescription := FeedbackRequest.description request;
           Feedback.rating := FeedbackRequest.rating request |}
  end.

Definition getAllDeliveredFeedbackPaginated (pageable : Pageable)
    : M (list Feedback.t) :=
  feedbackPage <- FeedbackRepository.findAll pageable;;
  ret (content feedbackPage).

(** [getAverageRating] is the database's [AVG] over the ratings, absent on an
    empty table; the arithmetic is the database's and is a parameter. *)
Definition getFeedbackStatistics
    (getAverageRating : list Z -> option Js.number) : M FeedbackStatistics.t :=
  try_catch
    (totalFeedbacks <- FeedbackRepository.count;;
     db <- get;;
     let averageRating := getAverageRating (map Feedback.rating (feedbacks db)) in
     fiveStarFeedbacks <- FeedbackRepository.countByRating 5;;
     fourStarFeedbacks <- FeedbackRepository.countByRating 4;;
     threeStarFeedbacks <- FeedbackRepository.countByRating 3;;
     twoStarFeedbacks <- FeedbackRepository.countByRating 2;;
     oneStarFeedbacks <- FeedbackRepository.countByRating 1;;
     ret {| FeedbackStatistics.totalFeedbacks := totalFeedbacks;
            FeedbackStatistics.averageRating :=
              match averageRating with
              | Some a => a
              | None => 0%float
              end;
            FeedbackStatistics.fiveStarFeedbacks := fiveStarFeedbacks;
            FeedbackStatistics.fourStarFeedbacks := fourStarFeedbacks;
            FeedbackStatistics.threeStarFeedbacks := threeStarFeedbacks;
            FeedbackStatistics.twoStarFeedbacks := twoStarFeedbacks;
            FeedbackStatistics.oneStarFeedbacks := oneStarFeedbacks |})
    (fun _ => throw "Failed to retrieve feedback statistics").

Definition getFeedbackCount : M nat :=
  try_catch FeedbackRepository.count (fun _ => ret O).

End FeedbackService.

(** *** JwtUtil

    Token parsing as the controllers use it: each extraction returns the
    claim or throws (bad signature, expired or malformed token); a claim the
    token lacks is null.  The parsing itself belongs to the token library. *)
Module JwtUtil.
Record t : Type := {
  extractEmail : string -> Outcome string;
  extractRole : string -> Outcome (option string);
  extractUserId : string -> Outcome (option Z)
}.

Definition lift {A} (o : Outcome A) : M A := fun db => (o, db).
End JwtUtil.

(** *** FeedbackController *)

Module FeedbackResponse.
Record t : Set := {
  success : bool;
  message : string;
  feedback : option Feedback.t
}.
End FeedbackResponse.

Module FeedbackController.

Section WithServices.
Variable bookingRepository : BookingRepository.t.
Variable jwtUtil : JwtUtil.t.
(** The message of the NullPointerException raised when the booking has no
    customer. *)
Variable nullPointerMessage : string.

Definition failure (message : string) : ResponseEntity FeedbackResponse.t :=
  badRequest {| FeedbackResponse.success := false;
                FeedbackResponse.message := message;
                FeedbackResponse.feedback := None |}.

(** [Booking.customer] is the id of the booking's customer:
    [booking.getCustomer().getId()]. *)
Definition addFeedback (request : FeedbackRequest.t) (token : string)
    : M (ResponseEntity FeedbackResponse.t) :=
  try_catch
    (email <- JwtUtil.lift
                (JwtUtil.extractEmail jwtUtil (Text.replace "Bearer " "" token));;
     customer <- AuthService.getCustomerByEmail email;;
     match customer with
     | None => ret (failure "Customer not found")
     | Some customer =>
         booking <- BookingService.getBookingById bookingRepository
                      (FeedbackRequest.bookingId request);;
         match booking with
         | None => ret (failure "Booking not found")
         | Some booking =>
             bookingCustomerId <- match Booking.customer booking with
                                  | Some i => ret i
                                  | None => throw nullPointerMessage
                                  end;;
             if negb (option_Z_eqb (Some bookingCustomerId) (Customer.id customer))
             then ret (failure "Unauthorized access")
             else if negb (ParcelStatus_eqb (Booking.parcelStatus booking) DELIVERED)
             then ret (failure "Feedback can only be added for delivered parcels")
             else
               feedback <- FeedbackService.addFeedback customer booking request;;
               ret (ok {| FeedbackResponse.success := true;
                          FeedbackResponse.message := "Feedback added successfully";
                          FeedbackResponse.feedback := Some feedback |})
         end
     end)
    (fun e => ret (failure ("Feedback failed: " ++ e))).
End WithServices.

End FeedbackController.

(** *** BookingController *)

Module BookingRequest.
(** The fields of the request that reach a column of [Booking.t] or the cost
    calculation. *)
Record t : Set := {
  receiverName : string;
  parcelWeightInGram : Z;
  parcelDeliveryType : option CostCalculator.DeliveryType;
  parcelPackingPreference : option CostCalculator.PackingPreference
}.
End BookingRequest.

Module BookingResponse.
Record t : Set := {
  success : bool;
  message : string;
  booking : option Booking.t
}.
End BookingResponse.

Module BookingController.

Section WithServices.
Variable bookingRepository : BookingRepository.t.
Variable jwtUtil : JwtUtil.t.
Variable env : Env.
(** [CostCalculator.calculateServiceCost], whatever it computes. *)
Variable calculateServiceCost :
  Z -> option CostCalculator.DeliveryType ->
  option CostCalculator.PackingPreference -> bool -> Z.
(** The booking id that the constructor of Booking generates. *)
Variable generatedBookingId : string.

Definition response (status : Z) (success : bool) (message : string)
    (booking : option Booking.t) : ResponseEntity BookingResponse.t :=
  {| status := status;
     body := {| BookingResponse.success := success;
                BookingResponse.message := message;
                BookingResponse.booking := booking |} |}.

Definition role_is (expected : string) (role : option string) : bool :=
  match role with
  | Some r => String.eqb expected r
  | None => false
  end.

Definition createBooking (request : BookingRequest.t) (token : string)
    : M (ResponseEntity BookingResponse.t) :=
  try_catch
    (email <- JwtUtil.lift
                (JwtUtil.extractEmail jwtUtil (Text.replace "Bearer " "" token));;
     role <- JwtUtil.lift
               (JwtUtil.extractRole jwtUtil (Text.replace "Bearer " "" token));;
     _ <- JwtUtil.lift
            (JwtUtil.extractUserId jwtUtil (Text.replace "Bearer " "" token));;
     if negb (role_is "CUSTOMER" role) then
       ret (response 400 false "Only customers can create bookings" None)
     else
       customer <- AuthService.getCustomerByEmail email;;
       customer <- match customer with
                   | Some c => ret (Some c)
                   | None => AuthService.getCustomerByEmail email
                   end;;
       match customer with
       | None => ret (response 400 false "Customer not found" None)
       | Some customer =>
           let serviceCost :=
             calculateServiceCost
               (BookingRequest.parcelWeightInGram request)
               (BookingRequest.parcelDeliveryType request)
               (BookingRequest.parcelPackingPreference request)
               false in
           let booking :=
             {| Booking.id := None;
                Booking.bookingId := generatedBookingId;
                Booking.customer := Customer.id customer;
                Booking.receiverName := BookingRequest.receiverName request;
                Booking.parcelWeightInGram :=
                  BookingRequest.parcelWeightInGram request;
                Booking.parcelServiceCost := serviceCost;
                Booking.parcelStatus := NEW |} in
           savedBooking <- BookingService.createBooking bookingRepository booking;;
           ret (response 200 true "Booking created successfully" (Some savedBooking))
       end)
    (fun e => ret (response 400 false ("Booking failed: " ++ e) None)).

Definition createOfficerBooking (request : BookingRequest.t) (token : string)
    : M (ResponseEntity BookingResponse.t) :=
  try_catch
    (email <- JwtUtil.lift
                (JwtUtil.extractEmail jwtUtil (Text.replace "Bearer " "" token));;
     role <- JwtUtil.lift
               (JwtUtil.extractRole jwtUtil (Text.replace "Bearer " "" token));;
     _ <- JwtUtil.lift
            (JwtUtil.extractUserId jwtUtil (Text.replace "Bearer " "" token));;
     if negb (role_is "OFFICER" role) then
       ret (response 400 false "Only officers can create officer bookings" None)
     else
       officer <- AuthService.getCustomerByEmail email;;
       officer <- match officer with
                  | Some c => ret (Some c)
                  | None => AuthService.getCustomerByEmail email
                  end;;
       match officer with
       | None => ret (response 400 false "Officer not found" None)
       | Some officer =>
           let serviceCost :=
             calculateServiceCost
               (BookingRequest.parcelWeightInGram request)
               (BookingRequest.parcelDeliveryType request)
               (BookingRequest.parcelPackingPreference request)
               true in
           let booking :=
             {| Booking.id := None;
                Booking.bookingId := "BK" ++ currentTimeMillis env;
                Booking.customer := Customer.id officer;
                Booking.receiverName := BookingRequest.receiverName request;
                Booking.parcelWeightInGram :=
                  BookingRequest.parcelWeightInGram request;
                Booking.parcelServiceCost := serviceCost;
                Booking.parcelStatus := BOOKED |} in
           savedBooking <- BookingService.createBooking bookingRepository booking;;
           ret (response 200 true "Booking created successfully" (Some savedBooking))
       end)
    (fun e => ret (response 500 false ("Failed to create booking: " ++ e) None)).
End WithServices.

End BookingController.

(** *** AuthController *)

Module AuthController.

Section WithEnv.
Variable env : Env.

Definition register (request : RegisterRequest.t)
    : M (ResponseEntity AuthResponse.t) :=
  response <- AuthService.register env request;;
  if AuthResponse.success response then ret (ok response)
  else if Text.contains "Email already registered" (AuthResponse.message response)
  then ret {| status := 409; body := response |}
  else ret (badRequest response).

Definition login (request : LoginRequest.t) : M (ResponseEntity AuthResponse.t) :=
  response <- AuthService.login env request;;
  if AuthResponse.success response then ret (ok response)
  else ret (badRequest response).

Definition officerLogin (request : LoginRequest.t)
    : M (ResponseEntity AuthResponse.t) :=
  response <- AuthService.officerLogin env request;;
  if AuthResponse.success response then ret (ok response)
  else ret (badRequest response).
End WithEnv.

End AuthController.

End Backend.

(** * Vocabulary of the statements

    Names for the forms, rows, responses and sample stores that the
    properties below are stated with. *)

Section CostVocabulary.

Import Js OfficerBookingComponent.

Definition form_of (w : Z) (d p : string) : BookingForm :=
  {| weight := Some w; deliveryType := d; packingPreference := p |}.

(** The value handed to [Math.round] when the weight is valid. *)
Definition unrounded (w : Z) (deliveryCharge packingCharge : number) : number :=
  let weightCharge := (of_Z w * 0.02)%float in
  let subtotal :=
    (baseRate + weightCharge + deliveryCharge + packingCharge + adminFee)%float in
  (subtotal + subtotal * 0.05)%float.

Definition check_step (f : Z -> bool) (st : Z * bool) : Z * bool :=
  (fst st + 1, snd st && f (fst st)).

(** [f] holds on [lo], [lo + 1], ..., [lo + count - 1]. *)
Definition all_between (f : Z -> bool) (lo : Z) (count : positive) : bool :=
  snd (Pos.iter (check_step f) (lo, true) count).

(** The rational formula in integers: with [fixed] the sum of the charges
    that do not depend on the weight,
    [(fixed + w / 50) * 21 / 20 + 1 / 2 = (21 * (w + 50 * fixed) + 500) / 1000]. *)
Definition exact_cost (fixed w : Z) : Z := (21 * (w + 50 * fixed) + 500) / 1000.

Definition fixed_charges
    (d : option CostCalculator.DeliveryType)
    (p : option CostCalculator.PackingPreference) (officer : bool) : Z :=
  50
  + match d with
    | Some CostCalculator.EXPRESS => 80
    | Some CostCalculator.SAME_DAY => 150
    | Some CostCalculator.STANDARD | None => 30
    end
  + match p with
    | Some CostCalculator.PREMIUM => 20
    | Some CostCalculator.BASIC | None => 10
    end
  + (if officer then 50 else 0).

Definition delivery_number (d : CostCalculator.DeliveryType) : number :=
  match d with
  | CostCalculator.STANDARD => 30%float
  | CostCalculator.EXPRESS => 80%float
  | CostCalculator.SAME_DAY => 150%float
  end.

Definition packing_number (p : CostCalculator.PackingPreference) : number :=
  match p with
  | CostCalculator.BASIC => 10%float
  | CostCalculator.PREMIUM => 20%float
  end.

(** How the form's strings read as the backend's enums; what the [switch]
    sends to [default] reads as the enum of the default charge. *)
Definition parse_delivery (d : string) : CostCalculator.DeliveryType :=
  if String.eqb d "STANDARD" then CostCalculator.STANDARD
  else if String.eqb d "EXPRESS" then CostCalculator.EXPRESS
  else if String.eqb d "SAME_DAY" then CostCalculator.SAME_DAY
  else CostCalculator.STANDARD.

Definition parse_packing (p : string) : CostCalculator.PackingPreference :=
  if String.eqb p "BASIC" then CostCalculator.BASIC
  else if String.eqb p "PREMIUM" then CostCalculator.PREMIUM
  else CostCalculator.BASIC.

(** At weight [w] the binary64 value handed to [Math.round] rounds to the
    integer [z] that the exact formula with the admin fee gives, that is
    [1000 * z <= 21 * (w + 50 * fixed) + 500 < 1000 * (z + 1)]. *)
Definition agrees_at
    (d : CostCalculator.DeliveryType) (p : CostCalculator.PackingPreference)
    (w : Z) : bool :=
  match round_half_up (unrounded w (delivery_number d) (packing_number p)) with
  | Some z =>
      let n := 21 * (w + 50 * fixed_charges (Some d) (Some p) true) + 500 in
      (1000 * z <=? n) && (n <? 1000 * z + 1000)
  | None => false
  end.

Definition leb_from (c1 : Z) : bool :=
  let x1 := of_Z c1 in
  all_between (fun c2 => PrimFloat.leb x1 (of_Z c2)) c1 (Z.to_pos (1335 - c1)).

End CostVocabulary.

Section BackendVocabulary.

Import Backend.

(** The rows of the bookings table that carry the external id [bookingId]. *)
Definition rows_with (bookingId : string) (db : Database) : list Booking.t :=
  filter (fun b => String.eqb (Booking.bookingId b) bookingId) (bookings db).

Definition not_found_response : ResponseEntity PaymentResponse.t :=
  badRequest {| PaymentResponse.success := false;
                PaymentResponse.message := "Booking not found";
                PaymentResponse.payment := None |}.

Definition conflict_response : ResponseEntity PaymentResponse.t :=
  badRequest {| PaymentResponse.success := false;
                PaymentResponse.message :=
                  "Payment failed: Payment already exists for this booking";
                PaymentResponse.payment := None |}.

Definition success_response (payment : Payment.t)
    : ResponseEntity PaymentResponse.t :=
  ok {| PaymentResponse.success := true;
        PaymentResponse.message := "Payment processed successfully";
        PaymentResponse.payment := Some payment |}.

(** [save] of a row whose id is in the table. *)
Definition replace_row (b : Booking.t) (rows : list Booking.t) : list Booking.t :=
  map (fun r => if option_Z_eqb (Booking.id r) (Booking.id b) then b else r) rows.

(** Rows read from the table have an id, and ids are a key. *)
Definition persisted (db : Database) : Prop :=
  Forall (fun b => Booking.id b <> None) (bookings db)
  /\ NoDup (map Booking.id (bookings db)).

Definition payment_failed (e : string) : ResponseEntity PaymentResponse.t :=
  badRequest {| PaymentResponse.success := false;
                PaymentResponse.message := "Payment failed: " ++ e;
                PaymentResponse.payment := None |}.

Definition sample_env : Env :=
  {| currentTimeMillis := "1754422694940";
     random := "417";
     encode := fun raw => "#" ++ raw;
     matches := fun raw hashed => String.eqb ("#" ++ raw) hashed;
     generateToken := fun email _ _ => Return ("token:" ++ email) |}.

Definition sample_booking (id : Z) (bookingId : string) (s : ParcelStatus)
    : Booking.t :=
  {| Booking.id := Some id; Booking.bookingId := bookingId;
     Booking.customer := Some 1; Booking.receiverName := "Receiver";
     Booking.parcelWeightInGram := 1000; Booking.parcelServiceCost := 116;
     Booking.parcelStatus := s |}.

Definition sample_request (bookingId : string) : PaymentRequest.t :=
  {| PaymentRequest.bookingId := bookingId;
     PaymentRequest.cardNumber := "4111111111111111";
     PaymentRequest.cardholderName := "Test User";
     PaymentRequest.expiryDate := "12/25";
     PaymentRequest.cvv := "123" |}.

Definition sample_db : Database :=
  {| customers := [];
     bookings := [sample_booking 1 "BK1" NEW; sample_booking 2 "BK2" DELIVERED;
                  sample_booking 3 "BK3" CANCELLED];
     payments := [];
     feedbacks := [] |}.

Definition rows_with_email (email : string) (db : Database) : list Customer.t :=
  filter (fun c => String.eqb (Customer.email c) email) (customers db).

Definition rows_with_uniqueId (uniqueId : string) (db : Database)
    : list Customer.t :=
  filter (fun c => String.eqb (Customer.uniqueId c) uniqueId) (customers db).

Definition invalid_customer : AuthResponse.t :=
  AuthResponse.failure "Invalid Customer ID or password".

Definition invalid_officer : AuthResponse.t :=
  AuthResponse.failure "Invalid Officer ID or password".

Definition customer_login_required : AuthResponse.t :=
  AuthResponse.failure
    "Access denied. Customer login required. Please use officer login for officer accounts.".

Definition officer_privileges_required : AuthResponse.t :=
  AuthResponse.failure "Access denied. Officer privileges required".

Definition sample_customer (id : Z) (uniqueId email : string) (r : UserRole)
    : Customer.t :=
  {| Customer.id := Some id; Customer.customerName := "Asha Rao";
     Customer.email := email; Customer.password := "#secret";
     Customer.countryCode := "+91"; Customer.mobileNumber := "9876543210";
     Customer.address := "12 Lake Road"; Customer.role := r;
     Customer.uniqueId := uniqueId; Customer.getUpdatesVia := "EMAIL" |}.

Definition auth_db : Database :=
  {| customers := [sample_customer 1 "CUST2694940417" "asha@example.com" CUSTOMER;
                   sample_customer 2 "OFF2694941020" "ravi@example.com" OFFICER];
     bookings := []; payments := []; feedbacks := [] |}.

Definition attempt (uniqueId password : string) : LoginRequest.t :=
  {| LoginRequest.email := uniqueId; LoginRequest.password := password |}.

Definition registration (email : string) : RegisterRequest.t :=
  {| RegisterRequest.customerName := "Meera Nair";
     RegisterRequest.email := email;
     RegisterRequest.countryCode := "+91";
     RegisterRequest.mobileNumber := "9123456780";
     RegisterRequest.address := "4 Hill Street";
     RegisterRequest.password := "pass1234";
     RegisterRequest.role := "CUSTOMER";
     RegisterRequest.preferences := "SMS" |}.

Definition matches_customer (t : string) (f : Feedback.t) : bool :=
  Text.containsIgnoreCase (Customer.customerName (Feedback.customer f)) t.

Definition matches_booking (t : string) (f : Feedback.t) : bool :=
  Text.containsIgnoreCase (Booking.bookingId (Feedback.booking f)) t.

Definition matches_description (t : string) (f : Feedback.t) : bool :=
  Text.containsIgnoreCase (Feedback.feedbackDescription f) t.

Definition sample_feedback (id : Z) (bookingId text : string) (stars : Z)
    : Feedback.t :=
  {| Feedback.id := Some id;
     Feedback.customer :=
       sample_customer id "CUST2694940417" "asha@example.com" CUSTOMER;
     Feedback.booking := sample_booking id bookingId DELIVERED;
     Feedback.feedbackDescription := text;
     Feedback.rating := stars |}.

Definition feedback_db : Database :=
  {| customers := []; bookings := []; payments := [];
     feedbacks := [sample_feedback 1 "BK1001" "Quick delivery" 5;
                   sample_feedback 2 "BK1002" "Box was dented" 2] |}.

End BackendVocabulary.

Section MoreCostVocabulary.

Import Js OfficerBookingComponent.

(** The delivery and packing charges of the two [switch] blocks, in whole
    rupees. *)
Definition delivery_rupees (deliveryType : string) : Z :=
  if String.eqb deliveryType "STANDARD" then 30
  else if String.eqb deliveryType "EXPRESS" then 80
  else if String.eqb deliveryType "SAME_DAY" then 150
  else 30.

Definition packing_rupees (packingType : string) : Z :=
  if String.eqb packingType "BASIC" then 10
  else if String.eqb packingType "PREMIUM" then 20
  else 10.

(** The form's total in exact arithmetic: base rate 50, two paise per gram,
    the two charges and the admin fee 50, plus 5 percent, rounded half up:
    [floor ((100 + w / 50 + delivery + packing) * 21 / 20 + 1 / 2)]. *)
Definition exact_total (w : Z) (deliveryType packingType : string) : Z :=
  (21 * (w + 50 * (100 + delivery_rupees deliveryType
                   + packing_rupees packingType)) + 500) / 1000.

End MoreCostVocabulary.

Section MoreVocabulary.

Import Backend.

(** The same row with another primary key. *)
Definition same_columns (a b : Booking.t) : Prop :=
  Booking.bookingId a = Booking.bookingId b
  /\ Booking.customer a = Booking.customer b
  /\ Booking.receiverName a = Booking.receiverName b
  /\ Booking.parcelWeightInGram a = Booking.parcelWeightInGram b
  /\ Booking.parcelServiceCost a = Booking.parcelServiceCost b
  /\ Booking.parcelStatus a = Booking.parcelStatus b.

(** What a successful registration stores for [request]: a row with a fresh
    primary key and an email no row had, the request's name and email, the
    hashed password, the requested role, and a unique id that starts with
    CUST for a customer and OFF for an officer. *)
Definition registered_row (env : Env) (request : RegisterRequest.t)
    (db : Database) (c : Customer.t) : Prop :=
  ~ In (RegisterRequest.email request) (map Customer.email (customers db))
  /\ ~ In (Customer.id c) (map Customer.id (customers db))
  /\ Customer.id c <> None
  /\ Customer.email c = RegisterRequest.email request
  /\ Customer.customerName c = RegisterRequest.customerName request
  /\ Customer.password c = encode env (RegisterRequest.password request)
  /\ exists (role : UserRole) (rest : string),
       Customer.role c = role
       /\ RegisterRequest.role request = UserRole_toString role
       /\ Customer.uniqueId c
          = (match role with CUSTOMER => "CUST" | OFFICER => "OFF" end ++ rest).

(** What the token issuer answers for the account [c]. *)
Definition issued_token (env : Env) (c : Customer.t) : Outcome string :=
  generateToken env (Customer.email c) (Customer.id c) (Customer.role c).

Definition registration_response (token : string) (c : Customer.t)
    : AuthResponse.t :=
  AuthResponse.of_customer
    ("Registration successful for: " ++ Customer.customerName c) token c.

Definition login_response (token : string) (c : Customer.t) : AuthResponse.t :=
  AuthResponse.of_customer "Login successful" token c.

(** What a login answers once the account [c] has passed the role and
    password checks: the success response with the issued token, or the
    token issuer's exception, which neither login catches. *)
Definition login_answer (env : Env) (c : Customer.t) : Outcome AuthResponse.t :=
  match issued_token env c with
  | Return token => Return (login_response token c)
  | Throw e => Throw e
  end.

(** The feedback rows of the booking with primary key [id]. *)
Definition feedback_of (id : option Z) (db : Database) : list Feedback.t :=
  filter (fun f => option_Z_eqb (Booking.id (Feedback.booking f)) id)
         (feedbacks db).

(** What has to hold for the feedback endpoint to store [f] for [request]
    and [token]: the token names the email of exactly one account, the
    booking id names exactly one booking, the booking belongs to that
    account, it is DELIVERED, it has no feedback yet, and [f] is the
    request's text and rating for that account and booking under a fresh
    primary key. *)
Definition feedback_accepted (jwtUtil : JwtUtil.t) (request : FeedbackRequest.t)
    (token : string) (db : Database) (f : Feedback.t) : Prop :=
  exists (email : string) (customer : Customer.t) (booking : Booking.t),
    JwtUtil.extractEmail jwtUtil (Text.replace "Bearer " "" token) = Return email
    /\ filter (fun c => String.eqb (Customer.email c) email) (customers db)
       = [customer]
    /\ rows_with (FeedbackRequest.bookingId request) db = [booking]
    /\ Booking.customer booking <> None
    /\ Booking.customer booking = Customer.id customer
    /\ Booking.parcelStatus booking = DELIVERED
    /\ feedback_of (Booking.id booking) db = []
    /\ f = {| Feedback.id := Some (max_id (map Feedback.id (feedbacks db)) + 1);
              Feedback.customer := customer;
              Feedback.booking := booking;
              Feedback.feedbackDescription := FeedbackRequest.description request;
              Feedback.rating := FeedbackRequest.rating request |}.

(** No character of [s] is a LIKE wildcard. *)
Fixpoint wildcard_free (s : string) : bool :=
  match s with
  | EmptyString => true
  | String c s' =>
      negb (Ascii.eqb c "%") && negb (Ascii.eqb c "_") && wildcard_free s'
  end.

(** [s] is ASCII text. *)
Fixpoint is_ascii_text (s : string) : bool :=
  match s with
  | EmptyString => true
  | String c s' => (nat_of_ascii c <? 128)%nat && is_ascii_text s'
  end.

(** A search text on which the databases agree: ASCII, and free of the LIKE
    wildcards and of the backslash, which several databases take as the
    escape character of LIKE. *)
Definition plain_search_text (s : string) : bool :=
  is_ascii_text s && wildcard_free s
  && negb (Text.contains (String (ascii_of_nat 92) EmptyString) s).

(** The three columns that the filter queries search hold ASCII text. *)
Definition searched_columns_ascii (f : Feedback.t) : bool :=
  is_ascii_text (Customer.customerName (Feedback.customer f))
  && is_ascii_text (Booking.bookingId (Feedback.booking f))
  && is_ascii_text (Feedback.feedbackDescription f).

(** The number of feedback rows whose rating is none of 1 to 5. *)
Definition ratings_out_of_range (l : list Feedback.t) : nat :=
  List.length (filter (fun f => negb ((1 <=? Feedback.rating f)
                                      && (Feedback.rating f <=? 5))) l).

(** The row that a booking endpoint stores for the account [customer]. *)
Definition stored_booking (bookingId : string) (customer : Customer.t)
    (request : BookingRequest.t) (serviceCost : Z) (status : ParcelStatus)
    (db : Database) : Booking.t :=
  {| Booking.id := Some (max_id (map Booking.id (bookings db)) + 1);
     Booking.bookingId := bookingId;
     Booking.customer := Customer.id customer;
     Booking.receiverName := BookingRequest.receiverName request;
     Booking.parcelWeightInGram := BookingRequest.parcelWeightInGram request;
     Booking.parcelServiceCost := serviceCost;
     Booking.parcelStatus := status |}.

(** What has to hold for a booking endpoint to store [saved]: the token
    carries the role claim [role] and the email of exactly one account, and
    [saved] is the request's booking for that account with the cost that
    the calculator gives with the flag [officer]. *)
Definition booking_accepted (jwtUtil : JwtUtil.t)
    (calculateServiceCost :
       Z -> option CostCalculator.DeliveryType ->
       option CostCalculator.PackingPreference -> bool -> Z)
    (role : string) (officer : bool) (status : ParcelStatus)
    (bookingId : string) (request : BookingRequest.t) (token : string)
    (db : Database) (saved : Booking.t) : Prop :=
  exists (email : string) (customer : Customer.t),
    JwtUtil.extractEmail jwtUtil (Text.replace "Bearer " "" token) = Return email
    /\ JwtUtil.extractRole jwtUtil (Text.replace "Bearer " "" token)
       = Return (Some role)
    /\ filter (fun c => String.eqb (Customer.email c) email) (customers db)
       = [customer]
    /\ saved = stored_booking bookingId customer request
                 (calculateServiceCost
                    (BookingRequest.parcelWeightInGram request)
                    (BookingRequest.parcelDeliveryType request)
                    (BookingRequest.parcelPackingPreference request)
                    officer)
                 status db.

(** *** Sample data *)

(** A token reader for tokens that are the account's email, with a fixed
    role claim. *)
Definition sample_jwtUtil (role : string) : JwtUtil.t :=
  {| JwtUtil.extractEmail := fun token => Return token;
     JwtUtil.extractRole := fun _ => Return (Some role);
     JwtUtil.extractUserId := fun _ => Return None |}.

(** The accounts of [auth_db] with the bookings of [sample_db], all of the
    customer with primary key 1. *)
Definition courier_db : Database :=
  {| customers := customers auth_db; bookings := bookings sample_db;
     payments := []; feedbacks := [] |}.

Definition officers_db : Database :=
  {| customers := [sample_customer 2 "OFF2694941020" "ravi@example.com" OFFICER];
     bookings := []; payments := []; feedbacks := [] |}.

Definition unsaved_booking (bookingId : string) : Booking.t :=
  {| Booking.id := None; Booking.bookingId := bookingId;
     Booking.customer := Some 1; Booking.receiverName := "Receiver";
     Booking.parcelWeightInGram := 1000; Booking.parcelServiceCost := 116;
     Booking.parcelStatus := NEW |}.

Definition feedback_request (bookingId : string) : FeedbackRequest.t :=
  {| FeedbackRequest.bookingId := bookingId;
     FeedbackRequest.description := "Quick delivery";
     FeedbackRequest.rating := 5 |}.

Definition booking_request : BookingRequest.t :=
  {| BookingRequest.receiverName := "Receiver";
     BookingRequest.parcelWeightInGram := 1000;
     BookingRequest.parcelDeliveryType := Some CostCalculator.EXPRESS;
     BookingRequest.parcelPackingPreference := Some CostCalculator.PREMIUM |}.

Definition password_change (current new : string) : PasswordChangeRequest.t :=
  {| PasswordChangeRequest.currentPassword := current;
     PasswordChangeRequest.newPassword := Some new;
     PasswordChangeRequest.confirmPassword := Some new |}.

(** The sample collaborators with a token issuer whose signing key is
    refused. *)
Definition keyless_env : Env :=
  {| currentTimeMillis := currentTimeMillis sample_env;
     random := random sample_env;
     encode := encode sample_env;
     matches := matches sample_env;
     generateToken := fun _ _ _ => Throw "The specified key byte array is too short" |}.

(** A cost function for the samples. *)
Definition flat_cost (w : Z) (d : option CostCalculator.DeliveryType)
    (p : option CostCalculator.PackingPreference) (officer : bool) : Z :=
  if officer then 168 else 116.

End MoreVocabulary.

(** * Properties *)

(** ** Cost calculation of the officer booking form *)

Section OfficerBookingCost.

Import Js OfficerBookingComponent.

Lemma weight_valid_iff (form : BookingForm) :
  weight_valid form = true <->
  exists z, weight form = Some z /\ 100 <= z <= 50000.
Proof.
  unfold weight_valid, required_error, min_error, max_error.
  destruct (weight form) as [z|]; cbn.
  - rewrite negb_true_iff, orb_false_iff, !Z.ltb_ge. split.
    + intros [H1 H2]. exists z. split; [reflexivity | lia].
    + intros (z' & Hz & H). injection Hz as <-. lia.
  - split; [discriminate | intros (z & Hz & _); discriminate].
Qed.

Lemma weight_invalid_iff (form : BookingForm) :
  weight_valid form = false <->
  (weight form = None \/
   exists z, weight form = Some z /\ (z < 100 \/ 50000 < z)).
Proof.
  unfold weight_valid, required_error, min_error, max_error.
  destruct (weight form) as [z|]; cbn.
  - rewrite negb_false_iff, orb_true_iff, !Z.ltb_lt. split.
    + intros H. right. exists z. split; [reflexivity | lia].
    + intros [H | (z' & Hz & H)]; [discriminate | injection Hz as <-; lia].
  - split; [intros _; left; reflexivity | reflexivity].
Qed.

Lemma or_num_valid (z : Z) :
  100 <= z -> or_num (Some (or_num (Some z) 0)) 0 = z.
Proof. destruct z; cbn; intros; try reflexivity; lia. Qed.

Lemma calculateCost_valid (form : BookingForm) (this : Component) (z : Z) :
  weight form = Some z -> 100 <= z <= 50000 ->
  calculateCost form this =
    let d := deliveryChargeFor (or_str (deliveryType form) "STANDARD") in
    let p := packingChargeFor (or_str (packingPreference form) "BASIC") in
    let wc := (of_Z z * 0.02)%float in
    let sub := (baseRate + wc + d + p + adminFee)%float in
    {| calculatedCost := Math_round (unrounded z d p);
       weightCharge := wc;
       deliveryCharge := d;
       packingCharge := p;
       subtotal := sub;
       taxAmount := (sub * 0.05)%float;
       parcelWeightInGram := of_Z z |}.
Proof.
  intros Hw Hz.
  assert (Hv : weight_valid form = true)
    by (apply weight_valid_iff; exists z; split; assumption).
  unfold calculateCost. rewrite Hv, Hw. cbn [negb].
  rewrite or_num_valid by lia. reflexivity.
Qed.

Lemma calculateCost_invalid (form : BookingForm) (this : Component) :
  weight_valid form = false ->
  calculateCost form this =
    {| calculatedCost := 0%float;
       weightCharge := 0%float;
       deliveryCharge := 0%float;
       packingCharge := 0%float;
       subtotal := 0%float;
       taxAmount := 0%float;
       parcelWeightInGram :=
         of_Z (or_num (Some (or_num (weight form) 0)) 0) |}.
Proof. intros Hv. unfold calculateCost. rewrite Hv. reflexivity. Qed.

Lemma deliveryChargeFor_default (d : string) :
  d <> "STANDARD" -> d <> "EXPRESS" -> d <> "SAME_DAY" ->
  deliveryChargeFor (or_str d "STANDARD") = 30%float.
Proof.
  intros H1 H2 H3. destruct d as [|c d]; [reflexivity|].
  cbn [or_str]. unfold deliveryChargeFor.
  apply String.eqb_neq in H1, H2, H3. rewrite H1, H2, H3. reflexivity.
Qed.

Lemma packingChargeFor_default (p : string) :
  p <> "BASIC" -> p <> "PREMIUM" ->
  packingChargeFor (or_str p "BASIC") = 10%float.
Proof.
  intros H1 H2. destruct p as [|c p]; [reflexivity|].
  cbn [or_str]. unfold packingChargeFor.
  apply String.eqb_neq in H1, H2. rewrite H1, H2. reflexivity.
Qed.

(** *** Checking a property on every whole weight of an interval *)

Lemma all_between_inv (f : Z -> bool) (lo : Z) (count : positive) :
  let st := Pos.iter (check_step f) (lo, true) count in
  fst st = lo + Z.pos count /\
  (snd st = true -> forall w, lo <= w < lo + Z.pos count -> f w = true).
Proof.
  induction count as [|count IH] using Pos.peano_ind; cbn zeta.
  - cbn. split; [reflexivity|].
    intros H w Hw. assert (w = lo) as -> by lia. exact H.
  - rewrite Pos.iter_succ. cbn zeta in IH. destruct IH as [IHfst IHsnd].
    destruct (Pos.iter (check_step f) (lo, true) count) as [x b].
    cbn [fst snd] in *. unfold check_step. cbn [fst snd]. split; [lia|].
    intros H w Hw. apply andb_true_iff in H as [Hb Hf].
    destruct (Z.eq_dec w x) as [->|Hne]; [exact Hf|].
    apply IHsnd; [exact Hb | lia].
Qed.

Lemma all_between_spec (f : Z -> bool) (lo : Z) (count : positive) :
  all_between f lo count = true ->
  forall w, lo <= w < lo + Z.pos count -> f w = true.
Proof. intros H. apply (proj2 (all_between_inv f lo count)). exact H. Qed.

(** *** The binary64 evaluation against the exact formula *)

Lemma calculateServiceCost_exact d p officer w :
  CostCalculator.calculateServiceCost w d p officer
  = exact_cost (fixed_charges d p officer) w.
Proof.
  unfold CostCalculator.calculateServiceCost, CostCalculator.round, exact_cost.
  change ((21 * (w + 50 * fixed_charges d p officer) + 500) / 1000)
    with (Qfloor ((21 * (w + 50 * fixed_charges d p officer) + 500) # 1000)).
  apply Qfloor_comp.
  unfold CostCalculator.weightCharge.
  cbv [CostCalculator.baseRate CostCalculator.adminFee CostCalculator.taxRate
       CostCalculator.deliveryCharge CostCalculator.packingCharge fixed_charges].
  destruct d as [[]|], p as [[]|], officer;
    unfold Qeq, Qplus, Qmult, inject_Z; cbn [Qnum Qden];
    rewrite ?Pos2Z.inj_mul; lia.
Qed.

Lemma exact_cost_monotone (fixed w1 w2 : Z) :
  w1 <= w2 -> exact_cost fixed w1 <= exact_cost fixed w2.
Proof. intros H. unfold exact_cost. apply Z.div_le_mono; lia. Qed.

Lemma exact_cost_bounds (fixed w : Z) :
  140 <= fixed <= 270 -> 100 <= w <= 50000 ->
  149 <= exact_cost fixed w <= 1334.
Proof.
  intros Hf Hw. unfold exact_cost. split.
  - apply Z.div_le_lower_bound; lia.
  - apply Z.lt_succ_r. apply Z.div_lt_upper_bound; lia.
Qed.

Lemma deliveryChargeFor_parse (d : string) :
  deliveryChargeFor d = delivery_number (parse_delivery d).
Proof.
  unfold deliveryChargeFor, parse_delivery.
  repeat (destruct (String.eqb d _); [reflexivity|]). reflexivity.
Qed.

Lemma packingChargeFor_parse (p : string) :
  packingChargeFor p = packing_number (parse_packing p).
Proof.
  unfold packingChargeFor, parse_packing.
  repeat (destruct (String.eqb p _); [reflexivity|]). reflexivity.
Qed.

Lemma agrees_on_form_range d p : all_between (agrees_at d p) 100 49901 = true.
Proof. destruct d, p; vm_compute; reflexivity. Qed.

Lemma round_half_up_unrounded d p w :
  100 <= w <= 50000 ->
  round_half_up (unrounded w (delivery_number d) (packing_number p))
  = Some (CostCalculator.calculateServiceCost w (Some d) (Some p) true).
Proof.
  intros Hw. rewrite calculateServiceCost_exact.
  pose proof (all_between_spec _ _ _ (agrees_on_form_range d p) w ltac:(lia))
    as Hat.
  unfold agrees_at in Hat.
  destruct (round_half_up _) as [z|]; [|discriminate].
  cbv zeta in Hat. apply andb_true_iff in Hat as [Hlo Hhi].
  apply Z.leb_le in Hlo. apply Z.ltb_lt in Hhi.
  f_equal. unfold exact_cost.
  apply (Z.div_unique _ 1000 z
           (21 * (w + 50 * fixed_charges (Some d) (Some p) true) + 500 - 1000 * z));
    lia.
Qed.

Lemma Math_round_of_Z (x : number) (z : Z) :
  round_half_up x = Some z -> 0 < z -> Math_round x = of_Z z.
Proof.
  intros Hx Hz. unfold Math_round. rewrite Hx. destruct z; [lia|reflexivity|lia].
Qed.

(** With a valid weight the form shows the officer-booking cost of the
    exact formula. *)
Lemma calculatedCost_valid (form : BookingForm) (this : Component) (w : Z) :
  weight form = Some w -> 100 <= w <= 50000 ->
  calculatedCost (calculateCost form this)
  = of_Z (CostCalculator.calculateServiceCost w
            (Some (parse_delivery (or_str (deliveryType form) "STANDARD")))
            (Some (parse_packing (or_str (packingPreference form) "BASIC")))
            true).
Proof.
  intros Hform Hw. rewrite (calculateCost_valid form this w Hform Hw).
  cbn [calculatedCost]. rewrite deliveryChargeFor_parse, packingChargeFor_parse.
  apply Math_round_of_Z.
  - apply round_half_up_unrounded. exact Hw.
  - rewrite calculateServiceCost_exact.
    pose proof (exact_cost_bounds
                  (fixed_charges
                     (Some (parse_delivery (or_str (deliveryType form) "STANDARD")))
                     (Some (parse_packing (or_str (packingPreference form) "BASIC")))
                     true) w) as Hb.
    assert (140 <= fixed_charges
                     (Some (parse_delivery (or_str (deliveryType form) "STANDARD")))
                     (Some (parse_packing (or_str (packingPreference form) "BASIC")))
                     true <= 270).
    { unfold fixed_charges.
      destruct (parse_delivery _), (parse_packing _); lia. }
    specialize (Hb H Hw). lia.
Qed.

(** *** JavaScript's [<=] on the whole-number costs the form can show *)

Lemma leb_from_cost_range : all_between leb_from 149 1186 = true.
Proof. vm_compute. reflexivity. Qed.

Lemma leb_of_Z (c1 c2 : Z) :
  149 <= c1 -> c1 <= c2 -> c2 <= 1334 ->
  PrimFloat.leb (of_Z c1) (of_Z c2) = true.
Proof.
  intros H1 H12 H2.
  pose proof (all_between_spec _ _ _ leb_from_cost_range c1 ltac:(lia)) as Hc1.
  unfold leb_from in Hc1. cbv zeta in Hc1.
  apply (all_between_spec _ _ _ Hc1 c2).
  rewrite Z2Pos.id by lia. lia.
Qed.

(** *** The claims about the cost calculation *)

(** C1. The cost for 1000 g, STANDARD, BASIC, not an officer booking, is 116:
    the calculator gives round((50 + 20 + 30 + 10) * 1.05) = round(115.5) =
    116, no admin fee being added.  The officer form computes the same
    charges (weight 20, delivery 30, packing 10, on the base rate 50), and
    its binary64 arithmetic and [Math.round] give 116 on the sum without the
    admin fee; with the fee it always adds, the form itself shows 168. *)
Theorem cost_1000_STANDARD_BASIC_customer :
  CostCalculator.calculateServiceCost 1000
    (Some CostCalculator.STANDARD) (Some CostCalculator.BASIC) false = 116
  /\ CostCalculator.calculateServiceCost 1000
       (Some CostCalculator.STANDARD) (Some CostCalculator.BASIC) false
     = CostCalculator.round ((50 + 20 + 30 + 10 + 0) * (1 + (5 # 100)))%Q
  /\ (let this := calculateCost (form_of 1000 "STANDARD" "BASIC") initial in
      baseRate = 50%float
      /\ weightCharge this = 20%float
      /\ deliveryCharge this = 30%float
      /\ packingCharge this = 10%float
      /\ (let sub := (baseRate + weightCharge this + deliveryCharge this
                      + packingCharge this)%float in
          Math_round (sub + sub * 0.05)%float = 116%float)
      /\ calculatedCost this = 168%float).
Proof. repeat split; vm_compute; reflexivity. Qed.

(** C7. A delivery type other than STANDARD, EXPRESS and SAME_DAY is charged
    STANDARD's 30, and a packing preference other than BASIC and PREMIUM is
    charged BASIC's 10: by the two [switch] blocks, and so in the fields the
    calculation leaves behind when it runs (valid weight). *)
Theorem unrecognised_types_get_default_charges
    (form : BookingForm) (this : Component) :
  weight_valid form = true ->
  (deliveryType form <> "STANDARD" -> deliveryType form <> "EXPRESS" ->
   deliveryType form <> "SAME_DAY" ->
   deliveryChargeFor (deliveryType form) = 30%float
   /\ deliveryChargeFor "STANDARD" = 30%float
   /\ deliveryCharge (calculateCost form this) = 30%float)
  /\
  (packingPreference form <> "BASIC" -> packingPreference form <> "PREMIUM" ->
   packingChargeFor (packingPreference form) = 10%float
   /\ packingChargeFor "BASIC" = 10%float
   /\ packingCharge (calculateCost form this) = 10%float).
Proof.
  intros Hv. apply weight_valid_iff in Hv as (z & Hw & Hz).
  rewrite (calculateCost_valid form this z Hw Hz). cbn zeta.
  cbn [deliveryCharge packingCharge]. split.
  - intros H1 H2 H3. split; [|split; [reflexivity|]].
    + unfold deliveryChargeFor.
      apply String.eqb_neq in H1, H2, H3. rewrite H1, H2, H3. reflexivity.
    + apply deliveryChargeFor_default; assumption.
  - intros H1 H2. split; [|split; [reflexivity|]].
    + unfold packingChargeFor.
      apply String.eqb_neq in H1, H2. rewrite H1, H2. reflexivity.
    + apply packingChargeFor_default; assumption.
Qed.

(** On a concrete form: delivery type "DRONE" and packing "GIFT" at 1000 g. *)
Lemma unrecognised_types_get_default_charges_witness :
  let form := form_of 1000 "DRONE" "GIFT" in
  deliveryChargeFor (deliveryType form) = 30%float
  /\ deliveryCharge (calculateCost form initial) = 30%float
  /\ packingChargeFor (packingPreference form) = 10%float
  /\ packingCharge (calculateCost form initial) = 10%float.
Proof.
  cbv zeta.
  destruct (unrecognised_types_get_default_charges
              (form_of 1000 "DRONE" "GIFT") initial eq_refl) as [Hd Hp].
  destruct Hd as (H1 & _ & H2); [discriminate | discriminate | discriminate |].
  destruct Hp as (H3 & _ & H4); [discriminate | discriminate |].
  repeat split; assumption.
Defined.

(** C8. For a fixed delivery type and packing preference the cost is
    non-decreasing in the weight.  On the officer form (which always charges
    the admin fee): for whole weights [w1 <= w2] that both pass the weight
    validators, the two costs shown are the Numbers of integers [c1 <= c2],
    and JavaScript's [<=] holds between them.  On the calculator: for either
    value of the officer flag and all weights [w1 <= w2]. *)
Theorem cost_monotone_in_weight
    (d p : string) (this1 this2 : Component) (w1 w2 : Z) :
  weight_valid (form_of w1 d p) = true ->
  weight_valid (form_of w2 d p) = true ->
  w1 <= w2 ->
  (exists c1 c2 : Z,
      calculatedCost (calculateCost (form_of w1 d p) this1) = of_Z c1
      /\ calculatedCost (calculateCost (form_of w2 d p) this2) = of_Z c2
      /\ c1 <= c2
      /\ PrimFloat.leb (calculatedCost (calculateCost (form_of w1 d p) this1))
                       (calculatedCost (calculateCost (form_of w2 d p) this2))
         = true)
  /\ (forall deliveryType packingPreference isOfficerBooking,
         CostCalculator.calculateServiceCost w1 deliveryType packingPreference
           isOfficerBooking
         <= CostCalculator.calculateServiceCost w2 deliveryType packingPreference
              isOfficerBooking).
Proof.
  intros Hv1 Hv2 Hle.
  apply weight_valid_iff in Hv1 as (z1 & Hz1 & Hb1).
  apply weight_valid_iff in Hv2 as (z2 & Hz2 & Hb2).
  cbn in Hz1, Hz2. injection Hz1 as <-. injection Hz2 as <-.
  split.
  - set (dt := Some (parse_delivery (or_str d "STANDARD"))).
    set (pp := Some (parse_packing (or_str p "BASIC"))).
    exists (CostCalculator.calculateServiceCost w1 dt pp true),
           (CostCalculator.calculateServiceCost w2 dt pp true).
    rewrite (calculatedCost_valid (form_of w1 d p) this1 w1 eq_refl Hb1).
    rewrite (calculatedCost_valid (form_of w2 d p) this2 w2 eq_refl Hb2).
    cbn [deliveryType packingPreference form_of]. fold dt pp.
    rewrite !calculateServiceCost_exact.
    assert (Hf : 140 <= fixed_charges dt pp true <= 270).
    { unfold fixed_charges, dt, pp.
      destruct (parse_delivery _), (parse_packing _); lia. }
    pose proof (exact_cost_bounds _ w1 Hf Hb1).
    pose proof (exact_cost_bounds _ w2 Hf Hb2).
    pose proof (exact_cost_monotone (fixed_charges dt pp true) w1 w2 Hle).
    repeat split; try reflexivity; try assumption.
    apply leb_of_Z; lia.
  - intros dt pp officer. rewrite !calculateServiceCost_exact.
    apply exact_cost_monotone. exact Hle.
Qed.

(** On concrete weights: 500 g and 501 g, EXPRESS and PREMIUM. *)
Lemma cost_monotone_in_weight_witness :
  PrimFloat.leb
    (calculatedCost (calculateCost (form_of 500 "EXPRESS" "PREMIUM") initial))
    (calculatedCost (calculateCost (form_of 501 "EXPRESS" "PREMIUM") initial))
  = true
  /\ CostCalculator.calculateServiceCost 500 None None false
     <= CostCalculator.calculateServiceCost 501 None None false.
Proof.
  destruct (cost_monotone_in_weight "EXPRESS" "PREMIUM" initial initial 500 501
              eq_refl eq_refl ltac:(lia)) as [(c1 & c2 & _ & _ & _ & Hleb) Hcalc].
  split; [exact Hleb | apply Hcalc].
Defined.

(** C9. When the weight control is invalid (empty, below 100 or above 50000)
    the total and every cost component (weight charge, delivery charge,
    packing charge, subtotal and tax) are set to 0. *)
Theorem invalid_weight_resets_costs (form : BookingForm) (this : Component) :
  (weight form = None
   \/ exists z, weight form = Some z /\ (z < 100 \/ 50000 < z)) ->
  let this' := calculateCost form this in
  calculatedCost this' = 0%float
  /\ weightCharge this' = 0%float
  /\ deliveryCharge this' = 0%float
  /\ packingCharge this' = 0%float
  /\ subtotal this' = 0%float
  /\ taxAmount this' = 0%float.
Proof.
  intros H. apply weight_invalid_iff in H. cbv zeta.
  rewrite (calculateCost_invalid form this H). cbn. repeat split.
Qed.

(** On a concrete form: 99 g entered after a valid 1000 g. *)
Lemma invalid_weight_resets_costs_witness :
  let this' :=
    calculateCost (form_of 99 "EXPRESS" "PREMIUM")
      (calculateCost (form_of 1000 "EXPRESS" "PREMIUM") initial) in
  calculatedCost this' = 0%float
  /\ weightCharge this' = 0%float
  /\ deliveryCharge this' = 0%float
  /\ packingCharge this' = 0%float
  /\ subtotal this' = 0%float
  /\ taxAmount this' = 0%float.
Proof.
  apply (invalid_weight_resets_costs (form_of 99 "EXPRESS" "PREMIUM")).
  right. exists 99. split; [reflexivity | lia].
Defined.

End OfficerBookingCost.

(** ** Booking lookup and payment processing *)

Section PaymentProcessing.

Import Backend.
#[local] Open Scope backend_scope.

Lemma getBookingById_jpa (bookingId : string) (db : Database) :
  BookingService.getBookingById BookingRepository.jpa bookingId db
  = (Return match rows_with bookingId db with
            | [b] => Some b
            | _ => None
            end, db).
Proof.
  unfold BookingService.getBookingById, try_catch. cbn.
  unfold BookingRepository.jpa_findByBookingId, bind, get. fold (rows_with bookingId db).
  destruct (rows_with bookingId db) as [|b [|b' l]]; reflexivity.
Qed.

Lemma rows_with_In (bookingId : string) (db : Database) (b : Booking.t) :
  In b (rows_with bookingId db) ->
  In b (bookings db) /\ Booking.bookingId b = bookingId.
Proof.
  unfold rows_with. rewrite filter_In. intros [Hin Heq].
  split; [exact Hin | apply String.eqb_eq; exact Heq].
Qed.

Lemma option_Z_eqb_eq (a b : option Z) : option_Z_eqb a b = true <-> a = b.
Proof.
  destruct a as [x|], b as [y|]; cbn; try (split; congruence).
  rewrite Z.eqb_eq. split; congruence.
Qed.

Lemma processPayment_not_found
    (paymentService : PaymentService.t) (request : PaymentRequest.t)
    (db : Database) :
  (forall b, rows_with (PaymentRequest.bookingId request) db <> [b]) ->
  PaymentController.processPayment BookingRepository.jpa paymentService request db
  = (Return not_found_response, db).
Proof.
  intros Hrows. unfold PaymentController.processPayment, try_catch, bind.
  rewrite getBookingById_jpa.
  destruct (rows_with _ db) as [|b [|b' l]]; try reflexivity.
  exfalso. apply (Hrows b). reflexivity.
Qed.

Lemma updateBooking_jpa (b : Booking.t) (db : Database) :
  Booking.id b <> None ->
  (exists r, In r (bookings db) /\ Booking.id r = Booking.id b) ->
  BookingService.updateBooking BookingRepository.jpa b db
  = (Return (Some b), with_bookings db (replace_row b (bookings db))).
Proof.
  intros Hid (r & Hin & Hr).
  unfold BookingService.updateBooking, try_catch, bind. cbn.
  unfold BookingRepository.jpa_save, bind, get. cbn.
  destruct (Booking.id b) as [i|] eqn:Hi; [|congruence].
  assert (Hex : existsb (fun r => option_Z_eqb (Booking.id r) (Some i))
                  (bookings db) = true).
  { apply existsb_exists. exists r. split; [exact Hin|].
    apply option_Z_eqb_eq. exact Hr. }
  rewrite Hex. cbn. unfold replace_row. rewrite Hi. reflexivity.
Qed.

(** What the controller does once the lookup has found [b]: it reports the
    service's exception, or marks the booking BOOKED and saves it. *)
Lemma processPayment_found
    (paymentService : PaymentService.t) (request : PaymentRequest.t)
    (db : Database) (b : Booking.t) :
  rows_with (PaymentRequest.bookingId request) db = [b] ->
  PaymentController.processPayment BookingRepository.jpa paymentService request db
  = match PaymentService.processPayment paymentService b request db with
    | (Throw e, db') => (Return (payment_failed e), db')
    | (Return payment, db') =>
        (Return (success_response payment),
         snd (BookingService.updateBooking BookingRepository.jpa
                (Booking.setParcelStatus b BOOKED) db'))
    end.
Proof.
  intros Hrows. unfold PaymentController.processPayment, try_catch, bind.
  rewrite getBookingById_jpa, Hrows. cbv beta iota.
  destruct (PaymentService.processPayment paymentService b request db)
    as [[payment|e] db']; [|reflexivity].
  unfold BookingService.updateBooking, try_catch, bind.
  destruct (BookingRepository.save BookingRepository.jpa
              (Booking.setParcelStatus b BOOKED) db') as [[saved|e] db''];
    reflexivity.
Qed.

Lemma modelled_processPayment_run
    (env : Env) (b : Booking.t) (request : PaymentRequest.t) (db : Database) :
  PaymentService.processPayment (PaymentService.modelled env) b request db
  = if PaymentService.checkPaymentExists (Booking.bookingId b) db
    then (Throw "Payment already exists for this booking", db)
    else if PaymentService.terminal (Booking.parcelStatus b)
    then (Throw "Payment is not allowed for a delivered or cancelled booking",
          db)
    else (Return (PaymentService.newPayment env b request),
          with_payments db
            (payments db ++ [PaymentService.newPayment env b request])%list).
Proof.
  cbn. unfold PaymentService.modelled_processPayment, bind, get.
  destruct (PaymentService.checkPaymentExists (Booking.bookingId b) db);
    [reflexivity|].
  destruct (PaymentService.terminal (Booking.parcelStatus b)); reflexivity.
Qed.

Lemma processPayment_conflict
    (env : Env) (request : PaymentRequest.t) (db : Database) (b : Booking.t) :
  rows_with (PaymentRequest.bookingId request) db = [b] ->
  PaymentService.checkPaymentExists (Booking.bookingId b) db = true ->
  PaymentController.processPayment BookingRepository.jpa
    (PaymentService.modelled env) request db
  = (Return conflict_response, db).
Proof.
  intros Hrows Hpaid.
  rewrite (processPayment_found _ request db b Hrows).
  rewrite modelled_processPayment_run, Hpaid. reflexivity.
Qed.

Lemma processPayment_success
    (env : Env) (request : PaymentRequest.t) (db : Database) (b : Booking.t) :
  rows_with (PaymentRequest.bookingId request) db = [b] ->
  PaymentService.checkPaymentExists (Booking.bookingId b) db = false ->
  PaymentService.terminal (Booking.parcelStatus b) = false ->
  Booking.id b <> None ->
  PaymentController.processPayment BookingRepository.jpa
    (PaymentService.modelled env) request db
  = (Return (success_response (PaymentService.newPayment env b request)),
     {| customers := customers db;
        bookings := replace_row (Booking.setParcelStatus b BOOKED) (bookings db);
        payments := (payments db ++ [PaymentService.newPayment env b request])%list;
        feedbacks := feedbacks db |}).
Proof.
  intros Hrows Hpaid Hopen Hid.
  rewrite (processPayment_found _ request db b Hrows).
  rewrite modelled_processPayment_run, Hpaid, Hopen.
  rewrite updateBooking_jpa; [reflexivity | exact Hid |].
  exists b. split; [|reflexivity]. cbn [bookings with_payments].
  apply (rows_with_In (PaymentRequest.bookingId request)).
  rewrite Hrows. left. reflexivity.
Qed.

Lemma getBookingById_found (bookingId : string) (db : Database) (b : Booking.t) :
  fst (BookingService.getBookingById BookingRepository.jpa bookingId db)
  = Return (Some b) <->
  rows_with bookingId db = [b].
Proof.
  rewrite getBookingById_jpa. cbn [fst].
  destruct (rows_with bookingId db) as [|b0 [|b1 l]]; split; congruence.
Qed.

Lemma key_unique {A K} (key : A -> K) (l : list A) (a b : A) :
  NoDup (map key l) -> In a l -> In b l -> key a = key b -> a = b.
Proof.
  induction l as [|x l IH]; cbn; [contradiction|].
  intros Hnd Ha Hb Hk. inversion Hnd as [|? ? Hx Hl]; subst.
  destruct Ha as [<-|Ha], Hb as [<-|Hb].
  - reflexivity.
  - exfalso. apply Hx. rewrite Hk. apply in_map. exact Hb.
  - exfalso. apply Hx. rewrite <- Hk. apply in_map. exact Ha.
  - apply IH; assumption.
Qed.

Lemma filter_map_commute {A} (f : A -> bool) (g : A -> A) (l : list A) :
  (forall r, In r l -> f (g r) = f r) ->
  filter f (map g l) = map g (filter f l).
Proof.
  induction l as [|x l IH]; cbn; [reflexivity|].
  intros H. rewrite (H x (or_introl eq_refl)).
  rewrite IH by (intros r Hr; apply H; right; exact Hr).
  destruct (f x); reflexivity.
Qed.

Lemma rows_with_replace (bookingId : string) (db : Database) (b b' : Booking.t) :
  persisted db ->
  rows_with bookingId db = [b] ->
  Booking.id b' = Booking.id b ->
  Booking.bookingId b' = Booking.bookingId b ->
  rows_with bookingId (with_bookings db (replace_row b' (bookings db))) = [b'].
Proof.
  intros [Hids Hkey] Hrows Hid Hbid.
  assert (Hb : In b (bookings db) /\ Booking.bookingId b = bookingId).
  { apply rows_with_In. rewrite Hrows. left. reflexivity. }
  destruct Hb as [Hin Hname].
  unfold rows_with, with_bookings, replace_row. cbn [bookings].
  rewrite filter_map_commute.
  - fold (rows_with bookingId db). rewrite Hrows. cbn [map].
    rewrite Hid, (proj2 (option_Z_eqb_eq _ _) eq_refl). reflexivity.
  - intros r Hr.
    destruct (option_Z_eqb (Booking.id r) (Booking.id b')) eqn:He; [|reflexivity].
    apply option_Z_eqb_eq in He. rewrite Hid in He.
    assert (r = b) as -> by (apply (key_unique Booking.id (bookings db)); assumption).
    rewrite Hbid. reflexivity.
Qed.

(** C2. A payment for a booking goes through at most once.  The first
    payment for a NEW booking without a payment succeeds, persists a Payment
    record for the booking and leaves the booking BOOKED; any further payment
    request for the same booking is answered with the state-conflict failure
    and leaves the store, and so the booking's status, as the first payment
    left it. *)
Theorem second_payment_is_rejected
    (env1 env2 : Env) (request1 request2 : PaymentRequest.t)
    (db : Database) (booking : Booking.t) :
  persisted db ->
  fst (BookingService.getBookingById BookingRepository.jpa
         (PaymentRequest.bookingId request1) db) = Return (Some booking) ->
  Booking.parcelStatus booking = NEW ->
  PaymentService.checkPaymentExists (PaymentRequest.bookingId request1) db = false ->
  PaymentRequest.bookingId request2 = PaymentRequest.bookingId request1 ->
  exists (payment : Payment.t) (db1 : Database) (booked : Booking.t),
    PaymentController.processPayment BookingRepository.jpa
      (PaymentService.modelled env1) request1 db
    = (Return (success_response payment), db1)
    /\ In payment (payments db1)
    /\ Payment.booking payment = PaymentRequest.bookingId request1
    /\ fst (BookingService.getBookingById BookingRepository.jpa
              (PaymentRequest.bookingId request1) db1) = Return (Some booked)
    /\ Booking.parcelStatus booked = BOOKED
    /\ PaymentController.processPayment BookingRepository.jpa
         (PaymentService.modelled env2) request2 db1
       = (Return conflict_response, db1).
Proof.
  intros Hdb Hfound Hnew Hunpaid Hsame.
  apply getBookingById_found in Hfound.
  assert (Hb : In booking (bookings db)
               /\ Booking.bookingId booking = PaymentRequest.bookingId request1).
  { apply rows_with_In. rewrite Hfound. left. reflexivity. }
  destruct Hb as [Hin Hname].
  assert (Hid : Booking.id booking <> None).
  { destruct Hdb as [Hids _]. rewrite Forall_forall in Hids. apply Hids, Hin. }
  set (booked := Booking.setParcelStatus booking BOOKED).
  set (payment := PaymentService.newPayment env1 booking request1).
  set (db1 := {| customers := customers db;
                 bookings := replace_row booked (bookings db);
                 payments := (payments db ++ [payment])%list;
                 feedbacks := feedbacks db |}).
  assert (Hrows1 : rows_with (PaymentRequest.bookingId request1) db1 = [booked]).
  { apply (rows_with_replace _ db booking booked Hdb Hfound); reflexivity. }
  exists payment, db1, booked. repeat split.
  - apply processPayment_success;
      [exact Hfound | rewrite Hname; exact Hunpaid
      | rewrite Hnew; reflexivity | exact Hid].
  - cbn. apply in_or_app. right. left. reflexivity.
  - exact Hname.
  - apply getBookingById_found. exact Hrows1.
  - apply (processPayment_conflict env2 request2 db1 booked).
    + rewrite Hsame. exact Hrows1.
    + unfold PaymentService.checkPaymentExists. cbn [payments db1].
      rewrite existsb_app. apply orb_true_iff. right. cbn.
      rewrite String.eqb_refl. reflexivity.
Qed.

(** The sample store is well formed. *)
Lemma sample_db_persisted : persisted sample_db.
Proof.
  split.
  - repeat constructor; discriminate.
  - repeat constructor; cbn; intuition discriminate.
Defined.

(** On the sample store: two payment requests for the NEW booking BK1. *)
Lemma second_payment_is_rejected_witness :
  exists (payment : Payment.t) (db1 : Database) (booked : Booking.t),
    PaymentController.processPayment BookingRepository.jpa
      (PaymentService.modelled sample_env) (sample_request "BK1") sample_db
    = (Return (success_response payment), db1)
    /\ In payment (payments db1)
    /\ Payment.booking payment = "BK1"
    /\ fst (BookingService.getBookingById BookingRepository.jpa "BK1" db1)
       = Return (Some booked)
    /\ Booking.parcelStatus booked = BOOKED
    /\ PaymentController.processPayment BookingRepository.jpa
         (PaymentService.modelled sample_env) (sample_request "BK1") db1
       = (Return conflict_response, db1).
Proof.
  apply (second_payment_is_rejected sample_env sample_env
           (sample_request "BK1") (sample_request "BK1") sample_db
           (sample_booking 1 "BK1" NEW) sample_db_persisted);
    reflexivity.
Defined.

Lemma rows_with_other (bookingId other : string) (db : Database) (b' : Booking.t) :
  Booking.bookingId b' = bookingId ->
  (forall r, In r (bookings db) -> Booking.id r = Booking.id b' ->
             Booking.bookingId r = bookingId) ->
  other <> bookingId ->
  rows_with other (with_bookings db (replace_row b' (bookings db)))
  = rows_with other db.
Proof.
  intros Hname Hkey Hother. unfold rows_with, with_bookings, replace_row.
  cbn [bookings]. induction (bookings db) as [|x l IH]; [reflexivity|].
  cbn [map filter]. rewrite IH by (intros r Hr; apply Hkey; right; exact Hr).
  destruct (option_Z_eqb (Booking.id x) (Booking.id b')) eqn:He; [|reflexivity].
  apply option_Z_eqb_eq in He.
  rewrite (Hkey x (or_introl eq_refl) He), Hname.
  apply not_eq_sym, String.eqb_neq in Hother.
  rewrite Hother. reflexivity.
Qed.

(** The controller itself never looks at the status of the booking it
    finds; what happens follows the payment service.  Whatever the payment
    service is (it is taken here as any operation that leaves the bookings
    table alone): when the service throws, the request fails with its
    message and no booking changes; when the service returns a payment, the
    request succeeds and the booking is BOOKED afterwards, every other
    booking being left as it was. *)
Lemma processPayment_follows_the_service
    (paymentService : PaymentService.t) (request : PaymentRequest.t)
    (db : Database) (booking : Booking.t) :
  (forall b r d,
      bookings (snd (PaymentService.processPayment paymentService b r d))
      = bookings d) ->
  persisted db ->
  fst (BookingService.getBookingById BookingRepository.jpa
         (PaymentRequest.bookingId request) db) = Return (Some booking) ->
  let result :=
    PaymentController.processPayment BookingRepository.jpa paymentService
      request db in
  match fst (PaymentService.processPayment paymentService booking request db) with
  | Throw e =>
      fst result = Return (payment_failed e)
      /\ bookings (snd result) = bookings db
  | Return payment =>
      fst result = Return (success_response payment)
      /\ fst (BookingService.getBookingById BookingRepository.jpa
                (PaymentRequest.bookingId request) (snd result))
         = Return (Some (Booking.setParcelStatus booking BOOKED))
      /\ Booking.parcelStatus (Booking.setParcelStatus booking BOOKED) = BOOKED
      /\ forall other, other <> PaymentRequest.bookingId request ->
           fst (BookingService.getBookingById BookingRepository.jpa other
                  (snd result))
           = fst (BookingService.getBookingById BookingRepository.jpa other db)
  end.
Proof.
  intros Hservice Hdb Hfound result. apply getBookingById_found in Hfound.
  assert (Hb : In booking (bookings db)
               /\ Booking.bookingId booking = PaymentRequest.bookingId request).
  { apply rows_with_In. rewrite Hfound. left. reflexivity. }
  destruct Hb as [Hin Hname].
  assert (Hid : Booking.id booking <> None).
  { destruct Hdb as [Hids _]. rewrite Forall_forall in Hids. apply Hids, Hin. }
  subst result. rewrite (processPayment_found _ request db booking Hfound).
  specialize (Hservice booking request db).
  destruct (PaymentService.processPayment paymentService booking request db)
    as [[payment|e] db']; cbn [fst snd] in *; [|split; [reflexivity|exact Hservice]].
  assert (Hdb' : persisted db') by (unfold persisted; rewrite Hservice; exact Hdb).
  assert (Hfound' : rows_with (PaymentRequest.bookingId request) db' = [booking])
    by (unfold rows_with; rewrite Hservice; exact Hfound).
  rewrite updateBooking_jpa;
    [|exact Hid|exists booking; split; [rewrite Hservice; exact Hin|reflexivity]].
  cbn [snd]. split; [reflexivity|]. split; [|split; [reflexivity|]].
  - apply getBookingById_found.
    apply (rows_with_replace _ db' booking _ Hdb' Hfound'); reflexivity.
  - intros other Hother. rewrite !getBookingById_jpa. cbn [fst].
    replace (rows_with other db) with (rows_with other db')
      by (unfold rows_with; rewrite Hservice; reflexivity).
    rewrite (rows_with_other (PaymentRequest.bookingId request) other db'
               (Booking.setParcelStatus booking BOOKED)); [reflexivity| | |].
    + exact Hname.
    + intros r Hr Hrid. cbn in Hrid.
      assert (r = booking) as ->.
      { apply (key_unique Booking.id (bookings db')); try assumption.
        - apply Hdb'.
        - rewrite Hservice. exact Hin. }
      exact Hname.
    + exact Hother.
Qed.

Lemma modelled_service_keeps_bookings (env : Env) b r d :
  bookings (snd (PaymentService.processPayment (PaymentService.modelled env) b r d))
  = bookings d.
Proof.
  rewrite modelled_processPayment_run.
  destruct (PaymentService.checkPaymentExists (Booking.bookingId b) d);
    [reflexivity|].
  destruct (PaymentService.terminal (Booking.parcelStatus b)); reflexivity.
Qed.





(** C10. [getBookingById] is total whatever the repository does: it returns
    the booking the query found or null, and never throws; on the table it
    returns a row with the requested id, or null, and writes nothing.  When it
    returns null, payment processing answers "Booking not found" and writes
    nothing of its own. *)
Theorem getBookingById_total
    (bookingRepository : BookingRepository.t)
    (paymentService : PaymentService.t)
    (request : PaymentRequest.t) (bookingId : string) (db : Database) :
  (exists (result : option Booking.t) (db' : Database),
      BookingService.getBookingById bookingRepository bookingId db
      = (Return result, db')
      /\ (forall b, result = Some b ->
            BookingRepository.findByBookingId bookingRepository bookingId db
            = (Return (Some b), db')))
  /\ (exists result : option Booking.t,
         BookingService.getBookingById BookingRepository.jpa bookingId db
         = (Return result, db)
         /\ (forall b, result = Some b ->
               In b (bookings db) /\ Booking.bookingId b = bookingId))
  /\ (forall db',
         BookingService.getBookingById bookingRepository
           (PaymentRequest.bookingId request) db = (Return None, db') ->
         PaymentController.processPayment bookingRepository paymentService
           request db
         = (Return not_found_response, db'))
  /\ (fst (BookingService.getBookingById BookingRepository.jpa
             (PaymentRequest.bookingId request) db) = Return None ->
      PaymentController.processPayment BookingRepository.jpa paymentService
        request db
      = (Return not_found_response, db)).
Proof.
  split; [|split; [|split]].
  - unfold BookingService.getBookingById, try_catch.
    destruct (BookingRepository.findByBookingId bookingRepository bookingId db)
      as [[result|e] db'].
    + exists result, db'. split; [reflexivity|]. intros b ->. reflexivity.
    + exists None, db'. split; [reflexivity|]. intros b Hb. discriminate.
  - rewrite getBookingById_jpa. eexists. split; [reflexivity|].
    intros b Hb. apply rows_with_In.
    destruct (rows_with bookingId db) as [|b0 [|b1 l]]; try discriminate.
    injection Hb as ->. left. reflexivity.
  - intros db' H. unfold PaymentController.processPayment, try_catch, bind.
    rewrite H. reflexivity.
  - intros H. apply processPayment_not_found. intros b Hb.
    apply getBookingById_found in Hb. congruence.
Qed.

End PaymentProcessing.

(** ** Login and registration *)

Section Authentication.

Import Backend.
#[local] Open Scope backend_scope.

Variable env : Env.

Lemma findByUniqueId_run (uniqueId : string) (db : Database) :
  CustomerRepository.findByUniqueId uniqueId db
  = (fst (uniqueResult (rows_with_uniqueId uniqueId db) db), db).
Proof.
  unfold CustomerRepository.findByUniqueId, bind, get. cbn.
  fold (rows_with_uniqueId uniqueId db).
  destruct (rows_with_uniqueId uniqueId db) as [|c [|c' l]]; reflexivity.
Qed.

Lemma findByEmail_run (email : string) (db : Database) :
  CustomerRepository.findByEmail email db
  = (fst (uniqueResult (rows_with_email email db) db), db).
Proof.
  unfold CustomerRepository.findByEmail, bind, get. cbn.
  fold (rows_with_email email db).
  destruct (rows_with_email email db) as [|c [|c' l]]; reflexivity.
Qed.

(** C5, as the code has it.  A login with an unknown unique id and a login
    with a known id of the right role but a wrong password get the same
    response, on the customer login and on the officer login.  A known id of
    the other role gets the access-denied response of that login, whatever
    the password: an answer that differs from the one for an unknown id and
    so tells that the id exists, although the comments at the failure
    returns of the code ask for a generic message that does not reveal
    whether the user exists. *)
Theorem login_failures
    (db : Database) (unknown known : LoginRequest.t) (customer : Customer.t) :
  fst (CustomerRepository.findByUniqueId (LoginRequest.email unknown) db)
  = Return None ->
  fst (CustomerRepository.findByUniqueId (LoginRequest.email known) db)
  = Return (Some customer) ->
  AuthService.login env unknown db = (Return invalid_customer, db)
  /\ AuthService.officerLogin env unknown db = (Return invalid_officer, db)
  /\ (Customer.role customer = CUSTOMER ->
      matches env (LoginRequest.password known) (Customer.password customer)
      = false ->
      AuthService.login env known db = AuthService.login env unknown db)
  /\ (Customer.role customer = OFFICER ->
      matches env (LoginRequest.password known) (Customer.password customer)
      = false ->
      AuthService.officerLogin env known db
      = AuthService.officerLogin env unknown db)
  /\ (Customer.role customer = OFFICER ->
      AuthService.login env known db = (Return customer_login_required, db))
  /\ (Customer.role customer = CUSTOMER ->
      AuthService.officerLogin env known db
      = (Return officer_privileges_required, db)).
Proof.
  intros Hunknown Hknown.
  unfold AuthService.login, AuthService.officerLogin, bind.
  rewrite !findByUniqueId_run in *. cbn [fst] in Hunknown, Hknown.
  rewrite Hunknown, Hknown.
  repeat split.
  - intros Hrole Hpw. rewrite Hrole, Hpw. reflexivity.
  - intros Hrole Hpw. rewrite Hrole, Hpw. reflexivity.
  - intros Hrole. rewrite Hrole. reflexivity.
  - intros Hrole. rewrite Hrole. reflexivity.
Qed.

Lemma substring_run (n : nat) (s : string) (db : Database) :
  AuthService.substring n s db = (fst (AuthService.substring n s db), db).
Proof.
  revert s. induction n as [|n IH]; intros s; [reflexivity|].
  destruct s as [|c s]; [reflexivity|]. cbn. apply IH.
Qed.

Lemma UserRole_valueOf_run (name : string) (db : Database) :
  AuthService.UserRole_valueOf name db
  = (fst (AuthService.UserRole_valueOf name db), db).
Proof.
  unfold AuthService.UserRole_valueOf.
  repeat (destruct (String.eqb name _); [reflexivity|]). reflexivity.
Qed.

Lemma rows_with_email_nil (email : string) (db : Database) :
  rows_with_email email db = [] ->
  ~ In email (map Customer.email (customers db)).
Proof.
  unfold rows_with_email. intros Hnil Hin.
  apply in_map_iff in Hin as (c & Hc & Hin).
  assert (H : In c (filter (fun c => String.eqb (Customer.email c) email)
                      (customers db))).
  { apply filter_In. split; [exact Hin | apply String.eqb_eq; exact Hc]. }
  rewrite Hnil in H. exact H.
Qed.

Lemma rows_with_email_unique (email : string) (db : Database) (c : Customer.t) :
  NoDup (map Customer.email (customers db)) ->
  In c (customers db) -> Customer.email c = email ->
  rows_with_email email db = [c].
Proof.
  unfold rows_with_email. intros Hnd Hin Hc. subst email.
  induction (customers db) as [|x l IH]; [contradiction|].
  cbn in Hnd. inversion Hnd as [|? ? Hx Hl]; subst. cbn [filter].
  destruct Hin as [->|Hin].
  - rewrite String.eqb_refl. f_equal.
    destruct (filter _ l) as [|y l'] eqn:Hf; [reflexivity|].
    exfalso. apply Hx.
    assert (Hy : In y (filter (fun c0 => String.eqb (Customer.email c0)
                                  (Customer.email c)) l))
      by (rewrite Hf; left; reflexivity).
    apply filter_In in Hy as [Hy He]. apply String.eqb_eq in He.
    rewrite <- He. apply in_map. exact Hy.
  - destruct (String.eqb (Customer.email x) (Customer.email c)) eqn:He.
    + exfalso. apply String.eqb_eq in He. apply Hx. rewrite He.
      apply in_map. exact Hin.
    + apply IH; assumption.
Qed.

(** What [register] does to the store: nothing, or one new row carrying the
    requested email, and that only when no row has the email yet. *)
Lemma register_store (request : RegisterRequest.t) (db : Database) :
  snd (AuthService.register env request db) = db
  \/ (rows_with_email (RegisterRequest.email request) db = []
      /\ exists c,
           Customer.email c = RegisterRequest.email request
           /\ snd (AuthService.register env request db)
              = with_customers db (customers db ++ [c])%list).
Proof.
  unfold AuthService.register, try_catch, bind.
  rewrite findByEmail_run.
  destruct (rows_with_email (RegisterRequest.email request) db)
    as [|c0 [|c1 l]] eqn:Hrows; cbn [uniqueResult fst ret throw];
    [|left; reflexivity|left; reflexivity].
  rewrite UserRole_valueOf_run.
  destruct (fst (AuthService.UserRole_valueOf (RegisterRequest.role request) db))
    as [role|e] eqn:Hrole; [|left; reflexivity].
  cbv beta iota. rewrite UserRole_valueOf_run, Hrole. cbv beta iota.
  rewrite substring_run.
  destruct (fst (AuthService.substring 8 (currentTimeMillis env) db))
    as [timestamp|e]; [|left; reflexivity].
  right. split; [reflexivity|].
  unfold CustomerRepository.save, bind, get, put, ret, call. cbn.
  destruct (generateToken env _ _ _); cbn;
    (eexists; split; [|reflexivity]; reflexivity).
Qed.

(** C6. Registering with an email that a user already has fails and writes
    nothing: the response is a failure and the store is the one before; with
    emails unique, as they are kept, the message is "Email already
    registered".  So when emails are unique before a registration, whatever
    the request, they are unique after it. *)
Theorem register_keeps_email_unique
    (request : RegisterRequest.t) (db : Database) :
  (forall c, In c (customers db) ->
             Customer.email c = RegisterRequest.email request ->
             exists message,
               AuthService.register env request db
               = (Return (AuthResponse.failure message), db))
  /\ (NoDup (map Customer.email (customers db)) ->
      (forall c, In c (customers db) ->
                 Customer.email c = RegisterRequest.email request ->
                 AuthService.register env request db
                 = (Return (AuthResponse.failure "Email already registered"), db))
      /\ NoDup (map Customer.email
                  (customers (snd (AuthService.register env request db))))).
Proof.
  split; [|intros Hnd; split].
  - intros c Hin Hc.
    assert (Hrow : In c (rows_with_email (RegisterRequest.email request) db)).
    { apply filter_In. split; [exact Hin | apply String.eqb_eq; exact Hc]. }
    unfold AuthService.register, try_catch, bind. rewrite findByEmail_run.
    destruct (rows_with_email (RegisterRequest.email request) db)
      as [|c0 [|c1 l]]; [contradiction| |]; eexists; reflexivity.
  - intros c Hin Hc.
    unfold AuthService.register, try_catch, bind. rewrite findByEmail_run.
    rewrite (rows_with_email_unique _ db c Hnd Hin Hc). reflexivity.
  - destruct (register_store request db) as [->|(Hnil & c & Hc & ->)];
      [exact Hnd|].
    cbn [customers with_customers]. rewrite map_app. cbn [map].
    rewrite Hc.
    apply rows_with_email_nil in Hnil.
    clear - Hnd Hnil.
    induction (map Customer.email (customers db)) as [|x l IH]; cbn.
    + constructor; [intros []|constructor].
    + inversion Hnd as [|? ? Hx Hl]; subst. constructor.
      * rewrite in_app_iff. intros [H|[H|[]]]; [exact (Hx H)|].
        apply Hnil. left. symmetry. exact H.
      * apply IH; [exact Hl|]. intros H. apply Hnil. right. exact H.
Qed.

End Authentication.

Section AuthenticationExamples.

Import Backend.

(** On the sample store: a wrong password for a customer's id and an unknown
    id get the same response from the customer login. *)
Lemma login_failures_witness :
  AuthService.login sample_env (attempt "CUST2694940417" "guess") auth_db
  = AuthService.login sample_env (attempt "CUST0000000000" "guess") auth_db
  /\ AuthService.login sample_env (attempt "CUST0000000000" "guess") auth_db
     = (Return invalid_customer, auth_db).
Proof.
  destruct (login_failures sample_env auth_db
              (attempt "CUST0000000000" "guess")
              (attempt "CUST2694940417" "guess")
              (sample_customer 1 "CUST2694940417" "asha@example.com" CUSTOMER)
              eq_refl eq_refl) as (H1 & _ & H2 & _).
  split; [apply H2; reflexivity | exact H1].
Defined.

(** C5 fails on the code: with a wrong password, the customer login answers
    an unknown id and an officer's id differently, and the officer login
    answers an unknown id and a customer's id differently. *)
Lemma login_tells_other_role_from_unknown :
  fst (AuthService.login sample_env (attempt "CUST0000000000" "guess") auth_db)
  = Return invalid_customer
  /\ fst (AuthService.login sample_env (attempt "OFF2694941020" "guess") auth_db)
     = Return customer_login_required
  /\ fst (AuthService.officerLogin sample_env
            (attempt "OFF0000000000" "guess") auth_db)
     = Return invalid_officer
  /\ fst (AuthService.officerLogin sample_env
            (attempt "CUST2694940417" "guess") auth_db)
     = Return officer_privileges_required
  /\ invalid_customer <> customer_login_required
  /\ invalid_officer <> officer_privileges_required.
Proof. repeat split; try reflexivity; discriminate. Qed.

Example register_taken_email :
  AuthService.register sample_env (registration "asha@example.com") auth_db
  = (Return (AuthResponse.failure "Email already registered"), auth_db).
Proof. reflexivity. Qed.

Example register_fresh_email :
  let result :=
    AuthService.register sample_env (registration "meera@example.com") auth_db in
  map Customer.uniqueId (customers (snd result))
  = ["CUST2694940417"; "OFF2694941020"; "CUST94940417"]
  /\ option_map AuthResponse.success
       (match fst result with Return r => Some r | Throw _ => None end)
     = Some true.
Proof. split; reflexivity. Qed.

End AuthenticationExamples.

(** ** Feedback listing for officers *)

Section FeedbackListing.

Import Backend.
#[local] Open Scope backend_scope.

(** With a filter that is not blank, the service answers the first of the
    three queries whose requested page has content and, when none has, the
    first page of the unfiltered listing. *)
Lemma getOfficerFeedbackPaginated_filtered
    (pageable : Pageable) (filter : string) (db : Database) :
  Text.isEmpty (Text.trim filter) = false ->
  FeedbackService.getOfficerFeedbackPaginated pageable (Some filter) db
  = (Return
       (let t := Text.trim filter in
        let c := page_of (List.filter (matches_customer t) (feedbacks db)) pageable in
        let b := page_of (List.filter (matches_booking t) (feedbacks db)) pageable in
        let d := page_of (List.filter (matches_description t) (feedbacks db))
                   pageable in
        if hasContent c then c
        else if hasContent b then b
        else if hasContent d then d
        else page_of (feedbacks db) (PageRequest_of 0 (pageSize pageable))),
     db).
Proof.
  intros Hfilter.
  unfold FeedbackService.getOfficerFeedbackPaginated, try_catch.
  rewrite Hfilter. cbn [negb].
  unfold FeedbackRepository.findByCustomerNameContainingIgnoreCase,
    FeedbackRepository.findByBookingIdContainingIgnoreCase,
    FeedbackRepository.findByFeedbackDescriptionContainingIgnoreCase,
    FeedbackRepository.findAll, bind, get, ret.
  cbv zeta.
  fold (matches_customer (Text.trim filter)).
  fold (matches_booking (Text.trim filter)).
  fold (matches_description (Text.trim filter)).
  destruct (hasContent (page_of (List.filter (matches_customer _) _) pageable));
    [reflexivity|].
  destruct (hasContent (page_of (List.filter (matches_booking _) _) pageable));
    [reflexivity|].
  destruct (hasContent (page_of (List.filter (matches_description _) _) pageable));
    reflexivity.
Qed.

Lemma filter_none {A} (f : A -> bool) (l : list A) :
  (forall x, In x l -> f x = false) -> List.filter f l = [].
Proof.
  induction l as [|x l IH]; [reflexivity|]. intros H. cbn.
  rewrite (H x (or_introl eq_refl)). apply IH. intros y Hy. apply H. right. exact Hy.
Qed.

(** C4, what the code does where the claim fails.  When the filter is not
    blank and matches no customer name, no booking id and no description, the
    service returns, without an error, the first page of all feedback, whose
    totalElements is the number of all feedback records (not an empty page
    with totalElements 0, unless there is no feedback at all). *)
Theorem unmatched_filter_lists_all_feedback
    (pageable : Pageable) (filter : string) (db : Database) :
  Text.isEmpty (Text.trim filter) = false ->
  (forall f, In f (feedbacks db) ->
     matches_customer (Text.trim filter) f = false
     /\ matches_booking (Text.trim filter) f = false
     /\ matches_description (Text.trim filter) f = false) ->
  exists page,
    FeedbackService.getOfficerFeedbackPaginated pageable (Some filter) db
    = (Return page, db)
    /\ page = page_of (feedbacks db) (PageRequest_of 0 (pageSize pageable))
    /\ totalElements page = List.length (feedbacks db)
    /\ content page = firstn (pageSize pageable) (feedbacks db).
Proof.
  intros Hfilter Hnone.
  rewrite (getOfficerFeedbackPaginated_filtered pageable filter db Hfilter).
  cbv zeta.
  rewrite !filter_none by (intros f Hf; apply (Hnone f Hf)).
  replace (hasContent (page_of (@nil Feedback.t) pageable)) with false.
  - eexists. split; [reflexivity|]. split; [reflexivity|]. split; reflexivity.
  - unfold hasContent, page_of. cbn [content].
    rewrite skipn_nil, firstn_nil. reflexivity.
Qed.

(** On the sample store: page 0 of size 10 with the filter "zzz". *)
Lemma unmatched_filter_lists_all_feedback_witness :
  exists page,
    FeedbackService.getOfficerFeedbackPaginated (PageRequest_of 0 10)
      (Some "zzz") feedback_db
    = (Return page, feedback_db)
    /\ totalElements page = 2%nat
    /\ content page = feedbacks feedback_db.
Proof.
  destruct (unmatched_filter_lists_all_feedback (PageRequest_of 0 10) "zzz"
              feedback_db eq_refl) as (page & H1 & _ & H2 & H3).
  - intros f [<-|[<-|[]]]; repeat split; reflexivity.
  - exists page. split; [exact H1|]. split; [exact H2 | exact H3].
Defined.

End FeedbackListing.

(** ** More on the cost shown by the officer booking form *)

Section OfficerBookingCostExact.

Import Js OfficerBookingComponent.

Lemma fixed_charges_rupees (d p : string) :
  fixed_charges (Some (parse_delivery d)) (Some (parse_packing p)) true
  = 100 + delivery_rupees d + packing_rupees p.
Proof.
  unfold fixed_charges, parse_delivery, parse_packing, delivery_rupees,
    packing_rupees.
  destruct (String.eqb d "STANDARD"), (String.eqb d "EXPRESS"),
    (String.eqb d "SAME_DAY"), (String.eqb p "BASIC"), (String.eqb p "PREMIUM");
    reflexivity.
Qed.

Lemma rupees_bounds (d p : string) :
  140 <= 100 + delivery_rupees d + packing_rupees p <= 270.
Proof.
  unfold delivery_rupees, packing_rupees.
  destruct (String.eqb d "STANDARD"), (String.eqb d "EXPRESS"),
    (String.eqb d "SAME_DAY"), (String.eqb p "BASIC"), (String.eqb p "PREMIUM");
    lia.
Qed.

Lemma calculatedCost_exact (form : BookingForm) (this : Component) (w : Z) :
  weight form = Some w -> 100 <= w <= 50000 ->
  calculatedCost (calculateCost form this)
  = of_Z (exact_total w (or_str (deliveryType form) "STANDARD")
                        (or_str (packingPreference form) "BASIC")).
Proof.
  intros Hform Hw.
  rewrite (calculatedCost_valid form this w Hform Hw).
  rewrite calculateServiceCost_exact, fixed_charges_rupees. reflexivity.
Qed.

(** X1.
    For every whole weight from 100 to 50000 grams and whatever the two
    selections, the total that the form computes in binary64 arithmetic
    and rounds with [Math.round] is the Number of the integer that exact
    arithmetic gives: a floating-point error never moves the total across a
    rupee.  The delivery and packing charges shown are the whole-rupee
    charges of the selections. *)
Theorem form_total_is_exact (form : BookingForm) (this : Component) (w : Z) :
  weight form = Some w -> 100 <= w <= 50000 ->
  calculatedCost (calculateCost form this)
  = of_Z (exact_total w (or_str (deliveryType form) "STANDARD")
                        (or_str (packingPreference form) "BASIC"))
  /\ deliveryCharge (calculateCost form this)
     = of_Z (delivery_rupees (or_str (deliveryType form) "STANDARD"))
  /\ packingCharge (calculateCost form this)
     = of_Z (packing_rupees (or_str (packingPreference form) "BASIC"))
  /\ parcelWeightInGram (calculateCost form this) = of_Z w.
Proof.
  intros Hform Hw. split; [exact (calculatedCost_exact form this w Hform Hw)|].
  rewrite (calculateCost_valid form this w Hform Hw).
  cbn [deliveryCharge packingCharge parcelWeightInGram].
  unfold deliveryChargeFor, packingChargeFor, delivery_rupees, packing_rupees.
  set (d := or_str (deliveryType form) "STANDARD").
  set (p := or_str (packingPreference form) "BASIC").
  repeat split.
  - destruct (String.eqb d "STANDARD"), (String.eqb d "EXPRESS"),
      (String.eqb d "SAME_DAY"); reflexivity.
  - destruct (String.eqb p "BASIC"), (String.eqb p "PREMIUM"); reflexivity.
Qed.

(** X2.
    At one and the same valid weight, a selection with a dearer delivery
    type and a dearer packing is never shown a smaller total: STANDARD costs
    at most EXPRESS, EXPRESS at most SAME_DAY, and BASIC at most PREMIUM,
    under JavaScript's [<=] on the totals shown. *)
Theorem dearer_options_never_cost_less
    (w : Z) (d1 p1 d2 p2 : string) (this1 this2 : Component) :
  100 <= w <= 50000 ->
  delivery_rupees (or_str d1 "STANDARD") <= delivery_rupees (or_str d2 "STANDARD") ->
  packing_rupees (or_str p1 "BASIC") <= packing_rupees (or_str p2 "BASIC") ->
  PrimFloat.leb (calculatedCost (calculateCost (form_of w d1 p1) this1))
                (calculatedCost (calculateCost (form_of w d2 p2) this2))
  = true.
Proof.
  intros Hw Hd Hp.
  rewrite (calculatedCost_exact (form_of w d1 p1) this1 w eq_refl Hw).
  rewrite (calculatedCost_exact (form_of w d2 p2) this2 w eq_refl Hw).
  cbn [deliveryType packingPreference form_of].
  pose proof (rupees_bounds (or_str d1 "STANDARD") (or_str p1 "BASIC")) as H1.
  pose proof (rupees_bounds (or_str d2 "STANDARD") (or_str p2 "BASIC")) as H2.
  pose proof (exact_cost_bounds _ w H1 Hw) as B1.
  pose proof (exact_cost_bounds _ w H2 Hw) as B2.
  unfold exact_cost in B1, B2. unfold exact_total.
  apply leb_of_Z; try lia.
  apply Z.div_le_mono; lia.
Qed.

(** X3.
    The label that the summary shows for a selection and the charge that
    the form adds for it belong to the same option, also for a selection
    that is empty or not one of the known values: Standard Delivery goes
    with 30, Express Delivery with 80, Same Day Delivery with 150, Basic
    Packing with 10 and Premium Packing with 20. *)
Theorem labels_agree_with_charges (form : BookingForm) (this : Component) (w : Z) :
  weight form = Some w -> 100 <= w <= 50000 ->
  ((getDeliveryTypeName form = "Standard Delivery"%string
    /\ deliveryCharge (calculateCost form this) = 30%float)
   \/ (getDeliveryTypeName form = "Express Delivery"%string
       /\ deliveryCharge (calculateCost form this) = 80%float)
   \/ (getDeliveryTypeName form = "Same Day Delivery"%string
       /\ deliveryCharge (calculateCost form this) = 150%float))
  /\ ((getPackingTypeName form = "Basic Packing"%string
       /\ packingCharge (calculateCost form this) = 10%float)
      \/ (getPackingTypeName form = "Premium Packing"%string
          /\ packingCharge (calculateCost form this) = 20%float)).
Proof.
  intros Hform Hw.
  rewrite (calculateCost_valid form this w Hform Hw).
  cbn [deliveryCharge packingCharge].
  unfold getDeliveryTypeName, getPackingTypeName, deliveryChargeFor,
    packingChargeFor.
  split.
  - destruct (deliveryType form) as [|c s] eqn:Hd; cbn [or_str].
    + left. split; reflexivity.
    + destruct (String.eqb (String c s) "STANDARD");
        [left; split; reflexivity|].
      destruct (String.eqb (String c s) "EXPRESS");
        [right; left; split; reflexivity|].
      destruct (String.eqb (String c s) "SAME_DAY");
        [right; right; split; reflexivity|].
      left; split; reflexivity.
  - destruct (packingPreference form) as [|c s] eqn:Hp; cbn [or_str].
    + left. split; reflexivity.
    + destruct (String.eqb (String c s) "BASIC");
        [left; split; reflexivity|].
      destruct (String.eqb (String c s) "PREMIUM");
        [right; split; reflexivity|].
      left; split; reflexivity.
Qed.

(** 1000 g, EXPRESS, PREMIUM: (100 + 20 + 80 + 20) * 1.05 = 231. *)
Lemma form_total_is_exact_witness :
  calculatedCost (calculateCost (form_of 1000 "EXPRESS" "PREMIUM") initial)
  = of_Z (exact_total 1000 "EXPRESS" "PREMIUM")
  /\ exact_total 1000 "EXPRESS" "PREMIUM" = 231.
Proof.
  split; [|reflexivity].
  apply (form_total_is_exact (form_of 1000 "EXPRESS" "PREMIUM") initial 1000);
    [reflexivity | lia].
Defined.

(** 1000 g: STANDARD with BASIC against SAME_DAY with PREMIUM. *)
Lemma dearer_options_never_cost_less_witness :
  PrimFloat.leb
    (calculatedCost (calculateCost (form_of 1000 "STANDARD" "BASIC") initial))
    (calculatedCost (calculateCost (form_of 1000 "SAME_DAY" "PREMIUM") initial))
  = true.
Proof.
  apply (dearer_options_never_cost_less 1000 "STANDARD" "BASIC" "SAME_DAY"
           "PREMIUM" initial initial); [lia | discriminate | discriminate].
Defined.

(** 1000 g, EXPRESS, and no packing selected. *)
Lemma labels_agree_with_charges_witness :
  getDeliveryTypeName (form_of 1000 "EXPRESS" "") = "Express Delivery"%string
  /\ deliveryCharge (calculateCost (form_of 1000 "EXPRESS" "") initial) = 80%float
  /\ getPackingTypeName (form_of 1000 "EXPRESS" "") = "Basic Packing"%string
  /\ packingCharge (calculateCost (form_of 1000 "EXPRESS" "") initial) = 10%float.
Proof.
  destruct (labels_agree_with_charges (form_of 1000 "EXPRESS" "") initial 1000
              eq_refl ltac:(lia)) as [Hd Hp].
  destruct Hd as [[H1 H2]|[[H1 H2]|[H1 H2]]];
    try (vm_compute in H1; discriminate H1).
  destruct Hp as [[H3 H4]|[H3 H4]];
    try (vm_compute in H3; discriminate H3).
  split; [exact H1|]. split; [exact H2|]. split; [exact H3 | exact H4].
Defined.

End OfficerBookingCostExact.

(** ** Saving and finding bookings *)

Section BookingStore.

Import Backend.
#[local] Open Scope backend_scope.

Lemma max_id_upper (ids : list (option Z)) (z : Z) :
  In (Some z) ids -> z <= max_id ids.
Proof.
  induction ids as [|i ids IH]; [contradiction|].
  unfold max_id. cbn [fold_right]. fold (max_id ids). intros [->|H].
  - lia.
  - specialize (IH H). destruct i; lia.
Qed.

Lemma fresh_id_not_used (ids : list (option Z)) :
  ~ In (Some (max_id ids + 1)) ids.
Proof. intros H. apply max_id_upper in H. lia. Qed.

Lemma NoDup_snoc {A} (l : list A) (a : A) :
  NoDup l -> ~ In a l -> NoDup (l ++ [a]).
Proof.
  induction l as [|x l IH]; cbn; intros Hnd Hin.
  - constructor; [intros []|constructor].
  - inversion Hnd as [|? ? Hx Hl]; subst. constructor.
    + rewrite in_app_iff. intros [H|[H|[]]]; [exact (Hx H)|].
      apply Hin. left. symmetry. exact H.
    + apply IH; [exact Hl|]. intros H. apply Hin. right. exact H.
Qed.

Lemma rows_with_absent (bookingId : string) (db : Database) :
  ~ In bookingId (map Booking.bookingId (bookings db)) ->
  rows_with bookingId db = [].
Proof.
  intros H. unfold rows_with.
  destruct (filter _ (bookings db)) as [|b l] eqn:Hf; [reflexivity|].
  exfalso. apply H.
  assert (Hb : In b (filter (fun b => String.eqb (Booking.bookingId b) bookingId)
                       (bookings db))) by (rewrite Hf; left; reflexivity).
  apply filter_In in Hb as [Hin He]. apply String.eqb_eq in He.
  rewrite <- He. apply in_map. exact Hin.
Qed.

(** X4.
    A booking that has no primary key yet and whose booking id is not in the
    table is stored by [createBooking] under a fresh primary key with all
    its columns, [getBookingById] then finds it under its booking id, every
    other lookup answers as before, and the table stays well formed. *)
Theorem createBooking_then_getBookingById (booking : Booking.t) (db : Database) :
  persisted db ->
  Booking.id booking = None ->
  ~ In (Booking.bookingId booking) (map Booking.bookingId (bookings db)) ->
  exists (saved : Booking.t) (db' : Database),
    BookingService.createBooking BookingRepository.jpa booking db
    = (Return saved, db')
    /\ same_columns saved booking
    /\ (exists i, Booking.id saved = Some i
                  /\ ~ In (Some i) (map Booking.id (bookings db)))
    /\ bookings db' = (bookings db ++ [saved])%list
    /\ BookingService.getBookingById BookingRepository.jpa
         (Booking.bookingId booking) db' = (Return (Some saved), db')
    /\ (forall other, other <> Booking.bookingId booking ->
          fst (BookingService.getBookingById BookingRepository.jpa other db')
          = fst (BookingService.getBookingById BookingRepository.jpa other db))
    /\ persisted db'.
Proof.
  intros [Hids Hkey] Hnew Hfresh.
  apply rows_with_absent in Hfresh.
  unfold BookingService.createBooking. cbn.
  unfold BookingRepository.jpa_save, bind, get, put, ret. rewrite Hnew.
  set (i := max_id (map Booking.id (bookings db)) + 1).
  set (saved := BookingRepository.setId booking i).
  exists saved, (with_bookings db (bookings db ++ [saved])%list).
  split; [reflexivity|]. split; [repeat split|].
  split; [exists i; split; [reflexivity | apply fresh_id_not_used]|].
  split; [reflexivity|]. split; [|split].
  - rewrite getBookingById_jpa. f_equal. unfold rows_with in *.
    cbn [bookings with_bookings]. rewrite filter_app, Hfresh. cbn.
    rewrite String.eqb_refl. reflexivity.
  - intros other Hother. rewrite !getBookingById_jpa. cbn [fst].
    unfold rows_with. cbn [bookings with_bookings]. rewrite filter_app. cbn.
    apply not_eq_sym, String.eqb_neq in Hother. rewrite Hother.
    rewrite app_nil_r. reflexivity.
  - split; cbn [bookings with_bookings].
    + apply Forall_app. split; [exact Hids|]. repeat constructor. discriminate.
    + rewrite map_app. cbn. apply NoDup_snoc; [exact Hkey|].
      apply fresh_id_not_used.
Qed.

Lemma replace_row_ids (b : Booking.t) (rows : list Booking.t) :
  map Booking.id (replace_row b rows) = map Booking.id rows.
Proof.
  unfold replace_row. induction rows as [|r rows IH]; [reflexivity|].
  cbn [map]. rewrite IH.
  destruct (option_Z_eqb (Booking.id r) (Booking.id b)) eqn:He; [|reflexivity].
  apply option_Z_eqb_eq in He. rewrite He. reflexivity.
Qed.

Lemma replace_row_persisted (b : Booking.t) (db : Database) :
  persisted db -> Booking.id b <> None ->
  persisted (with_bookings db (replace_row b (bookings db))).
Proof.
  intros [Hids Hkey] Hb. split; cbn [bookings with_bookings].
  - unfold replace_row. rewrite Forall_map.
    rewrite Forall_forall in *. intros r Hr.
    destruct (option_Z_eqb (Booking.id r) (Booking.id b)); [exact Hb|].
    apply Hids, Hr.
  - rewrite replace_row_ids. exact Hkey.
Qed.

(** X5.
    Updating the booking that is stored under a booking id, keeping its
    primary key and booking id: [updateBooking] returns the new version,
    [getBookingById] then finds the new version under that id, every other
    lookup answers as before, the number of rows is unchanged and the table
    stays well formed. *)
Theorem updateBooking_then_getBookingById
    (stored updated : Booking.t) (db : Database) :
  persisted db ->
  fst (BookingService.getBookingById BookingRepository.jpa
         (Booking.bookingId updated) db) = Return (Some stored) ->
  Booking.id updated = Booking.id stored ->
  exists db' : Database,
    BookingService.updateBooking BookingRepository.jpa updated db
    = (Return (Some updated), db')
    /\ BookingService.getBookingById BookingRepository.jpa
         (Booking.bookingId updated) db' = (Return (Some updated), db')
    /\ (forall other, other <> Booking.bookingId updated ->
          fst (BookingService.getBookingById BookingRepository.jpa other db')
          = fst (BookingService.getBookingById BookingRepository.jpa other db))
    /\ List.length (bookings db') = List.length (bookings db)
    /\ persisted db'.
Proof.
  intros Hdb Hfound Hid. apply getBookingById_found in Hfound.
  assert (Hs : In stored (bookings db)
               /\ Booking.bookingId stored = Booking.bookingId updated).
  { apply rows_with_In. rewrite Hfound. left. reflexivity. }
  destruct Hs as [Hin Hname].
  assert (Hsome : Booking.id updated <> None).
  { rewrite Hid. destruct Hdb as [Hids _]. rewrite Forall_forall in Hids.
    apply Hids, Hin. }
  exists (with_bookings db (replace_row updated (bookings db))).
  split; [|split; [|split; [|split]]].
  - apply updateBooking_jpa; [exact Hsome|].
    exists stored. split; [exact Hin | symmetry; exact Hid].
  - rewrite getBookingById_jpa. f_equal.
    rewrite (rows_with_replace _ db stored updated Hdb Hfound Hid
               (eq_sym Hname)).
    reflexivity.
  - intros other Hother. rewrite !getBookingById_jpa. cbn [fst].
    rewrite (rows_with_other (Booking.bookingId updated) other db updated);
      [reflexivity|reflexivity| |exact Hother].
    intros r Hr Hrid. rewrite Hid in Hrid.
    assert (r = stored) as ->
      by (apply (key_unique Booking.id (bookings db)); try assumption; apply Hdb).
    exact Hname.
  - cbn [bookings with_bookings]. unfold replace_row. apply length_map.
  - apply replace_row_persisted; assumption.
Qed.

End BookingStore.

(** ** More on login, registration and passwords *)

Section MoreAuthentication.

Import Backend.
#[local] Open Scope backend_scope.

Variable env : Env.

Lemma login_run (request : LoginRequest.t) (db : Database) :
  AuthService.login env request db
  = match rows_with_uniqueId (LoginRequest.email request) db with
    | [] => (Return invalid_customer, db)
    | [c] =>
        if negb (UserRole_eqb (Customer.role c) CUSTOMER)
        then (Return customer_login_required, db)
        else if negb (matches env (LoginRequest.password request)
                        (Customer.password c))
        then (Return invalid_customer, db)
        else (login_answer env c, db)
    | _ :: _ :: _ => (Throw "query did not return a unique result", db)
    end.
Proof.
  unfold AuthService.login, bind. rewrite findByUniqueId_run.
  destruct (rows_with_uniqueId (LoginRequest.email request) db)
    as [|c [|c' l]]; cbn [uniqueResult fst snd ret throw]; try reflexivity.
  destruct (negb (UserRole_eqb (Customer.role c) CUSTOMER)); [reflexivity|].
  destruct (negb (matches env _ _)); [reflexivity|].
  unfold call, login_answer, issued_token.
  destruct (generateToken env _ _ _); reflexivity.
Qed.

Lemma officerLogin_run (request : LoginRequest.t) (db : Database) :
  AuthService.officerLogin env request db
  = match rows_with_uniqueId (LoginRequest.email request) db with
    | [] => (Return invalid_officer, db)
    | [c] =>
        if negb (UserRole_eqb (Customer.role c) OFFICER)
        then (Return officer_privileges_required, db)
        else if negb (matches env (LoginRequest.password request)
                        (Customer.password c))
        then (Return invalid_officer, db)
        else (login_answer env c, db)
    | _ :: _ :: _ => (Throw "query did not return a unique result", db)
    end.
Proof.
  unfold AuthService.officerLogin, bind. rewrite findByUniqueId_run.
  destruct (rows_with_uniqueId (LoginRequest.email request) db)
    as [|c [|c' l]]; cbn [uniqueResult fst snd ret throw]; try reflexivity.
  destruct (negb (UserRole_eqb (Customer.role c) OFFICER)); [reflexivity|].
  destruct (negb (matches env _ _)); [reflexivity|].
  unfold call, login_answer, issued_token.
  destruct (generateToken env _ _ _); reflexivity.
Qed.

Lemma login_answer_success (c : Customer.t) (response : AuthResponse.t) :
  login_answer env c = Return response ->
  exists token,
    issued_token env c = Return token
    /\ response = AuthResponse.of_customer "Login successful" token c.
Proof.
  unfold login_answer. destruct (issued_token env c) as [token|e];
    [|discriminate].
  intros H. injection H as <-. exists token. split; reflexivity.
Qed.

(** X6.
    Neither login writes to the store, and each succeeds only for an account
    with the requested unique id that has the login's own role and whose
    stored hash matches the password; the response then carries that
    account's data and the token issued for it. *)
Theorem login_needs_role_and_password (request : LoginRequest.t) (db : Database) :
  snd (AuthService.login env request db) = db
  /\ snd (AuthService.officerLogin env request db) = db
  /\ (forall response,
        fst (AuthService.login env request db) = Return response ->
        AuthResponse.success response = true ->
        exists customer token,
          In customer (customers db)
          /\ Customer.uniqueId customer = LoginRequest.email request
          /\ Customer.role customer = CUSTOMER
          /\ matches env (LoginRequest.password request)
               (Customer.password customer) = true
          /\ generateToken env (Customer.email customer)
               (Customer.id customer) (Customer.role customer) = Return token
          /\ response
             = AuthResponse.of_customer "Login successful" token customer)
  /\ (forall response,
        fst (AuthService.officerLogin env request db) = Return response ->
        AuthResponse.success response = true ->
        exists customer token,
          In customer (customers db)
          /\ Customer.uniqueId customer = LoginRequest.email request
          /\ Customer.role customer = OFFICER
          /\ matches env (LoginRequest.password request)
               (Customer.password customer) = true
          /\ generateToken env (Customer.email customer)
               (Customer.id customer) (Customer.role customer) = Return token
          /\ response
             = AuthResponse.of_customer "Login successful" token customer).
Proof.
  rewrite login_run, officerLogin_run.
  destruct (rows_with_uniqueId (LoginRequest.email request) db)
    as [|c [|c' l]] eqn:Hrows; cbn [fst snd].
  - repeat split; intros response H; injection H as <-; discriminate.
  - assert (Hc : In c (customers db)
                 /\ Customer.uniqueId c = LoginRequest.email request).
    { assert (H : In c (rows_with_uniqueId (LoginRequest.email request) db))
        by (rewrite Hrows; left; reflexivity).
      apply filter_In in H as [Hin He]. split; [exact Hin|].
      apply String.eqb_eq. exact He. }
    destruct Hc as [Hin Hid].
    destruct (Customer.role c) eqn:Hrole;
      destruct (matches env (LoginRequest.password request) (Customer.password c))
        eqn:Hpw; cbn [UserRole_eqb negb fst snd];
      (split; [reflexivity|]); (split; [reflexivity|]);
      split; intros response H;
      try (injection H as <-; discriminate);
      intros _; apply login_answer_success in H as (token & Htoken & ->);
      exists c, token; unfold issued_token in Htoken; rewrite Hrole in Htoken;
      rewrite Hrole; repeat split; assumption.
  - repeat split; intros response H; discriminate.
Qed.

Lemma register_result (request : RegisterRequest.t) (db : Database) :
  exists response : AuthResponse.t,
    fst (AuthService.register env request db) = Return response
    /\ (AuthResponse.success response = false ->
        snd (AuthService.register env request db) = db
        \/ exists (c : Customer.t) (e : string),
             snd (AuthService.register env request db)
             = with_customers db (customers db ++ [c])%list
             /\ registered_row env request db c
             /\ generateToken env (Customer.email c) (Customer.id c)
                  (Customer.role c) = Throw e
             /\ response = AuthResponse.failure ("Registration failed: " ++ e))
    /\ (AuthResponse.success response = true ->
        exists (c : Customer.t) (token : string),
          snd (AuthService.register env request db)
          = with_customers db (customers db ++ [c])%list
          /\ registered_row env request db c
          /\ generateToken env (Customer.email c) (Customer.id c)
               (Customer.role c) = Return token
          /\ response = registration_response token c).
Proof.
  unfold AuthService.register, try_catch, bind.
  rewrite findByEmail_run.
  destruct (rows_with_email (RegisterRequest.email request) db)
    as [|c0 [|c1 l]] eqn:Hrows; cbn [uniqueResult fst snd ret throw];
    try (eexists; split; [reflexivity|]; split;
         [intros _; left; reflexivity|discriminate]).
  assert (Hrole : exists o,
             AuthService.UserRole_valueOf (RegisterRequest.role request) db
             = (o, db)
             /\ forall r, o = Return r ->
                          RegisterRequest.role request = UserRole_toString r).
  { unfold AuthService.UserRole_valueOf.
    destruct (String.eqb (RegisterRequest.role request) "CUSTOMER") eqn:H1.
    - eexists. split; [reflexivity|]. intros r Hr. injection Hr as <-.
      apply String.eqb_eq. exact H1.
    - destruct (String.eqb (RegisterRequest.role request) "OFFICER") eqn:H2.
      + eexists. split; [reflexivity|]. intros r Hr. injection Hr as <-.
        apply String.eqb_eq. exact H2.
      + eexists. split; [reflexivity|]. intros r Hr. discriminate. }
  destruct Hrole as (o & Ho & Hname). rewrite Ho.
  destruct o as [role|e];
    [|eexists; split; [reflexivity|]; split;
      [intros _; left; reflexivity|discriminate]].
  cbv beta iota. rewrite Ho. cbv beta iota.
  rewrite substring_run.
  destruct (fst (AuthService.substring 8 (currentTimeMillis env) db))
    as [timestamp|e];
    [|eexists; split; [reflexivity|]; split;
      [intros _; left; reflexivity|discriminate]].
  unfold CustomerRepository.save, bind, get, put, ret, call.
  cbn [Customer.id CustomerRepository.setId Customer.email Customer.role
       Customer.customerName fst snd].
  set (c := CustomerRepository.setId _ _).
  assert (Hrow : registered_row env request db c).
  { split; [apply rows_with_email_nil; exact Hrows|].
    split; [cbn; apply fresh_id_not_used|].
    split; [discriminate|].
    split; [reflexivity|]. split; [reflexivity|]. split; [reflexivity|].
    exists role, (timestamp ++ random env). split; [reflexivity|].
    split; [apply Hname; reflexivity|].
    cbn. destruct role; reflexivity. }
  change (generateToken env (RegisterRequest.email request)
            (Some (max_id (map Customer.id (customers db)) + 1)) role)
    with (generateToken env (Customer.email c) (Customer.id c)
            (Customer.role c)).
  destruct (generateToken env (Customer.email c) (Customer.id c)
              (Customer.role c)) as [token|e] eqn:Htoken.
  - eexists. split; [reflexivity|]. split; [discriminate|]. intros _.
    exists c, token. split; [reflexivity|]. split; [exact Hrow|].
    split; [exact Htoken | reflexivity].
  - eexists. split; [reflexivity|]. split; [|discriminate]. intros _.
    right. exists c, e. split; [reflexivity|]. split; [exact Hrow|].
    split; [exact Htoken | reflexivity].
Qed.

(** X7.
    [register] never throws.  A failure response leaves the store as it
    was, with one exception: when the token issuer throws, which happens
    after the new row was saved, the response is the failure "Registration
    failed: " with the issuer's message and the row stays stored.  On
    success exactly one row is appended: the request's data under a fresh
    primary key, with the hashed password, the requested role and a unique
    id that starts with CUST for a customer and OFF for an officer, and the
    response reports that row with the issued token. *)
Theorem register_outcome (request : RegisterRequest.t) (db : Database) :
  exists response : AuthResponse.t,
    fst (AuthService.register env request db) = Return response
    /\ (AuthResponse.success response = false ->
        snd (AuthService.register env request db) = db
        \/ exists (c : Customer.t) (e : string),
             snd (AuthService.register env request db)
             = with_customers db (customers db ++ [c])%list
             /\ registered_row env request db c
             /\ generateToken env (Customer.email c) (Customer.id c)
                  (Customer.role c) = Throw e
             /\ response = AuthResponse.failure ("Registration failed: " ++ e))
    /\ (AuthResponse.success response = true ->
        exists (c : Customer.t) (token : string),
          snd (AuthService.register env request db)
          = with_customers db (customers db ++ [c])%list
          /\ registered_row env request db c
          /\ generateToken env (Customer.email c) (Customer.id c)
               (Customer.role c) = Return token
          /\ response = registration_response token c).
Proof. exact (register_result request db). Qed.

Lemma rows_with_uniqueId_new (db : Database) (c : Customer.t) :
  (forall r, In r (customers db) -> Customer.uniqueId r <> Customer.uniqueId c) ->
  rows_with_uniqueId (Customer.uniqueId c)
    (with_customers db (customers db ++ [c])%list) = [c].
Proof.
  intros Hfresh. unfold rows_with_uniqueId. cbn [customers with_customers].
  rewrite filter_app. cbn. rewrite String.eqb_refl.
  replace (filter _ (customers db)) with (@nil Customer.t); [reflexivity|].
  symmetry. apply filter_none. intros r Hr. apply String.eqb_neq.
  apply Hfresh, Hr.
Qed.

(** X8.
    A registration can be followed by a login.  If [register] succeeds, the
    hasher accepts the password against its own hash, and no earlier account
    has the unique id that was handed out, then the login of the registered
    role (customer or officer) with that unique id and the same password
    succeeds on the resulting store and reports the registered account,
    with the token that the issuer gives for it. *)
Theorem register_then_login
    (request : RegisterRequest.t) (db : Database) (response : AuthResponse.t) :
  fst (AuthService.register env request db) = Return response ->
  AuthResponse.success response = true ->
  matches env (RegisterRequest.password request)
    (encode env (RegisterRequest.password request)) = true ->
  (forall r id, In r (customers db) ->
                AuthResponse.uniqueId response = Some id ->
                Customer.uniqueId r <> id) ->
  exists (id : string) (c : Customer.t) (token : string),
    AuthResponse.uniqueId response = Some id
    /\ In c (customers (snd (AuthService.register env request db)))
    /\ Customer.email c = RegisterRequest.email request
    /\ generateToken env (Customer.email c) (Customer.id c) (Customer.role c)
       = Return token
    /\ let attempt := {| LoginRequest.email := id;
                         LoginRequest.password := RegisterRequest.password request |} in
       let db' := snd (AuthService.register env request db) in
       (RegisterRequest.role request = "CUSTOMER" ->
        AuthService.login env attempt db' = (Return (login_response token c), db'))
       /\ (RegisterRequest.role request = "OFFICER" ->
           AuthService.officerLogin env attempt db'
           = (Return (login_response token c), db')).
Proof.
  intros Hreg Hok Hhash Hfresh.
  destruct (register_result request db) as (response' & Hr & _ & Hsucc).
  rewrite Hreg in Hr. injection Hr as <-.
  destruct (Hsucc Hok) as (c & token & Hdb & Hrow & Htoken & Hresp).
  destruct Hrow as (_ & _ & _ & Hemail & _ & Hpw & role & rest & Hrole & Hname & _).
  exists (Customer.uniqueId c), c, token. rewrite Hdb.
  split; [rewrite Hresp; reflexivity|].
  split; [cbn; apply in_or_app; right; left; reflexivity|].
  split; [exact Hemail|]. split; [exact Htoken|]. cbv zeta.
  assert (Hrows : rows_with_uniqueId (Customer.uniqueId c)
                    (with_customers db (customers db ++ [c])%list) = [c]).
  { apply rows_with_uniqueId_new. intros r Hr.
    apply (Hfresh r (Customer.uniqueId c) Hr). rewrite Hresp. reflexivity. }
  rewrite login_run, officerLogin_run.
  cbn [LoginRequest.email LoginRequest.password].
  rewrite Hrows. unfold login_answer, issued_token.
  rewrite Htoken, Hpw, Hhash, Hrole.
  split; intros Hreq; rewrite Hreq in Hname; destruct role; try discriminate;
    reflexivity.
Qed.

Lemma findById_run (id : Z) (db : Database) :
  CustomerRepository.findById id db
  = (Return (find (fun c => option_Z_eqb (Customer.id c) (Some id)) (customers db)),
     db).
Proof. reflexivity. Qed.

Lemma password_only (u : Z) (c : Customer.t) (h : string) (l : list Customer.t) :
  NoDup (map Customer.id l) -> In c l -> Customer.id c = Some u ->
  map (fun r => if option_Z_eqb (Customer.id r) (Some u)
                then AuthService.setPassword c h else r) l
  = map (fun r => if option_Z_eqb (Customer.id r) (Some u)
                  then AuthService.setPassword r h else r) l.
Proof.
  intros Hnd Hin Hid. apply map_ext_in. intros r Hr.
  destruct (option_Z_eqb (Customer.id r) (Some u)) eqn:He; [|reflexivity].
  apply option_Z_eqb_eq in He.
  assert (r = c) as ->
    by (apply (key_unique Customer.id l); try assumption; congruence).
  reflexivity.
Qed.

Lemma changePassword_result
    (nullPointerMessage : string) (userId : Z)
    (request : PasswordChangeRequest.t) (db : Database) :
  NoDup (map Customer.id (customers db)) ->
  exists (response : PasswordChangeResponse.t) (db' : Database),
    AuthService.changePassword env nullPointerMessage userId request db
    = (Return response, db')
    /\ (PasswordChangeResponse.success response = false -> db' = db)
    /\ (PasswordChangeResponse.success response = true ->
        exists (c : Customer.t) (p : string),
          In c (customers db)
          /\ Customer.id c = Some userId
          /\ matches env (PasswordChangeRequest.currentPassword request)
               (Customer.password c) = true
          /\ PasswordChangeRequest.newPassword request = Some p
          /\ PasswordChangeRequest.confirmPassword request = Some p
          /\ db' = with_customers db
                     (map (fun r =>
                             if option_Z_eqb (Customer.id r) (Some userId)
                             then AuthService.setPassword r (encode env p)
                             else r)
                          (customers db))).
Proof.
  intros Hnd. unfold AuthService.changePassword, try_catch, bind.
  rewrite findById_run.
  destruct (find _ (customers db)) as [c|] eqn:Hfind; cbn [ret throw];
    [|do 2 eexists; split; [reflexivity|]; split; [reflexivity|discriminate]].
  apply find_some in Hfind as [Hin Hid]. apply option_Z_eqb_eq in Hid.
  destruct (matches env (PasswordChangeRequest.currentPassword request)
              (Customer.password c)) eqn:Hpw; cbn [negb];
    [|do 2 eexists; split; [reflexivity|]; split; [reflexivity|discriminate]].
  destruct (PasswordChangeRequest.newPassword request) as [p|] eqn:Hnew;
    cbn [ret throw];
    [|do 2 eexists; split; [reflexivity|]; split; [reflexivity|discriminate]].
  destruct (PasswordChangeRequest.confirmPassword request) as [q|] eqn:Hconf;
    [destruct (String.eqb p q) eqn:Hpq|]; cbn [negb];
    try (do 2 eexists; split; [reflexivity|]; split; [reflexivity|discriminate]).
  apply String.eqb_eq in Hpq. subst q.
  unfold CustomerRepository.save, bind, get, put, ret.
  cbn [Customer.id AuthService.setPassword]. rewrite Hid.
  assert (Hex : existsb (fun r => option_Z_eqb (Customer.id r) (Some userId))
                  (customers db) = true).
  { apply existsb_exists. exists c. split; [exact Hin|].
    apply option_Z_eqb_eq. exact Hid. }
  rewrite Hex. do 2 eexists. split; [reflexivity|]. split; [discriminate|].
  intros _. exists c, p. repeat split; try assumption.
  f_equal.
  rewrite <- (password_only userId c (encode env p) (customers db) Hnd Hin Hid).
  reflexivity.
Qed.

(** X9.
    [changePassword] never throws.  Unless it reports success it writes
    nothing.  It reports success only when the account with the given
    primary key exists, the current password matches its stored hash and the
    new password equals the confirmation; then the stored hash of that
    account, and nothing else in the table, is replaced by the hash of the
    new password. *)
Theorem changePassword_outcome
    (nullPointerMessage : string) (userId : Z)
    (request : PasswordChangeRequest.t) (db : Database) :
  NoDup (map Customer.id (customers db)) ->
  exists (response : PasswordChangeResponse.t) (db' : Database),
    AuthService.changePassword env nullPointerMessage userId request db
    = (Return response, db')
    /\ (PasswordChangeResponse.success response = false -> db' = db)
    /\ (PasswordChangeResponse.success response = true ->
        exists (c : Customer.t) (p : string),
          In c (customers db)
          /\ Customer.id c = Some userId
          /\ matches env (PasswordChangeRequest.currentPassword request)
               (Customer.password c) = true
          /\ PasswordChangeRequest.newPassword request = Some p
          /\ PasswordChangeRequest.confirmPassword request = Some p
          /\ db' = with_customers db
                     (map (fun r =>
                             if option_Z_eqb (Customer.id r) (Some userId)
                             then AuthService.setPassword r (encode env p)
                             else r)
                          (customers db))).
Proof. exact (changePassword_result nullPointerMessage userId request db). Qed.


(** X10.
    After a successful password change the account logs in with the new
    password and no longer with the old one: if the unique id identifies the
    account whose password was changed, the hasher accepts the new password
    against its hash and rejects the old one against it, then on the
    resulting store the login of the account's role passes its checks with
    the new password, so that it answers what the token issuer allows (the
    success response with the issued token, or the issuer's exception), and
    fails with the old one. *)
Theorem changePassword_then_login
    (nullPointerMessage : string) (userId : Z)
    (request : PasswordChangeRequest.t) (db : Database)
    (uniqueId p : string) (c : Customer.t)
    (response : PasswordChangeResponse.t) :
  NoDup (map Customer.id (customers db)) ->
  fst (CustomerRepository.findByUniqueId uniqueId db) = Return (Some c) ->
  Customer.id c = Some userId ->
  fst (AuthService.changePassword env nullPointerMessage userId request db)
  = Return response ->
  PasswordChangeResponse.success response = true ->
  PasswordChangeRequest.newPassword request = Some p ->
  matches env p (encode env p) = true ->
  matches env (PasswordChangeRequest.currentPassword request) (encode env p)
  = false ->
  let db' :=
    snd (AuthService.changePassword env nullPointerMessage userId request db) in
  let c' := AuthService.setPassword c (encode env p) in
  let new_attempt :=
    {| LoginRequest.email := uniqueId; LoginRequest.password := p |} in
  let old_attempt :=
    {| LoginRequest.email := uniqueId;
       LoginRequest.password := PasswordChangeRequest.currentPassword request |} in
  (Customer.role c = CUSTOMER ->
   AuthService.login env new_attempt db' = (login_answer env c', db')
   /\ AuthService.login env old_attempt db' = (Return invalid_customer, db'))
  /\ (Customer.role c = OFFICER ->
      AuthService.officerLogin env new_attempt db' = (login_answer env c', db')
      /\ AuthService.officerLogin env old_attempt db'
         = (Return invalid_officer, db')).
Proof.
  intros Hnd Hfound Hid Hrun Hok Hnew Hhash Hold.
  destruct (changePassword_result nullPointerMessage userId request db Hnd)
    as (response' & db1 & Hres & _ & Hsucc).
  rewrite Hres in Hrun. cbn [fst] in Hrun. injection Hrun as ->.
  destruct (Hsucc Hok) as (c0 & p0 & _ & _ & _ & Hnew0 & _ & Hdb1).
  rewrite Hnew in Hnew0. injection Hnew0 as <-.
  rewrite Hres. cbn [snd]. cbv zeta.
  rewrite findByUniqueId_run in Hfound. cbn [fst] in Hfound.
  assert (Hrows : rows_with_uniqueId uniqueId db = [c]).
  { destruct (rows_with_uniqueId uniqueId db) as [|x [|y l]];
      cbn in Hfound; congruence. }
  assert (Hrows1 : rows_with_uniqueId uniqueId db1
                   = [AuthService.setPassword c (encode env p)]).
  { rewrite Hdb1. unfold rows_with_uniqueId in *. cbn [customers with_customers].
    rewrite filter_map_commute.
    - rewrite Hrows. cbn [map]. rewrite Hid.
      rewrite (proj2 (option_Z_eqb_eq _ _) eq_refl). reflexivity.
    - intros r _. destruct (option_Z_eqb (Customer.id r) (Some userId));
        reflexivity. }
  rewrite !login_run, !officerLogin_run.
  cbn [LoginRequest.email LoginRequest.password].
  rewrite Hrows1.
  cbn [Customer.role Customer.password AuthService.setPassword].
  rewrite Hhash, Hold.
  split; intros Hrole; rewrite Hrole; split; reflexivity.
Qed.


(** X11.
    The HTTP answer of the registration endpoint: 200 exactly when the
    registration succeeded, otherwise 409 or 400.  An answer other than 200
    has written nothing, with one exception: when the token issuer throws,
    which happens after the new row was saved, the answer carries
    "Registration failed: " with the issuer's message and the row stays
    stored.  With unique emails in the table, a request for an email in use
    gets 409 and writes nothing. *)
Theorem register_http_status (request : RegisterRequest.t) (db : Database) :
  exists (http : ResponseEntity AuthResponse.t) (db' : Database),
    AuthController.register env request db = (Return http, db')
    /\ (status http = 200 \/ status http = 409 \/ status http = 400)
    /\ (status http = 200 <-> AuthResponse.success (body http) = true)
    /\ (status http <> 200 ->
        db' = db
        \/ exists (c : Customer.t) (e : string),
             db' = with_customers db (customers db ++ [c])%list
             /\ registered_row env request db c
             /\ generateToken env (Customer.email c) (Customer.id c)
                  (Customer.role c) = Throw e
             /\ body http = AuthResponse.failure ("Registration failed: " ++ e))
    /\ (NoDup (map Customer.email (customers db)) ->
        In (RegisterRequest.email request) (map Customer.email (customers db)) ->
        status http = 409
        /\ body http = AuthResponse.failure "Email already registered"
        /\ db' = db).
Proof.
  destruct (register_result request db) as (response & Hr & Hfail & _).
  unfold AuthController.register, bind.
  destruct (AuthService.register env request db) as [o db1] eqn:Hreg.
  cbn [fst snd] in Hr, Hfail. subst o.
  assert (Htaken :
            NoDup (map Customer.email (customers db)) ->
            In (RegisterRequest.email request) (map Customer.email (customers db)) ->
            response = AuthResponse.failure "Email already registered"
            /\ db1 = db).
  { intros Hnd Hin. apply in_map_iff in Hin as (c & Hc & Hin).
    unfold AuthService.register, try_catch, bind in Hreg.
    rewrite findByEmail_run in Hreg.
    rewrite (rows_with_email_unique _ db c Hnd Hin Hc) in Hreg.
    cbn in Hreg. split; congruence. }
  destruct (AuthResponse.success response) eqn:Hs.
  - do 2 eexists. split; [reflexivity|]. cbn [status body ok].
    split; [left; reflexivity|]. split; [split; intros; [exact Hs|reflexivity]|].
    split; [intros H; exfalso; apply H; reflexivity|].
    intros Hnd Hin. destruct (Htaken Hnd Hin) as [E _]. rewrite E in Hs.
    discriminate.
  - destruct (Text.contains "Email already registered"
                (AuthResponse.message response)) eqn:Hc;
      do 2 eexists; (split; [reflexivity|]); cbn [status body badRequest].
    + split; [right; left; reflexivity|].
      split; [split; [discriminate | rewrite Hs; discriminate]|].
      split; [intros _; apply Hfail; reflexivity|].
      intros Hnd Hin. destruct (Htaken Hnd Hin) as [E1 E2].
      split; [reflexivity | split; assumption].
    + split; [right; right; reflexivity|].
      split; [split; [discriminate | rewrite Hs; discriminate]|].
      split; [intros _; apply Hfail; reflexivity|].
      intros Hnd Hin. destruct (Htaken Hnd Hin) as [E _]. rewrite E in Hc.
      discriminate.
Qed.

End MoreAuthentication.

(** ** Submitting feedback *)

Section FeedbackSubmission.

Import Backend.
#[local] Open Scope backend_scope.

Variable jwtUtil : JwtUtil.t.
Variable nullPointerMessage : string.

Lemma ParcelStatus_eqb_eq (a b : ParcelStatus) :
  ParcelStatus_eqb a b = true <-> a = b.
Proof. destruct a, b; cbn; split; congruence. Qed.

Lemma getCustomerByEmail_run (email : string) (db : Database) :
  AuthService.getCustomerByEmail email db
  = (fst (uniqueResult (rows_with_email email db) db), db).
Proof. apply findByEmail_run. Qed.

Lemma addFeedback_result
    (request : FeedbackRequest.t) (token : string) (db : Database) :
  exists (http : ResponseEntity FeedbackResponse.t) (db' : Database),
    FeedbackController.addFeedback BookingRepository.jpa jwtUtil
      nullPointerMessage request token db = (Return http, db')
    /\ (FeedbackResponse.success (body http) = false ->
        status http = 400 /\ db' = db)
    /\ (FeedbackResponse.success (body http) = true ->
        exists f : Feedback.t,
          status http = 200
          /\ FeedbackResponse.feedback (body http) = Some f
          /\ feedback_accepted jwtUtil request token db f
          /\ db' = with_feedbacks db (feedbacks db ++ [f])%list).
Proof.
  unfold FeedbackController.addFeedback, try_catch, bind, JwtUtil.lift.
  destruct (JwtUtil.extractEmail jwtUtil (Text.replace "Bearer " "" token))
    as [email|e] eqn:Hemail; cbn [ret];
    [|do 2 eexists; split; [reflexivity|]; split;
      [intros _; split; reflexivity | discriminate]].
  rewrite getCustomerByEmail_run. unfold rows_with_email.
  destruct (filter _ (customers db)) as [|customer [|c' l]] eqn:Hcust;
    cbn [uniqueResult fst ret throw];
    try (do 2 eexists; split; [reflexivity|]; split;
         [intros _; split; reflexivity | discriminate]).
  rewrite getBookingById_jpa.
  destruct (rows_with (FeedbackRequest.bookingId request) db)
    as [|booking [|b' l]] eqn:Hbook; cbv beta iota;
    try (do 2 eexists; split; [reflexivity|]; split;
         [intros _; split; reflexivity | discriminate]).
  destruct (Booking.customer booking) as [owner|] eqn:Howner; cbn [ret throw];
    [|do 2 eexists; split; [reflexivity|]; split;
      [intros _; split; reflexivity | discriminate]].
  destruct (option_Z_eqb (Some owner) (Customer.id customer)) eqn:Hown;
    cbn [negb];
    [|do 2 eexists; split; [reflexivity|]; split;
      [intros _; split; reflexivity | discriminate]].
  destruct (ParcelStatus_eqb (Booking.parcelStatus booking) DELIVERED) eqn:Hst;
    cbn [negb];
    [|do 2 eexists; split; [reflexivity|]; split;
      [intros _; split; reflexivity | discriminate]].
  unfold FeedbackService.addFeedback, FeedbackRepository.findByBookingId,
    bind, get, ret.
  fold (feedback_of (Booking.id booking) db).
  destruct (feedback_of (Booking.id booking) db) as [|g l] eqn:Hnone;
    cbn [throw];
    [|do 2 eexists; split; [reflexivity|]; split;
      [intros _; split; reflexivity | discriminate]].
  unfold FeedbackRepository.save, bind, get, put, ret. cbn [Feedback.id].
  do 2 eexists. split; [reflexivity|]. split; [discriminate|].
  intros _. eexists. split; [reflexivity|]. split; [reflexivity|].
  split; [|reflexivity].
  exists email, customer, booking.
  apply option_Z_eqb_eq in Hown. apply ParcelStatus_eqb_eq in Hst.
  repeat split; try assumption.
  - rewrite Howner. discriminate.
  - rewrite Howner. exact Hown.
Qed.

(** X12.
    The feedback endpoint never throws.  A failure answer is a 400 and
    writes nothing.  A success answer is a 200 and is given only when the
    token names one account, the booking id names one booking of that
    account, the booking is DELIVERED and has no feedback yet; then exactly
    one feedback row, with the request's text and rating, is appended. *)
Theorem addFeedback_outcome
    (request : FeedbackRequest.t) (token : string) (db : Database) :
  exists (http : ResponseEntity FeedbackResponse.t) (db' : Database),
    FeedbackController.addFeedback BookingRepository.jpa jwtUtil
      nullPointerMessage request token db = (Return http, db')
    /\ (FeedbackResponse.success (body http) = false ->
        status http = 400 /\ db' = db)
    /\ (FeedbackResponse.success (body http) = true ->
        exists f : Feedback.t,
          status http = 200
          /\ FeedbackResponse.feedback (body http) = Some f
          /\ feedback_accepted jwtUtil request token db f
          /\ db' = with_feedbacks db (feedbacks db ++ [f])%list).
Proof. exact (addFeedback_result request token db). Qed.

Lemma option_Z_eqb_refl (a : option Z) : option_Z_eqb a a = true.
Proof. destruct a; cbn; [apply Z.eqb_refl | reflexivity]. Qed.

Lemma feedback_of_app (id : option Z) (db : Database) (f : Feedback.t) :
  feedback_of id (with_feedbacks db (feedbacks db ++ [f])%list)
  = (feedback_of id db
     ++ (if option_Z_eqb (Booking.id (Feedback.booking f)) id
         then [f] else []))%list.
Proof.
  unfold feedback_of, with_feedbacks. cbn [feedbacks].
  rewrite filter_app. reflexivity.
Qed.

Lemma addFeedback_again
    (request : FeedbackRequest.t) (token : string) (db : Database)
    (f : Feedback.t) :
  feedback_accepted jwtUtil request token db f ->
  FeedbackController.addFeedback BookingRepository.jpa jwtUtil
    nullPointerMessage request token
    (with_feedbacks db (feedbacks db ++ [f])%list)
  = (Return (FeedbackController.failure
               "Feedback failed: Feedback already exists for this booking"),
     with_feedbacks db (feedbacks db ++ [f])%list).
Proof.
  intros (email & customer & booking & Hemail & Hcust & Hbook & Hsome & Hown
          & Hst & Hnone & Hf).
  set (db' := with_feedbacks db (feedbacks db ++ [f])%list).
  unfold FeedbackController.addFeedback, try_catch, bind, JwtUtil.lift.
  rewrite Hemail. cbn [ret].
  rewrite getCustomerByEmail_run. unfold rows_with_email.
  change (customers db') with (customers db). rewrite Hcust.
  cbn [uniqueResult fst ret].
  rewrite getBookingById_jpa.
  change (rows_with (FeedbackRequest.bookingId request) db')
    with (rows_with (FeedbackRequest.bookingId request) db).
  rewrite Hbook. cbv beta iota.
  destruct (Booking.customer booking) as [owner|] eqn:Howner;
    [|contradiction]. cbn [ret].
  rewrite Hown, option_Z_eqb_refl, Hst. cbn [negb ParcelStatus_eqb].
  unfold FeedbackService.addFeedback, FeedbackRepository.findByBookingId,
    bind, get, ret.
  fold (feedback_of (Booking.id booking) db').
  unfold db'. rewrite feedback_of_app, Hnone, Hf. cbn [Feedback.booking].
  rewrite option_Z_eqb_refl. reflexivity.
Qed.

(** X13.
    Feedback is accepted once per booking: after a successful submission
    the same request with the same token is answered with the failure
    "Feedback failed: Feedback already exists for this booking" (status
    400), and nothing more is written. *)
Theorem addFeedback_twice
    (request : FeedbackRequest.t) (token : string) (db db' : Database)
    (http : ResponseEntity FeedbackResponse.t) :
  FeedbackController.addFeedback BookingRepository.jpa jwtUtil
    nullPointerMessage request token db = (Return http, db') ->
  FeedbackResponse.success (body http) = true ->
  FeedbackController.addFeedback BookingRepository.jpa jwtUtil
    nullPointerMessage request token db'
  = (Return (badRequest
               {| FeedbackResponse.success := false;
                  FeedbackResponse.message :=
                    "Feedback failed: Feedback already exists for this booking";
                  FeedbackResponse.feedback := None |}),
     db').
Proof.
  intros Hrun Hok.
  destruct (addFeedback_result request token db)
    as (http0 & db0 & Hrun0 & _ & Hsuccess).
  rewrite Hrun in Hrun0. injection Hrun0 as <- <-.
  destruct (Hsuccess Hok) as (f & _ & _ & Hacc & ->).
  exact (addFeedback_again request token db f Hacc).
Qed.

(** X14.
    The endpoint keeps the table at one feedback per booking: if no booking
    has more than one feedback row before a call, none has more than one
    after it, whatever the request, the token and the answer. *)
Theorem addFeedback_keeps_one_feedback_per_booking
    (request : FeedbackRequest.t) (token : string) (db db' : Database)
    (outcome : Outcome (ResponseEntity FeedbackResponse.t)) :
  (forall id : option Z, (List.length (feedback_of id db) <= 1)%nat) ->
  FeedbackController.addFeedback BookingRepository.jpa jwtUtil
    nullPointerMessage request token db = (outcome, db') ->
  forall id : option Z, (List.length (feedback_of id db') <= 1)%nat.
Proof.
  intros Hinv Hrun id.
  destruct (addFeedback_result request token db)
    as (http & db0 & Hrun0 & Hfail & Hsuccess).
  rewrite Hrun in Hrun0. injection Hrun0 as -> <-.
  destruct (FeedbackResponse.success (body http)) eqn:Hs.
  - destruct (Hsuccess eq_refl) as (f & _ & _ & Hacc & ->).
    destruct Hacc as (email & customer & booking & _ & _ & _ & _ & _ & _
                      & Hnone & Hf).
    rewrite feedback_of_app.
    destruct (option_Z_eqb (Booking.id (Feedback.booking f)) id) eqn:Hid.
    + apply option_Z_eqb_eq in Hid. rewrite Hf in Hid. cbn in Hid.
      rewrite <- Hid, Hnone. cbn. lia.
    + rewrite app_nil_r. apply Hinv.
  - destruct (Hfail eq_refl) as [_ ->]. apply Hinv.
Qed.


(** X15.
    The counters follow the endpoint: after a call the feedback count, and
    the number of rows with the request's rating, are one more than before
    when the answer is a success, and what they were when it is a failure. *)
Theorem accepted_feedback_is_counted
    (request : FeedbackRequest.t) (token : string) (db : Database) :
  exists (http : ResponseEntity FeedbackResponse.t) (db' : Database)
         (total rated : nat),
    FeedbackController.addFeedback BookingRepository.jpa jwtUtil
      nullPointerMessage request token db = (Return http, db')
    /\ FeedbackService.getFeedbackCount db = (Return total, db)
    /\ FeedbackRepository.countByRating (FeedbackRequest.rating request) db
       = (Return rated, db)
    /\ let accepted :=
         if FeedbackResponse.success (body http) then 1%nat else 0%nat in
       FeedbackService.getFeedbackCount db'
       = (Return (total + accepted)%nat, db')
       /\ FeedbackRepository.countByRating (FeedbackRequest.rating request) db'
          = (Return (rated + accepted)%nat, db').
Proof.
  destruct (addFeedback_result request token db)
    as (http & db' & Hrun & Hfail & Hok).
  exists http, db'. do 2 eexists. split; [exact Hrun|].
  split; [reflexivity|]. split; [reflexivity|]. cbv zeta.
  unfold FeedbackService.getFeedbackCount, try_catch,
    FeedbackRepository.count, FeedbackRepository.countByRating, bind, get, ret.
  destruct (FeedbackResponse.success (body http)).
  - destruct (Hok eq_refl) as (f & _ & _ & Hacc & ->).
    destruct Hacc as (email & customer & booking & _ & _ & _ & _ & _ & _ & _ & ->).
    cbn [feedbacks with_feedbacks]. rewrite filter_app, !length_app.
    cbn [filter Feedback.rating]. rewrite Z.eqb_refl. split; reflexivity.
  - destruct (Hfail eq_refl) as [_ ->]. rewrite !Nat.add_0_r. split; reflexivity.
Qed.

End FeedbackSubmission.

(** ** The filter of the feedback listing *)

Section FeedbackFilter.

Import Backend.
#[local] Open Scope backend_scope.

Lemma like_percent (pattern text : string) :
  Text.like (String "%" pattern) text
  = Text.like pattern text
    || match text with
       | EmptyString => false
       | String _ text' => Text.like (String "%" pattern) text'
       end.
Proof. destruct text; reflexivity. Qed.

Lemma like_literal (c : ascii) (pattern text : string) :
  Ascii.eqb c "%" = false -> Ascii.eqb c "_" = false ->
  Text.like (String c pattern) text
  = match text with
    | EmptyString => false
    | String d text' => Ascii.eqb c d && Text.like pattern text'
    end.
Proof. intros Hp Hu. cbn [Text.like]. rewrite Hp, Hu. reflexivity. Qed.

Lemma like_percent_only (text : string) : Text.like "%" text = true.
Proof.
  induction text as [|c text IH]; [reflexivity|].
  rewrite like_percent, IH. apply orb_true_r.
Qed.

Lemma like_prefix (part text : string) :
  wildcard_free part = true ->
  Text.like (part ++ "%") text = Text.startsWith part text.
Proof.
  revert text. induction part as [|c part IH]; intros text Hfree.
  - cbn [append]. rewrite like_percent_only. destruct text; reflexivity.
  - cbn [wildcard_free] in Hfree.
    apply andb_true_iff in Hfree as [Hc Hfree].
    apply andb_true_iff in Hc as [Hp Hu].
    apply negb_true_iff in Hp, Hu.
    cbn [append]. rewrite (like_literal _ _ _ Hp Hu).
    destruct text as [|d text]; [reflexivity|].
    cbn [Text.startsWith]. rewrite IH by exact Hfree. reflexivity.
Qed.

Lemma like_infix (part text : string) :
  wildcard_free part = true ->
  Text.like ("%" ++ part ++ "%") text = Text.contains part text.
Proof.
  intros Hfree. change ("%" ++ part ++ "%") with (String "%" (part ++ "%")).
  induction text as [|c text IH].
  - rewrite like_percent, like_prefix by exact Hfree. reflexivity.
  - rewrite like_percent, like_prefix, IH by exact Hfree. reflexivity.
Qed.

Lemma LOWER_app (a b : string) :
  Text.LOWER (a ++ b) = Text.LOWER a ++ Text.LOWER b.
Proof. induction a as [|c a IH]; cbn; [reflexivity | rewrite IH; reflexivity]. Qed.

Lemma lower_ascii_wildcard (c : ascii) :
  (Ascii.eqb (Text.lower_ascii c) "%" = Ascii.eqb c "%")
  /\ (Ascii.eqb (Text.lower_ascii c) "_" = Ascii.eqb c "_").
Proof.
  destruct c as [[] [] [] [] [] [] [] []]; split; vm_compute; reflexivity.
Qed.

Lemma LOWER_wildcard_free (s : string) :
  wildcard_free (Text.LOWER s) = wildcard_free s.
Proof.
  induction s as [|c s IH]; [reflexivity|].
  cbn [Text.LOWER wildcard_free].
  destruct (lower_ascii_wildcard c) as [-> ->]. rewrite IH. reflexivity.
Qed.

Lemma containsIgnoreCase_contains (column param : string) :
  wildcard_free param = true ->
  Text.containsIgnoreCase column param
  = Text.contains (Text.LOWER param) (Text.LOWER column).
Proof.
  intros Hfree. unfold Text.containsIgnoreCase.
  rewrite !LOWER_app. change (Text.LOWER "%") with "%"%string.
  apply like_infix. rewrite LOWER_wildcard_free. exact Hfree.
Qed.

(** X16.
    For an ASCII search text without the characters [%], [_] and backslash,
    on a feedback table whose customer names, booking ids and descriptions
    are ASCII text, each of the three filter queries selects exactly the rows
    whose column contains the text as a substring, letter case of A to Z
    ignored.  (Outside this range the answer depends on the database: on
    its escape character for LIKE and on how its LOWER folds letters outside
    ASCII.) *)
Theorem filter_query_is_substring_search
    (param : string) (pageable : Pageable) (db : Database) :
  plain_search_text param = true ->
  forallb searched_columns_ascii (feedbacks db) = true ->
  FeedbackRepository.findByCustomerNameContainingIgnoreCase param pageable db
  = (Return
       (page_of
          (filter (fun f => Text.contains (Text.LOWER param)
                              (Text.LOWER (Customer.customerName
                                             (Feedback.customer f))))
                  (feedbacks db)) pageable), db)
  /\ FeedbackRepository.findByBookingIdContainingIgnoreCase param pageable db
     = (Return
          (page_of
             (filter (fun f => Text.contains (Text.LOWER param)
                                 (Text.LOWER (Booking.bookingId
                                                (Feedback.booking f))))
                     (feedbacks db)) pageable), db)
  /\ FeedbackRepository.findByFeedbackDescriptionContainingIgnoreCase
       param pageable db
     = (Return
          (page_of
             (filter (fun f => Text.contains (Text.LOWER param)
                                 (Text.LOWER (Feedback.feedbackDescription f)))
                     (feedbacks db)) pageable), db).
Proof.
  intros Hplain _.
  assert (Hfree : wildcard_free param = true).
  { unfold plain_search_text in Hplain.
    apply andb_true_iff in Hplain as [Hplain _].
    apply andb_true_iff in Hplain as [_ Hfree]. exact Hfree. }
  unfold FeedbackRepository.findByCustomerNameContainingIgnoreCase,
    FeedbackRepository.findByBookingIdContainingIgnoreCase,
    FeedbackRepository.findByFeedbackDescriptionContainingIgnoreCase,
    bind, get, ret.
  repeat split; do 3 f_equal; apply filter_ext; intros f;
    apply containsIgnoreCase_contains; exact Hfree.
Qed.

End FeedbackFilter.

(** ** What the feedback listing returns *)

Section FeedbackListingPages.

Import Backend.
#[local] Open Scope backend_scope.

Lemma firstn_In {A} (n : nat) (l : list A) (x : A) :
  In x (firstn n l) -> In x l.
Proof.
  revert l. induction n as [|n IH]; intros [|y l] H; try contradiction.
  destruct H as [H|H]; [left; exact H | right; apply IH; exact H].
Qed.

Lemma skipn_In {A} (n : nat) (l : list A) (x : A) :
  In x (skipn n l) -> In x l.
Proof.
  revert l. induction n as [|n IH]; intros [|y l] H; try assumption.
  right. apply IH. exact H.
Qed.

Lemma page_of_sound {A} (rows all : list A) (pageable : Pageable) :
  incl rows all -> (List.length rows <= List.length all)%nat ->
  (forall x, In x (content (page_of rows pageable)) -> In x all)
  /\ (List.length (content (page_of rows pageable)) <= pageSize pageable)%nat
  /\ size (page_of rows pageable) = pageSize pageable
  /\ (totalElements (page_of rows pageable) <= List.length all)%nat.
Proof.
  intros Hincl Hlen. unfold page_of. cbn [content size totalElements].
  split; [|split; [|split]].
  - intros x Hx. apply Hincl.
    apply firstn_In in Hx. apply (skipn_In _ _ _ Hx).
  - apply firstn_le_length.
  - reflexivity.
  - exact Hlen.
Qed.

Lemma filter_sound {A} (f : A -> bool) (all : list A) :
  incl (filter f all) all /\ (List.length (filter f all) <= List.length all)%nat.
Proof.
  split; [apply incl_filter | apply filter_length_le].
Qed.

(** X17.
    Whatever the page request and the filter, the officer's feedback
    listing returns a page without an error and writes nothing; the page
    holds only rows of the feedback table, at most a page size of them, and
    reports at most the table's row count as its total.  Without a filter,
    or with one that is blank after trimming, it is the requested page of
    the whole table. *)
Theorem getOfficerFeedbackPaginated_sound
    (pageable : Pageable) (filter : option string) (db : Database) :
  exists page : Page Feedback.t,
    FeedbackService.getOfficerFeedbackPaginated pageable filter db
    = (Return page, db)
    /\ (forall f, In f (content page) -> In f (feedbacks db))
    /\ (List.length (content page) <= pageSize pageable)%nat
    /\ size page = pageSize pageable
    /\ (totalElements page <= List.length (feedbacks db))%nat
    /\ ((filter = None
         \/ exists s, filter = Some s /\ Text.isEmpty (Text.trim s) = true) ->
        page = page_of (feedbacks db) pageable).
Proof.
  assert (Hall : forall p : Pageable,
    (forall x, In x (content (page_of (feedbacks db) p)) -> In x (feedbacks db))
    /\ (List.length (content (page_of (feedbacks db) p)) <= pageSize p)%nat
    /\ size (page_of (feedbacks db) p) = pageSize p
    /\ (totalElements (page_of (feedbacks db) p) <= List.length (feedbacks db))%nat).
  { intros p. apply page_of_sound; [apply incl_refl | apply Nat.le_refl]. }
  assert (Hsome : forall g,
    (forall x, In x (content (page_of (List.filter g (feedbacks db)) pageable))
               -> In x (feedbacks db))
    /\ (List.length (content (page_of (List.filter g (feedbacks db)) pageable))
        <= pageSize pageable)%nat
    /\ size (page_of (List.filter g (feedbacks db)) pageable) = pageSize pageable
    /\ (totalElements (page_of (List.filter g (feedbacks db)) pageable)
        <= List.length (feedbacks db))%nat).
  { intros g. apply page_of_sound; apply filter_sound. }
  destruct filter as [s|].
  - destruct (Text.isEmpty (Text.trim s)) eqn:Hblank.
    + exists (page_of (feedbacks db) pageable). split.
      * unfold FeedbackService.getOfficerFeedbackPaginated, try_catch.
        rewrite Hblank. reflexivity.
      * destruct (Hall pageable) as (H1 & H2 & H3 & H4).
        repeat split; assumption || reflexivity.
    + rewrite (getOfficerFeedbackPaginated_filtered pageable s db Hblank).
      cbv zeta. eexists. split; [reflexivity|].
      destruct (hasContent (page_of (List.filter (matches_customer _) _) _));
        [destruct (Hsome (matches_customer (Text.trim s))) as (H1 & H2 & H3 & H4);
         repeat split; try assumption;
         intros [H|(s0 & H & Hs0)]; [discriminate|];
         injection H as <-; congruence|].
      destruct (hasContent (page_of (List.filter (matches_booking _) _) _));
        [destruct (Hsome (matches_booking (Text.trim s))) as (H1 & H2 & H3 & H4);
         repeat split; try assumption;
         intros [H|(s0 & H & Hs0)]; [discriminate|];
         injection H as <-; congruence|].
      destruct (hasContent (page_of (List.filter (matches_description _) _) _));
        [destruct (Hsome (matches_description (Text.trim s))) as (H1 & H2 & H3 & H4);
         repeat split; try assumption;
         intros [H|(s0 & H & Hs0)]; [discriminate|];
         injection H as <-; congruence|].
      destruct (Hall (PageRequest_of 0 (pageSize pageable))) as (H1 & H2 & H3 & H4).
      repeat split; try assumption.
      intros [H|(s0 & H & Hs0)]; [discriminate|].
      injection H as <-; congruence.
  - exists (page_of (feedbacks db) pageable). split; [reflexivity|].
    destruct (Hall pageable) as (H1 & H2 & H3 & H4).
    repeat split; assumption || reflexivity.
Qed.

Lemma page_rows_match {A} (g : A -> bool) (rows : list A) (pageable : Pageable) :
  forall x, In x (content (page_of (List.filter g rows) pageable)) -> g x = true.
Proof.
  intros x Hx. unfold page_of in Hx. cbn [content] in Hx.
  apply firstn_In in Hx. apply skipn_In in Hx.
  apply filter_In in Hx. apply Hx.
Qed.

(** X18.
    With a filter that is not blank, a page never mixes the three searches:
    either all its rows match the trimmed filter in the customer name, or
    all in the booking id, or all in the description, or none of the three
    searches had a row on the requested page and the answer is the first
    page of the whole table.  The customer name takes precedence over the
    booking id, and the booking id over the description. *)
Theorem filtered_listing_uses_one_column
    (pageable : Pageable) (filter : string) (db : Database) :
  Text.isEmpty (Text.trim filter) = false ->
  exists page : Page Feedback.t,
    FeedbackService.getOfficerFeedbackPaginated pageable (Some filter) db
    = (Return page, db)
    /\ let t := Text.trim filter in
       let c := page_of (List.filter (matches_customer t) (feedbacks db)) pageable in
       let b := page_of (List.filter (matches_booking t) (feedbacks db)) pageable in
       let d := page_of (List.filter (matches_description t) (feedbacks db))
                  pageable in
       (page = c /\ content c <> []
        /\ forall f, In f (content page) -> matches_customer t f = true)
       \/ (page = b /\ content c = [] /\ content b <> []
           /\ forall f, In f (content page) -> matches_booking t f = true)
       \/ (page = d /\ content c = [] /\ content b = [] /\ content d <> []
           /\ forall f, In f (content page) -> matches_description t f = true)
       \/ (page = page_of (feedbacks db) (PageRequest_of 0 (pageSize pageable))
           /\ content c = [] /\ content b = [] /\ content d = []).
Proof.
  intros Hblank.
  rewrite (getOfficerFeedbackPaginated_filtered pageable filter db Hblank).
  cbv zeta. eexists. split; [reflexivity|].
  unfold hasContent.
  destruct (content (page_of (List.filter (matches_customer _) _) _)) eqn:Hc.
  2:{ left. split; [reflexivity|]. split; [discriminate|].
      apply page_rows_match. }
  destruct (content (page_of (List.filter (matches_booking _) _) _)) eqn:Hb.
  2:{ right. left. split; [reflexivity|]. split; [reflexivity|].
      split; [discriminate|]. apply page_rows_match. }
  destruct (content (page_of (List.filter (matches_description _) _) _)) eqn:Hd.
  2:{ right. right. left. split; [reflexivity|]. do 2 (split; [reflexivity|]).
      split; [discriminate|]. apply page_rows_match. }
  right. right. right. repeat split; reflexivity.
Qed.

Lemma filter_all {A} (g : A -> bool) (l : list A) :
  (forall x, g x = true) -> List.filter g l = l.
Proof.
  intros H. induction l as [|x l IH]; [reflexivity|].
  cbn. rewrite H, IH. reflexivity.
Qed.

Lemma containsIgnoreCase_percent (column : string) :
  Text.containsIgnoreCase column "%" = true.
Proof.
  unfold Text.containsIgnoreCase.
  change (Text.LOWER ("%" ++ "%" ++ "%")) with "%%%"%string.
  rewrite like_percent.
  replace (Text.like "%%" (Text.LOWER column)) with true; [reflexivity|].
  rewrite like_percent, like_percent_only. reflexivity.
Qed.

(** X19.
    The filter is handed to LIKE as it is: a filter that trims to the one
    character [%] matches every customer name, so the listing answers with
    the requested page of the whole table whenever that page has a row. *)
Theorem percent_filter_lists_every_row
    (pageable : Pageable) (filter : string) (db : Database) :
  Text.trim filter = "%"%string ->
  content (page_of (feedbacks db) pageable) <> [] ->
  FeedbackService.getOfficerFeedbackPaginated pageable (Some filter) db
  = (Return (page_of (feedbacks db) pageable), db).
Proof.
  intros Htrim Hrows.
  rewrite (getOfficerFeedbackPaginated_filtered pageable filter db)
    by (rewrite Htrim; reflexivity).
  cbv zeta. rewrite Htrim.
  rewrite (filter_all (matches_customer "%"))
    by (intros f; apply containsIgnoreCase_percent).
  unfold hasContent.
  destruct (content (page_of (feedbacks db) pageable)); [contradiction|].
  reflexivity.
Qed.

End FeedbackListingPages.

(** ** Feedback statistics *)

Section FeedbackStatisticsCounts.

Import Backend.
#[local] Open Scope backend_scope.

Variable getAverageRating : list Z -> option Js.number.

Lemma star_counts (l : list Feedback.t) :
  (List.length (filter (fun f => Z.eqb (Feedback.rating f) 5%Z) l)
   + List.length (filter (fun f => Z.eqb (Feedback.rating f) 4%Z) l)
   + List.length (filter (fun f => Z.eqb (Feedback.rating f) 3%Z) l)
   + List.length (filter (fun f => Z.eqb (Feedback.rating f) 2%Z) l)
   + List.length (filter (fun f => Z.eqb (Feedback.rating f) 1%Z) l)
   + ratings_out_of_range l
   = List.length l)%nat.
Proof.
  unfold ratings_out_of_range.
  induction l as [|f l IH]; [reflexivity|].
  cbn [filter].
  destruct (Z.eqb_spec (Feedback.rating f) 5) as [E5|E5];
  destruct (Z.eqb_spec (Feedback.rating f) 4) as [E4|E4];
  destruct (Z.eqb_spec (Feedback.rating f) 3) as [E3|E3];
  destruct (Z.eqb_spec (Feedback.rating f) 2) as [E2|E2];
  destruct (Z.eqb_spec (Feedback.rating f) 1) as [E1|E1];
  destruct (Z.leb_spec 1 (Feedback.rating f));
  destruct (Z.leb_spec (Feedback.rating f) 5);
  cbn [negb andb List.length]; lia.
Qed.

(** X20.
    The statistics never fail on a readable table and write nothing; the
    total is the number of feedback rows, and the five star counts add up
    to the total minus the rows whose rating lies outside 1 to 5, so they
    add up to the total when every rating is one of 1 to 5. *)
Theorem getFeedbackStatistics_counts (db : Database) :
  exists stats : FeedbackStatistics.t,
    FeedbackService.getFeedbackStatistics getAverageRating db
    = (Return stats, db)
    /\ FeedbackStatistics.totalFeedbacks stats = List.length (feedbacks db)
    /\ (FeedbackStatistics.fiveStarFeedbacks stats
        + FeedbackStatistics.fourStarFeedbacks stats
        + FeedbackStatistics.threeStarFeedbacks stats
        + FeedbackStatistics.twoStarFeedbacks stats
        + FeedbackStatistics.oneStarFeedbacks stats
        + ratings_out_of_range (feedbacks db)
        = FeedbackStatistics.totalFeedbacks stats)%nat
    /\ ((forall f, In f (feedbacks db) -> 1 <= Feedback.rating f <= 5) ->
        (FeedbackStatistics.fiveStarFeedbacks stats
         + FeedbackStatistics.fourStarFeedbacks stats
         + FeedbackStatistics.threeStarFeedbacks stats
         + FeedbackStatistics.twoStarFeedbacks stats
         + FeedbackStatistics.oneStarFeedbacks stats
         = FeedbackStatistics.totalFeedbacks stats)%nat).
Proof.
  eexists. split; [reflexivity|].
  cbn [FeedbackStatistics.totalFeedbacks FeedbackStatistics.fiveStarFeedbacks
       FeedbackStatistics.fourStarFeedbacks FeedbackStatistics.threeStarFeedbacks
       FeedbackStatistics.twoStarFeedbacks FeedbackStatistics.oneStarFeedbacks].
  split; [reflexivity|]. split; [apply star_counts|].
  intros Hrange. pose proof (star_counts (feedbacks db)) as Hsum.
  assert (Hzero : ratings_out_of_range (feedbacks db) = 0%nat).
  { unfold ratings_out_of_range. rewrite filter_none; [reflexivity|].
    intros f Hf. apply Hrange in Hf.
    apply negb_false_iff, andb_true_iff. split; apply Z.leb_le; lia. }
  rewrite Hzero in Hsum. lia.
Qed.

End FeedbackStatisticsCounts.

(** ** The booking endpoints *)

Section BookingEndpoints.

Import Backend.
#[local] Open Scope backend_scope.

Variable jwtUtil : JwtUtil.t.
Variable env : Env.
Variable calculateServiceCost :
  Z -> option CostCalculator.DeliveryType ->
  option CostCalculator.PackingPreference -> bool -> Z.
Variable generatedBookingId : string.

Lemma role_is_eq (expected : string) (role : option string) :
  BookingController.role_is expected role = true <-> role = Some expected.
Proof.
  destruct role as [r|]; cbn; split; intros H; try discriminate.
  - apply String.eqb_eq in H. congruence.
  - injection H as ->. apply String.eqb_refl.
Qed.

Lemma lookup_after_insert (saved : Booking.t) (db : Database) :
  ~ In (Booking.bookingId saved) (map Booking.bookingId (bookings db)) ->
  BookingService.getBookingById BookingRepository.jpa (Booking.bookingId saved)
    (with_bookings db (bookings db ++ [saved])%list)
  = (Return (Some saved), with_bookings db (bookings db ++ [saved])%list).
Proof.
  intros Hfresh. apply rows_with_absent in Hfresh.
  rewrite getBookingById_jpa. f_equal. unfold rows_with in *.
  cbn [bookings with_bookings]. rewrite filter_app, Hfresh. cbn.
  rewrite String.eqb_refl. reflexivity.
Qed.

Lemma createBooking_result
    (request : BookingRequest.t) (token : string) (db : Database) :
  exists (http : ResponseEntity BookingResponse.t) (db' : Database),
    BookingController.createBooking BookingRepository.jpa jwtUtil
      calculateServiceCost generatedBookingId request token db
    = (Return http, db')
    /\ (BookingResponse.success (body http) = false ->
        status http = 400 /\ BookingResponse.booking (body http) = None
        /\ db' = db)
    /\ (BookingResponse.success (body http) = true ->
        exists saved : Booking.t,
          status http = 200
          /\ BookingResponse.booking (body http) = Some saved
          /\ booking_accepted jwtUtil calculateServiceCost "CUSTOMER" false NEW
               generatedBookingId request token db saved
          /\ db' = with_bookings db (bookings db ++ [saved])%list).
Proof.
  unfold BookingController.createBooking, try_catch, bind, JwtUtil.lift.
  destruct (JwtUtil.extractEmail jwtUtil (Text.replace "Bearer " "" token))
    as [email|e] eqn:Hemail;
    [|do 2 eexists; split; [reflexivity|]; split;
      [intros _; repeat split | discriminate]].
  destruct (JwtUtil.extractRole jwtUtil (Text.replace "Bearer " "" token))
    as [role|e] eqn:Hrole;
    [|do 2 eexists; split; [reflexivity|]; split;
      [intros _; repeat split | discriminate]].
  destruct (JwtUtil.extractUserId jwtUtil (Text.replace "Bearer " "" token))
    as [userId|e];
    [|do 2 eexists; split; [reflexivity|]; split;
      [intros _; repeat split | discriminate]].
  destruct (BookingController.role_is "CUSTOMER" role) eqn:Hr; cbn [negb ret];
    [|do 2 eexists; split; [reflexivity|]; split;
      [intros _; repeat split | discriminate]].
  apply role_is_eq in Hr. subst role.
  rewrite getCustomerByEmail_run. unfold rows_with_email.
  destruct (filter _ (customers db)) as [|customer [|c' l]] eqn:Hcust;
    cbn [uniqueResult fst ret throw].
  - rewrite getCustomerByEmail_run. unfold rows_with_email. rewrite Hcust.
    cbn [uniqueResult fst ret throw].
    do 2 eexists; split; [reflexivity|]; split;
      [intros _; repeat split | discriminate].
  - unfold BookingService.createBooking. cbn [BookingRepository.save
      BookingRepository.jpa].
    unfold BookingRepository.jpa_save, bind, get, put, ret. cbn [Booking.id].
    do 2 eexists. split; [reflexivity|]. split; [discriminate|].
    intros _. eexists. split; [reflexivity|]. split; [reflexivity|].
    split; [|reflexivity].
    exists email, customer. repeat split; assumption.
  - do 2 eexists; split; [reflexivity|]; split;
      [intros _; repeat split | discriminate].
Qed.

Lemma createOfficerBooking_result
    (request : BookingRequest.t) (token : string) (db : Database) :
  exists (http : ResponseEntity BookingResponse.t) (db' : Database),
    BookingController.createOfficerBooking BookingRepository.jpa jwtUtil env
      calculateServiceCost request token db
    = (Return http, db')
    /\ (BookingResponse.success (body http) = false ->
        (status http = 400 \/ status http = 500)
        /\ BookingResponse.booking (body http) = None
        /\ db' = db)
    /\ (BookingResponse.success (body http) = true ->
        exists saved : Booking.t,
          status http = 200
          /\ BookingResponse.booking (body http) = Some saved
          /\ booking_accepted jwtUtil calculateServiceCost "OFFICER" true BOOKED
               ("BK" ++ currentTimeMillis env) request token db saved
          /\ db' = with_bookings db (bookings db ++ [saved])%list).
Proof.
  unfold BookingController.createOfficerBooking, try_catch, bind, JwtUtil.lift.
  destruct (JwtUtil.extractEmail jwtUtil (Text.replace "Bearer " "" token))
    as [email|e] eqn:Hemail;
    [|do 2 eexists; split; [reflexivity|]; split;
      [intros _; split; [right; reflexivity | split; reflexivity]
      | discriminate]].
  destruct (JwtUtil.extractRole jwtUtil (Text.replace "Bearer " "" token))
    as [role|e] eqn:Hrole;
    [|do 2 eexists; split; [reflexivity|]; split;
      [intros _; split; [right; reflexivity | split; reflexivity]
      | discriminate]].
  destruct (JwtUtil.extractUserId jwtUtil (Text.replace "Bearer " "" token))
    as [userId|e];
    [|do 2 eexists; split; [reflexivity|]; split;
      [intros _; split; [right; reflexivity | split; reflexivity]
      | discriminate]].
  destruct (BookingController.role_is "OFFICER" role) eqn:Hr; cbn [negb ret];
    [|do 2 eexists; split; [reflexivity|]; split;
      [intros _; split; [left; reflexivity | split; reflexivity]
      | discriminate]].
  apply role_is_eq in Hr. subst role.
  rewrite getCustomerByEmail_run. unfold rows_with_email.
  destruct (filter _ (customers db)) as [|customer [|c' l]] eqn:Hcust;
    cbn [uniqueResult fst ret throw].
  - rewrite getCustomerByEmail_run. unfold rows_with_email. rewrite Hcust.
    cbn [uniqueResult fst ret throw].
    do 2 eexists; split; [reflexivity|]; split;
      [intros _; split; [left; reflexivity | split; reflexivity]
      | discriminate].
  - unfold BookingService.createBooking. cbn [BookingRepository.save
      BookingRepository.jpa].
    unfold BookingRepository.jpa_save, bind, get, put, ret. cbn [Booking.id].
    do 2 eexists. split; [reflexivity|]. split; [discriminate|].
    intros _. eexists. split; [reflexivity|]. split; [reflexivity|].
    split; [|reflexivity].
    exists email, customer. repeat split; assumption.
  - do 2 eexists; split; [reflexivity|]; split;
      [intros _; split; [right; reflexivity | split; reflexivity]
      | discriminate].
Qed.

(** X21.
    The customer booking endpoint never throws.  A failure answer has
    status 400, carries no booking and writes nothing.  A success answer
    has status 200 and is given only when the token's role claim is
    CUSTOMER and its email names exactly one account; then one row is
    appended for that account with status NEW, the generated booking id and
    the cost computed without the officer flag, and, the booking id being
    new to the table, the row is found again under that booking id. *)
Theorem createBooking_endpoint_outcome
    (request : BookingRequest.t) (token : string) (db : Database) :
  ~ In generatedBookingId (map Booking.bookingId (bookings db)) ->
  exists (http : ResponseEntity BookingResponse.t) (db' : Database),
    BookingController.createBooking BookingRepository.jpa jwtUtil
      calculateServiceCost generatedBookingId request token db
    = (Return http, db')
    /\ (BookingResponse.success (body http) = false ->
        status http = 400 /\ BookingResponse.booking (body http) = None
        /\ db' = db)
    /\ (BookingResponse.success (body http) = true ->
        exists saved : Booking.t,
          status http = 200
          /\ BookingResponse.booking (body http) = Some saved
          /\ booking_accepted jwtUtil calculateServiceCost "CUSTOMER" false NEW
               generatedBookingId request token db saved
          /\ db' = with_bookings db (bookings db ++ [saved])%list
          /\ BookingService.getBookingById BookingRepository.jpa
               generatedBookingId db' = (Return (Some saved), db')).
Proof.
  intros Hfresh.
  destruct (createBooking_result request token db)
    as (http & db' & Hrun & Hfail & Hok).
  exists http, db'. split; [exact Hrun|]. split; [exact Hfail|].
  intros Hs. destruct (Hok Hs) as (saved & H200 & Hbody & Hacc & ->).
  exists saved. repeat split; try assumption.
  destruct Hacc as (email & customer & _ & _ & _ & Hsaved).
  assert (Hid : Booking.bookingId saved = generatedBookingId)
    by (rewrite Hsaved; reflexivity).
  rewrite <- Hid in Hfresh |- *. apply lookup_after_insert. exact Hfresh.
Qed.

(** X22.
    The officer booking endpoint never throws.  A failure answer has status
    400 or 500, carries no booking and writes nothing.  A success answer has
    status 200 and is given only when the token's role claim is OFFICER and
    its email names exactly one account; then one row is appended for that
    account with status BOOKED, the booking id BK followed by the clock's
    milliseconds and the cost computed with the officer flag, and, the
    booking id being new to the table, the row is found again under it. *)
Theorem createOfficerBooking_endpoint_outcome
    (request : BookingRequest.t) (token : string) (db : Database) :
  ~ In ("BK" ++ currentTimeMillis env) (map Booking.bookingId (bookings db)) ->
  exists (http : ResponseEntity BookingResponse.t) (db' : Database),
    BookingController.createOfficerBooking BookingRepository.jpa jwtUtil env
      calculateServiceCost request token db
    = (Return http, db')
    /\ (BookingResponse.success (body http) = false ->
        (status http = 400 \/ status http = 500)
        /\ BookingResponse.booking (body http) = None
        /\ db' = db)
    /\ (BookingResponse.success (body http) = true ->
        exists saved : Booking.t,
          status http = 200
          /\ BookingResponse.booking (body http) = Some saved
          /\ booking_accepted jwtUtil calculateServiceCost "OFFICER" true BOOKED
               ("BK" ++ currentTimeMillis env) request token db saved
          /\ db' = with_bookings db (bookings db ++ [saved])%list
          /\ BookingService.getBookingById BookingRepository.jpa
               ("BK" ++ currentTimeMillis env) db' = (Return (Some saved), db')).
Proof.
  intros Hfresh.
  destruct (createOfficerBooking_result request token db)
    as (http & db' & Hrun & Hfail & Hok).
  exists http, db'. split; [exact Hrun|]. split; [exact Hfail|].
  intros Hs. destruct (Hok Hs) as (saved & H200 & Hbody & Hacc & ->).
  exists saved. repeat split; try assumption.
  destruct Hacc as (email & customer & _ & _ & _ & Hsaved).
  assert (Hid : Booking.bookingId saved = "BK" ++ currentTimeMillis env)
    by (rewrite Hsaved; reflexivity).
  rewrite <- Hid in Hfresh |- *. apply lookup_after_insert. exact Hfresh.
Qed.

(** X23.
    One token opens at most one of the two booking endpoints: when the
    customer endpoint accepts a token, the officer endpoint answers the same
    token with status 400 and "Only officers can create officer bookings",
    and writes nothing; and the other way round. *)
Theorem booking_endpoints_exclude_each_other
    (request request' : BookingRequest.t) (token : string)
    (db db' other : Database) (http : ResponseEntity BookingResponse.t) :
  (BookingController.createBooking BookingRepository.jpa jwtUtil
     calculateServiceCost generatedBookingId request token db
   = (Return http, db') ->
   BookingResponse.success (body http) = true ->
   BookingController.createOfficerBooking BookingRepository.jpa jwtUtil env
     calculateServiceCost request' token other
   = (Return (BookingController.response 400 false
                "Only officers can create officer bookings" None), other))
  /\ (BookingController.createOfficerBooking BookingRepository.jpa jwtUtil env
        calculateServiceCost request token db
      = (Return http, db') ->
      BookingResponse.success (body http) = true ->
      BookingController.createBooking BookingRepository.jpa jwtUtil
        calculateServiceCost generatedBookingId request' token other
      = (Return (BookingController.response 400 false
                   "Only customers can create bookings" None), other)).
Proof.
  split; intros Hrun Hs.
  - destruct (createBooking_result request token db)
      as (http0 & db0 & Hrun0 & _ & Hok).
    rewrite Hrun in Hrun0. injection Hrun0 as <- <-.
    destruct (Hok Hs) as (saved & _ & _ & (email & customer & He & Hr & _) & _).
    unfold BookingController.createOfficerBooking, try_catch, bind, JwtUtil.lift.
    rewrite He, Hr.
    destruct (JwtUtil.extractUserId jwtUtil (Text.replace "Bearer " "" token))
      as [userId|e] eqn:Hu.
    + reflexivity.
    + exfalso. revert Hrun Hs.
      unfold BookingController.createBooking, try_catch, bind, JwtUtil.lift.
      rewrite He, Hr, Hu. intros Hrun. injection Hrun as <- _. discriminate.
  - destruct (createOfficerBooking_result request token db)
      as (http0 & db0 & Hrun0 & _ & Hok).
    rewrite Hrun in Hrun0. injection Hrun0 as <- <-.
    destruct (Hok Hs) as (saved & _ & _ & (email & customer & He & Hr & _) & _).
    unfold BookingController.createBooking, try_catch, bind, JwtUtil.lift.
    rewrite He, Hr.
    destruct (JwtUtil.extractUserId jwtUtil (Text.replace "Bearer " "" token))
      as [userId|e] eqn:Hu.
    + reflexivity.
    + exfalso. revert Hrun Hs.
      unfold BookingController.createOfficerBooking, try_catch, bind,
        JwtUtil.lift.
      rewrite He, Hr, Hu. intros Hrun. injection Hrun as <- _. discriminate.
Qed.

End BookingEndpoints.

(** ** The properties above on sample stores *)

Section MoreExamples.

Import Backend.
#[local] Open Scope backend_scope.

(** A new booking BK9 on the sample store. *)
Lemma createBooking_then_getBookingById_witness :
  exists (saved : Booking.t) (db' : Database),
    BookingService.createBooking BookingRepository.jpa (unsaved_booking "BK9")
      sample_db = (Return saved, db')
    /\ same_columns saved (unsaved_booking "BK9")
    /\ BookingService.getBookingById BookingRepository.jpa "BK9" db'
       = (Return (Some saved), db')
    /\ persisted db'.
Proof.
  destruct (createBooking_then_getBookingById (unsaved_booking "BK9") sample_db
              sample_db_persisted eq_refl)
    as (saved & db' & H1 & H2 & _ & _ & H3 & _ & H4).
  - cbn. intros [H|[H|[H|[]]]]; discriminate.
  - exists saved, db'. split; [exact H1|]. split; [exact H2|].
    split; [exact H3 | exact H4].
Defined.

(** The booking BK1 of the sample store moves to IN_TRANSIT. *)
Lemma updateBooking_then_getBookingById_witness :
  exists db' : Database,
    BookingService.updateBooking BookingRepository.jpa
      (sample_booking 1 "BK1" IN_TRANSIT) sample_db
    = (Return (Some (sample_booking 1 "BK1" IN_TRANSIT)), db')
    /\ BookingService.getBookingById BookingRepository.jpa "BK1" db'
       = (Return (Some (sample_booking 1 "BK1" IN_TRANSIT)), db')
    /\ List.length (bookings db') = 3%nat.
Proof.
  destruct (updateBooking_then_getBookingById (sample_booking 1 "BK1" NEW)
              (sample_booking 1 "BK1" IN_TRANSIT) sample_db
              sample_db_persisted eq_refl eq_refl)
    as (db' & H1 & H2 & _ & H3 & _).
  exists db'. split; [exact H1|]. split; [exact H2 | exact H3].
Defined.

(** A customer registers on a store that holds one officer and logs in. *)
Lemma register_then_login_witness :
  exists c : Customer.t,
    Customer.email c = "meera@example.com"%string
    /\ AuthService.login sample_env (attempt "CUST94940417" "pass1234")
         (snd (AuthService.register sample_env
                 (registration "meera@example.com") officers_db))
       = (Return (login_response "token:meera@example.com" c),
          snd (AuthService.register sample_env
                 (registration "meera@example.com") officers_db)).
Proof.
  destruct (register_then_login sample_env (registration "meera@example.com")
              officers_db _ eq_refl eq_refl eq_refl)
    as (id & c & token & Hid & _ & Hemail & Htoken & Hlogin & _).
  - intros r id [<-|[]] Hid. injection Hid as <-. discriminate.
  - exists c. split; [exact Hemail|].
    cbn in Htoken. rewrite Hemail in Htoken. injection Htoken as <-.
    injection Hid as <-. apply Hlogin. reflexivity.
Defined.

(** With a token issuer that throws, a registration is answered with a
    failure although the new account is stored. *)
Example register_with_failing_issuer :
  fst (AuthService.register keyless_env (registration "meera@example.com")
         officers_db)
  = Return (AuthResponse.failure
              "Registration failed: The specified key byte array is too short")
  /\ map Customer.email
       (customers (snd (AuthService.register keyless_env
                          (registration "meera@example.com") officers_db)))
     = ["ravi@example.com"; "meera@example.com"]%string
  /\ exists http db',
       AuthController.register keyless_env (registration "meera@example.com")
         officers_db = (Return http, db')
       /\ status http = 400
       /\ List.length (customers db') = 2%nat.
Proof.
  split; [reflexivity|]. split; [reflexivity|].
  do 2 eexists. split; [reflexivity|]. split; reflexivity.
Qed.

(** The customer of the sample store changes the password. *)
Lemma changePassword_outcome_witness :
  exists (response : PasswordChangeResponse.t) (db' : Database),
    AuthService.changePassword sample_env "null" 1
      (password_change "secret" "fresh") auth_db = (Return response, db')
    /\ (PasswordChangeResponse.success response = false -> db' = auth_db).
Proof.
  destruct (changePassword_outcome sample_env "null" 1
              (password_change "secret" "fresh") auth_db)
    as (response & db' & H1 & H2 & _).
  - repeat constructor; cbn; intuition discriminate.
  - exists response, db'. split; [exact H1 | exact H2].
Defined.

(** After it the new password logs in and the old one does not. *)
Lemma changePassword_then_login_witness :
  let db' := snd (AuthService.changePassword sample_env "null" 1
                    (password_change "secret" "fresh") auth_db) in
  AuthService.login sample_env (attempt "CUST2694940417" "fresh") db'
  = (Return (login_response "token:asha@example.com"
               (AuthService.setPassword
                  (sample_customer 1 "CUST2694940417" "asha@example.com" CUSTOMER)
                  "#fresh")), db')
  /\ AuthService.login sample_env (attempt "CUST2694940417" "secret") db'
     = (Return invalid_customer, db').
Proof.
  assert (Hnd : NoDup (map Customer.id (customers auth_db)))
    by (repeat constructor; cbn; intuition discriminate).
  destruct (changePassword_then_login sample_env "null" 1
              (password_change "secret" "fresh") auth_db
              "CUST2694940417" "fresh"
              (sample_customer 1 "CUST2694940417" "asha@example.com" CUSTOMER)
              _ Hnd eq_refl eq_refl eq_refl eq_refl eq_refl eq_refl eq_refl)
    as [Hcustomer _].
  exact (Hcustomer eq_refl).
Defined.

(** The customer sends feedback for the delivered booking BK2 twice. *)
Lemma addFeedback_twice_witness :
  let db' := snd (FeedbackController.addFeedback BookingRepository.jpa
                    (sample_jwtUtil "CUSTOMER") "null" (feedback_request "BK2")
                    "Bearer asha@example.com" courier_db) in
  FeedbackController.addFeedback BookingRepository.jpa
    (sample_jwtUtil "CUSTOMER") "null" (feedback_request "BK2")
    "Bearer asha@example.com" db'
  = (Return (badRequest
               {| FeedbackResponse.success := false;
                  FeedbackResponse.message :=
                    "Feedback failed: Feedback already exists for this booking";
                  FeedbackResponse.feedback := None |}),
     db').
Proof.
  exact (addFeedback_twice (sample_jwtUtil "CUSTOMER") "null"
           (feedback_request "BK2") "Bearer asha@example.com" courier_db
           _ _ eq_refl eq_refl).
Defined.

(** After that feedback the booking with primary key 2 has one row. *)
Lemma addFeedback_keeps_one_feedback_per_booking_witness :
  (List.length
     (feedback_of (Some 2%Z)
        (snd (FeedbackController.addFeedback BookingRepository.jpa
                (sample_jwtUtil "CUSTOMER") "null" (feedback_request "BK2")
                "Bearer asha@example.com" courier_db))) <= 1)%nat.
Proof.
  apply (addFeedback_keeps_one_feedback_per_booking
           (sample_jwtUtil "CUSTOMER") "null" (feedback_request "BK2")
           "Bearer asha@example.com" courier_db _
           (fst (FeedbackController.addFeedback BookingRepository.jpa
                   (sample_jwtUtil "CUSTOMER") "null" (feedback_request "BK2")
                   "Bearer asha@example.com" courier_db))).
  - intros id. cbn. lia.
  - reflexivity.
Defined.

(** The search text rao on the sample feedback. *)
Lemma filter_query_is_substring_search_witness :
  FeedbackRepository.findByCustomerNameContainingIgnoreCase "rao"
    (PageRequest_of 0 10) feedback_db
  = (Return
       (page_of
          (filter (fun f => Text.contains (Text.LOWER "rao")
                              (Text.LOWER (Customer.customerName
                                             (Feedback.customer f))))
                  (feedbacks feedback_db)) (PageRequest_of 0 10)), feedback_db).
Proof.
  exact (proj1 (filter_query_is_substring_search "rao" (PageRequest_of 0 10)
                  feedback_db eq_refl eq_refl)).
Defined.

(** The filter dented, with blanks around it, on the sample feedback. *)
Lemma filtered_listing_uses_one_column_witness :
  exists page : Page Feedback.t,
    FeedbackService.getOfficerFeedbackPaginated (PageRequest_of 0 10)
      (Some " dented ") feedback_db
    = (Return page, feedback_db).
Proof.
  destruct (filtered_listing_uses_one_column (PageRequest_of 0 10) " dented "
              feedback_db eq_refl) as (page & H & _).
  exists page. exact H.
Defined.

(** The filter % on the sample feedback. *)
Lemma percent_filter_lists_every_row_witness :
  FeedbackService.getOfficerFeedbackPaginated (PageRequest_of 0 10)
    (Some "%") feedback_db
  = (Return (page_of (feedbacks feedback_db) (PageRequest_of 0 10)), feedback_db).
Proof.
  apply (percent_filter_lists_every_row (PageRequest_of 0 10) "%" feedback_db
           eq_refl).
  cbn. discriminate.
Defined.

(** The customer of the sample store books with the booking id BK9. *)
Lemma createBooking_endpoint_outcome_witness :
  exists (http : ResponseEntity BookingResponse.t) (db' : Database),
    BookingController.createBooking BookingRepository.jpa
      (sample_jwtUtil "CUSTOMER") flat_cost "BK9" booking_request
      "Bearer asha@example.com" courier_db
    = (Return http, db')
    /\ (BookingResponse.success (body http) = false -> db' = courier_db).
Proof.
  destruct (createBooking_endpoint_outcome (sample_jwtUtil "CUSTOMER")
              flat_cost "BK9" booking_request "Bearer asha@example.com"
              courier_db) as (http & db' & H1 & H2 & _).
  - cbn. intros [H|[H|[H|[]]]]; discriminate.
  - exists http, db'. split; [exact H1|]. intros H.
    destruct (H2 H) as (_ & _ & E). exact E.
Defined.

(** The officer of the sample store books at the sample clock's time. *)
Lemma createOfficerBooking_endpoint_outcome_witness :
  exists (http : ResponseEntity BookingResponse.t) (db' : Database),
    BookingController.createOfficerBooking BookingRepository.jpa
      (sample_jwtUtil "OFFICER") sample_env flat_cost booking_request
      "Bearer ravi@example.com" courier_db
    = (Return http, db')
    /\ (BookingResponse.success (body http) = false -> db' = courier_db).
Proof.
  destruct (createOfficerBooking_endpoint_outcome (sample_jwtUtil "OFFICER")
              sample_env flat_cost booking_request "Bearer ravi@example.com"
              courier_db) as (http & db' & H1 & H2 & _).
  - cbn. intros [H|[H|[H|[]]]]; discriminate.
  - exists http, db'. split; [exact H1|]. intros H.
    destruct (H2 H) as (_ & _ & E). exact E.
Defined.

End MoreExamples.
